(** * tap-saasoptics: the extraction engine of [tap_saasoptics/sync.py]

    A shallow embedding of the module's functions ([get_bookmark],
    [write_bookmark], [process_records], [sync_endpoint],
    [get_selected_streams], [update_currently_syncing],
    [should_sync_stream], [sync]) and the properties of the bookmark, the
    record filter, the date windows, the pager and the orchestrator.

    Python values are an inductive type with Python's partial comparison,
    records and the bookmark table are finite maps, the query parameters are
    an insertion-ordered dictionary living in a store of shared objects,
    exceptions and non-termination are results of a small state-and-error
    monad over the run's world (state dictionary, shared objects, emitted
    messages and issued requests). *)

From Stdlib Require Import ZArith Lia Bool.
From stdpp Require Import base gmap strings list pretty.

Open Scope Z_scope.

(** ** Python values *)

(** The scalar values that occur as record fields, bookmarks and query
    parameters. *)
Inductive pyval : Type :=
  | PNone
  | PInt (z : Z)
  | PStr (s : string).

#[global] Instance pyval_eq_dec : EqDecision pyval.
Proof. solve_decision. Defined.

(** Python truthiness ([if x:]). *)
Definition truthy (v : pyval) : bool :=
  match v with
  | PNone => false
  | PInt z => negb (z =? 0)
  | PStr s => negb (String.eqb s "")
  end.

(** Truthiness of an optional string argument ([None] and [''] are falsy). *)
Definition truthy_str (o : option string) : bool :=
  match o with
  | None => false
  | Some s => negb (String.eqb s "")
  end.

(** [str(v)] and ['%s' % v]. *)
Definition py_str (v : pyval) : string :=
  match v with
  | PNone => "None"
  | PInt z => pretty z
  | PStr s => s
  end.

(** ** Exceptions and results *)

Inductive exn : Type :=
  | NameError (name : string)
  | UnboundLocalError (name : string)
  | TypeError
  | AttributeError
  | IndexError
  | ExternalError (what : string).

Inductive result (A : Type) : Type :=
  | Ok (a : A)
  | Raise (e : exn)
  | OutOfFuel.
Arguments Ok {A} a.
Arguments Raise {A} e.
Arguments OutOfFuel {A}.

(** Python's [>] and [>=]: integers by value, strings by code units,
    anything else (including [None]) is a [TypeError]. *)
Definition py_gt (a b : pyval) : result bool :=
  match a, b with
  | PInt x, PInt y => Ok (y <? x)
  | PStr s, PStr t => Ok (String.ltb t s)
  | _, _ => Raise TypeError
  end.

Definition py_ge (a b : pyval) : result bool :=
  match a, b with
  | PInt x, PInt y => Ok (y <=? x)
  | PStr s, PStr t => Ok (String.leb t s)
  | _, _ => Raise TypeError
  end.

(** ** Records, API payloads, state *)

(** A record is a dictionary from field names to values. *)
Abbreviation record := (gmap string pyval).

(** The values of a decoded JSON response body. *)
Inductive jval : Type :=
  | JNull
  | JNum (z : Z)
  | JText (s : string)
  | JList (rs : list record).

(** A decoded response body: a JSON object. *)
Abbreviation data := (gmap string jval).

(** An insertion-ordered dictionary (the query parameters): [d[k] = v]
    overwrites in place or appends, [d.items()] is the list itself. *)
Definition odict : Type := list (string * pyval).

Fixpoint odict_set (k : string) (v : pyval) (d : odict) : odict :=
  match d with
  | [] => [(k, v)]
  | (k', v') :: d' =>
      if String.eqb k' k then (k, v) :: d' else (k', v') :: odict_set k v d'
  end.

Fixpoint odict_get (k : string) (d : odict) : option pyval :=
  match d with
  | [] => None
  | (k', v') :: d' => if String.eqb k' k then Some v' else odict_get k d'
  end.

(** The state dictionary: the key ['bookmarks'] (absent, or a dictionary
    from stream names to watermarks) and the key ['currently_syncing']
    (absent, or present with a stream name or [None]). *)
Record state : Type := State {
  bookmarks : option (gmap string pyval);
  currently_syncing : option (option string)
}.

(** A catalog entry: the stream's id and whether its root metadata has
    ['selected'] set to [True]. *)
Record catalog_entry : Type := CatalogEntry {
  tap_stream_id : string;
  selected : bool
}.

Definition catalog : Type := list catalog_entry.

(** [catalog.get_stream(name)]: the first entry with that id, or [None]. *)
Definition get_stream (c : catalog) (name : string) : option catalog_entry :=
  List.find (fun e => String.eqb (tap_stream_id e) name) c.

(** A reference to a shared dictionary object in the store. *)
Definition loc : Type := nat.

(** What the run sends out: schema, record and state messages to the sink,
    requests to the API. *)
Inductive event : Type :=
  | EvSchema (stream : string)
  | EvRecord (stream : string) (r : record)
  | EvState (st : state)
  | EvRequest (url : jval) (path : string) (params : option string)
              (endpoint : string).

(** The world a run acts on: the state dictionary (mutated in place), the
    store of shared parameter dictionaries, and the messages sent so far. *)
Record world : Type := World {
  w_state : state;
  w_store : list odict;
  w_trace : list event
}.

(** ** The monad of the engine: state passing with exceptions *)

Definition M (A : Type) : Type := world -> result A * world.

Definition ret {A} (a : A) : M A := fun w => (Ok a, w).
Definition raise {A} (e : exn) : M A := fun w => (Raise e, w).
Definition out_of_fuel {A} : M A := fun w => (OutOfFuel, w).

Definition bind {A B} (m : M A) (k : A -> M B) : M B :=
  fun w =>
    match m w with
    | (Ok a, w') => k a w'
    | (Raise e, w') => (Raise e, w')
    | (OutOfFuel, w') => (OutOfFuel, w')
    end.

Definition lift {A} (r : result A) : M A := fun w => (r, w).

Notation "'let!' x ':=' m 'in' k" := (bind m (fun x => k))
  (at level 10, x pattern, m at level 100, k at level 200).

Definition emit (e : event) : M unit :=
  fun w => (Ok tt, World (w_state w) (w_store w) (w_trace w ++ [e])).

Definition get_state : M state := fun w => (Ok (w_state w), w).

Definition put_state (st : state) : M unit :=
  fun w => (Ok tt, World st (w_store w) (w_trace w)).

(** ** The collaborators the module calls but does not define *)

(** The HTTP accessor, the clock, and the functions of [singer] and of
    [tap_saasoptics.transform] that [sync.py] imports. *)
Class Externals : Type := {
(** [client.base_url] *)
  client_base_url : string;
(** [client.get(url=, path=, params=, endpoint=)]: the decoded body
      ([None] for no body), or a transport error. *)
  client_get : jval -> string -> option string -> string -> result (option data);
(** [transform_json(data, stream_name, data_key)] of
      [tap_saasoptics.transform]: the list of records under a key. *)
  transform_json : data -> string -> string -> list record;
(** [Transformer().transform(record, schema, metadata)] for the stream's
      schema; it may reject a record. *)
  transform : string -> record -> result record;
(** [Transformer()._transform_datetime(value)] *)
  transform_datetime : pyval -> result pyval;
(** [singer.utils.strptime_to_utc]: an instant in microseconds. *)
  strptime_to_utc : pyval -> result Z;
(** [singer.utils.strftime] *)
  strftime : Z -> string;
(** [singer.utils.now()] at the start of [sync_endpoint]. *)
  utils_now : Z;
(** [template.format(arg)] *)
  str_format : string -> string -> string
}.

(** ** Bookmarks *)

(** [get_bookmark(state, stream, default)] *)
Definition get_bookmark (st : option state) (stream : string) (default : pyval)
  : pyval :=
  match st with
  | None => default
  | Some s =>
      match bookmarks s with
      | None => default
      | Some b => match b !! stream with Some v => v | None => default end
      end
  end.

(** The in-place update of [write_bookmark]. *)
Definition set_bookmark (st : state) (stream : string) (value : pyval) : state :=
  let b := match bookmarks st with None => ∅ | Some b => b end in
  State (Some (<[stream := value]> b)) (currently_syncing st).

(** [write_bookmark(state, stream, value)]: update, then
    [singer.write_state(state)]. *)
Definition write_bookmark (stream : string) (value : pyval) : M unit :=
  let! st := get_state in
  let st' := set_bookmark st stream value in
  let! _ := put_state st' in emit (EvState st').

(** [write_schema(catalog, stream_name)] *)
Definition write_schema (c : catalog) (stream_name : string) : M unit :=
  match get_stream c stream_name with
  | None => raise AttributeError
  | Some _ => emit (EvSchema stream_name)
  end.

(** [write_record(stream_name, record, time_extracted)] *)
Definition write_record (stream_name : string) (r : record) : M unit :=
  emit (EvRecord stream_name r).

(** ** process_records *)

Section ProcessRecords.
Context `{Externals}.

Variable stream_name : string.
Variable bookmark_field : option string.
Variable bookmark_type : option string.
Variable last_datetime : pyval.
Variable last_integer : pyval.
Variable parent : option string.
Variable parent_id : pyval.

(** Lines 72-74: the parent's id is stored in the record itself. *)
Definition annotate (r : record) : record :=
    match parent with
    | Some p =>
        if truthy parent_id && truthy_str parent
        then <[(p +:+ "_id") := parent_id]> r
        else r
    | None => r
    end.

(** The record's replication-key value, when [bookmark_field] is truthy
      and the field is in the transformed record. *)
Definition bookmark_of (tr : record) : option pyval :=
    match bookmark_field with
    | Some f => if truthy_str bookmark_field then tr !! f else None
    | None => None
    end.

(** Lines 83-86: the running maximum after the record. *)
Definition update_max (tr : record) (max_bookmark_value : pyval)
    : result pyval :=
    match bookmark_of tr with
    | Some v =>
        match max_bookmark_value with
        | PNone => Ok v
        | _ =>
            match py_gt v max_bookmark_value with
            | Ok higher => Ok (if higher then v else max_bookmark_value)
            | Raise e => Raise e
            | OutOfFuel => OutOfFuel
            end
        end
    | None => Ok max_bookmark_value
    end.

(** Lines 88-103: whether the transformed record is written. *)
Definition keep (tr : record) : result bool :=
    match bookmark_of tr with
    | Some v =>
        if bool_decide (bookmark_type = Some "integer") then
          py_ge v last_integer
        else if bool_decide (bookmark_type = Some "datetime") then
          match transform_datetime last_datetime with
          | Ok last_dttm =>
              match transform_datetime v with
              | Ok bookmark_dttm => py_ge bookmark_dttm last_dttm
              | Raise e => Raise e
              | OutOfFuel => OutOfFuel
              end
          | Raise e => Raise e
          | OutOfFuel => OutOfFuel
          end
        else Ok false
    | None => Ok true
    end.

(** The loop over the page's records (lines 71-103). It returns the
      running maximum, the counter and the records as the loop leaves them
      (the annotation mutates the records of the caller's list). *)
Fixpoint process_loop (records : list record) (max_bookmark_value : pyval)
      (counter : Z) : M (pyval * Z * list record) :=
    match records with
    | [] => ret (max_bookmark_value, counter, [])
    | r :: rest =>
        let r' := annotate r in
        let! tr := lift (transform stream_name r') in
        let! mbv := lift (update_max tr max_bookmark_value) in
        let! k := lift (keep tr) in
        let! counter' :=
          (if k : bool
           then let! _ := write_record stream_name tr in ret (counter + 1)
           else ret counter) in
        let! out := process_loop rest mbv counter' in
        let '(m, c, rs) := out in
        ret (m, c, r' :: rs)
    end.

(** [process_records(catalog, stream_name, records, time_extracted, ...)] *)
Definition process_records (c : catalog) (records : list record)
      (max_bookmark_value : pyval) : M (pyval * Z * list record) :=
    match get_stream c stream_name with
    | None => raise AttributeError
    | Some _ => process_loop records max_bookmark_value 0
    end.

End ProcessRecords.

(** ** Stream definitions *)

(** An entry of [STREAMS] (and, recursively, of a stream's ['children']).
    A key the dictionary may lack is an [option]; ['params'], when present,
    is a reference to the definition's own dictionary object. *)
#[warnings="-register-all"]
Inductive endpoint_config : Type := EndpointConfig {
  cfg_path : option string;
  cfg_params : option loc;
  cfg_bookmark_query_field_from : option string;
  cfg_bookmark_query_field_to : option string;
  cfg_replication_keys : option (list string);
  cfg_bookmark_type : option string;
  cfg_data_key : option (option string);
  cfg_key_properties : option (list string);
  cfg_parent : option string;
  cfg_children : list (string * endpoint_config)
}.

(** The arguments of one [sync_endpoint] call ([client], [catalog], [state]
    and [start_date] are fixed for the run). *)
Record call : Type := Call {
  c_stream_name : string;
  c_path : string;
  c_endpoint_config : endpoint_config;
  c_static_params : loc;
  c_bookmark_query_field_from : option string;
  c_bookmark_query_field_to : option string;
  c_bookmark_field : option string;
  c_bookmark_type : option string;
  c_data_key : option string;
  c_id_fields : option (list string);
  c_parent : option string;
  c_parent_id : pyval
}.

(** The local variables of [sync_endpoint] that the loops update and later
    iterations read. [total_records] and [parent_id_field] are unbound until
    first assigned; [parent_id] is the parameter, reassigned at line 253. *)
Record locals : Type := Locals {
  max_bookmark_value : pyval;
  total_records : option jval;
  parent_id : pyval;
  parent_id_field : option string
}.

(** How a loop body ends: the next iteration, or a [return] from the
    function. *)
Inductive flow (A : Type) : Type :=
  | Next (a : A)
  | Return (v : jval).
Arguments Next {A} a.
Arguments Return {A} v.

(** ** Names *)

(** The names bound at module level in [sync.py]: its imports, [LOGGER] and
    its functions. *)
Definition module_names : list string :=
  ["datetime"; "timedelta"; "math"; "singer"; "metrics"; "metadata";
   "Transformer"; "utils"; "strptime_to_utc"; "strftime"; "transform_json";
   "STREAMS"; "LOGGER"; "write_schema"; "write_record"; "get_bookmark";
   "write_bookmark"; "transform_datetime"; "process_records";
   "sync_endpoint"; "get_selected_streams"; "update_currently_syncing";
   "should_sync_stream"; "sync"].

(** Reading a name that no assignment or parameter of the function binds:
    it is looked up at module level, and a [NameError] is raised when it is
    not there. *)
Definition read_global (name : string) : M unit :=
  if bool_decide (name ∈ module_names) then ret tt else raise (NameError name).

(** ** Shared dictionaries *)

(** A fresh dictionary object ([{}]). *)
Definition alloc (d : odict) : M loc :=
  fun w => (Ok (length (w_store w)),
            World (w_state w) (w_store w ++ [d]) (w_trace w)).

Definition load (l : loc) : M odict :=
  fun w => match w_store w !! l with
           | Some d => (Ok d, w)
           | None => (Raise (ExternalError "dangling reference"), w)
           end.

(** [d[k] = v] on the object behind a reference: every holder of the
    reference sees the update. *)
Definition store_set (l : loc) (k : string) (v : pyval) : M unit :=
  fun w => match w_store w !! l with
           | Some d =>
               (Ok tt, World (w_state w) (<[l := odict_set k v d]> (w_store w))
                             (w_trace w))
           | None => (Raise (ExternalError "dangling reference"), w)
           end.

(** [endpoint_config.get('params', {})]: the definition's own dictionary, or
    a fresh empty one. *)
Definition params_of (cfg : endpoint_config) : M loc :=
  match cfg_params cfg with
  | Some l => ret l
  | None => alloc []
  end.

(** ** Date windows *)

(** [timedelta(days=n)] in microseconds. *)
Definition days (n : Z) : Z := n * 86400000000.

(** Lines 144-147. *)
Definition first_window (start now : Z) : Z * Z :=
  let end_window := start + days 30 in
  (start, if now <? end_window then now else end_window).

(** Lines 304-309. *)
Definition next_window (end_window now days_interval : Z) : Z * Z :=
  let next_end_window := end_window + days days_interval in
  (end_window, if now <? next_end_window then now else next_end_window).

(** The loop of line 153, [while not start_window == now_datetime], around
    any body. *)
Fixpoint window_loop {L : Type} (body : Z -> Z -> L -> M (flow L))
    (now days_interval : Z) (fuel : nat) (start_window end_window : Z) (l : L)
  : M (flow L) :=
  if start_window =? now then ret (Next l)
  else
    match fuel with
    | O => out_of_fuel
    | S fuel' =>
        let! f := body start_window end_window l in
        match f with
        | Return v => ret (Return v)
        | Next l' =>
            let '(s, e) := next_window end_window now days_interval in
            window_loop body now days_interval fuel' s e l'
        end
    end.

(** ** Which streams run *)

(** [get_selected_streams(catalog)]. The source builds a set and turns it
    into a list; only membership and emptiness are ever asked of it. *)
Definition get_selected_streams (c : catalog) : list string :=
  map tap_stream_id (filter (fun e => selected e = true) c).

(** [should_sync_stream(selected_streams, last_stream, stream_name)] *)
Definition should_sync_stream (selected_streams : list string)
    (last_stream : option string) (stream_name : string)
  : bool * option string :=
  if bool_decide (last_stream = Some stream_name)
     || bool_decide (last_stream = None)
  then
    if bool_decide (stream_name ∈ selected_streams)
    then (true, None)
    else (false, None)
  else (false, last_stream).

(** ** sync_endpoint *)

(** Lines 245-252: the key-property field the parent's id is read from. *)
Fixpoint pick_parent_id_field (i : Z) (id_fields : list string)
    (parent_id_field : option string) : option string :=
  match id_fields with
  | [] => parent_id_field
  | id_field :: rest =>
      let f1 := if i =? 0 then Some id_field else parent_id_field in
      let f2 := if String.eqb id_field "id" then Some id_field else f1 in
      pick_parent_id_field (i + 1) rest f2
  end.

(** Line 178: the query string of a parameter dictionary. *)
Definition squash (params : odict) : string :=
  String.concat "&" (map (fun '(k, v) => k +:+ "=" +:+ py_str v) params).

(** Lines 177-180. *)
Definition querystring (page : Z) (params : odict) : option string :=
  if (page =? 1) && negb (bool_decide (params = [])) then Some (squash params)
  else None.

Section SyncEndpoint.
Context `{Externals}.

Variable cat : catalog.
Variable start_date : pyval.

(** The recursive call for a child stream. *)
Variable self : call -> M jval.

Variable c : call.

(** Lines 244-282, for one parent record: the parent's id is read from the
      record and the child stream is synced with it. *)
Definition sync_child (child_stream_name : string)
      (child_endpoint_config : endpoint_config) (r : record) (l : locals)
    : M locals :=
    let! id_fields :=
      (match c_id_fields c with
       | Some fs => ret fs
       | None => raise TypeError
       end) in
    let field := pick_parent_id_field 0 id_fields (parent_id_field l) in
    let! f :=
      (match field with
       | Some f => ret f
       | None => raise (UnboundLocalError "parent_id_field")
       end) in
    let pid := default PNone (r !! f) in
    let l' := Locals (max_bookmark_value l) (total_records l) pid (Some f) in
    let child_path :=
      str_format (default child_stream_name (cfg_path child_endpoint_config))
                 (py_str pid) in
    let! static_params := params_of child_endpoint_config in
    let! bookmark_field :=
      (match default [] (cfg_replication_keys child_endpoint_config) with
       | k :: _ => ret k
       | [] => raise IndexError
       end) in
    let! child_total_records :=
      self (Call child_stream_name child_path child_endpoint_config
              static_params
              (cfg_bookmark_query_field_from child_endpoint_config)
              (cfg_bookmark_query_field_to child_endpoint_config)
              (Some bookmark_field)
              (cfg_bookmark_type child_endpoint_config)
              (default (Some "results") (cfg_data_key child_endpoint_config))
              (cfg_key_properties child_endpoint_config)
              (cfg_parent child_endpoint_config)
              pid) in
    ret l'.

(** Line 244: the loop over the page's records for one child stream. *)
Fixpoint sync_child_records (child_stream_name : string)
      (child_endpoint_config : endpoint_config) (records : list record)
      (l : locals) : M locals :=
    match records with
    | [] => ret l
    | r :: rest =>
        let! l' := sync_child child_stream_name child_endpoint_config r l in
        sync_child_records child_stream_name child_endpoint_config rest l'
    end.

(** Lines 237-282: the loop over the declared children. *)
Fixpoint sync_children (children : list (string * endpoint_config))
      (records : list record) (l : locals) : M locals :=
    match children with
    | [] => ret l
    | (child_stream_name, child_endpoint_config) :: rest =>
        let '(should_stream, _) :=
          should_sync_stream (get_selected_streams cat) None child_stream_name in
        let! l' :=
          (if should_stream
           then sync_child_records child_stream_name child_endpoint_config
                  records l
           else ret l) in
        sync_children rest records l'
    end.

Section Windows.

Variable last_datetime : pyval.
Variable last_integer : pyval.

(** Lines 205-208. *)
Definition records_of (d : data) : list record :=
    match c_data_key c with
    | None => transform_json d (c_stream_name c) "results"
    | Some data_key =>
        if bool_decide (is_Some (d !! data_key))
        then transform_json d (c_stream_name c) data_key
        else []
    end.

(** One iteration of the pagination loop (lines 176-301); [Next] carries
      the page number, URL and offset of the next iteration. *)
Definition page_step (params : loc) (page : Z) (next_url : jval)
      (offset : Z) (l : locals) : M (flow (Z * jval * Z * locals)) :=
    let limit := 100 in
    let! d := (if page =? 1 then load params else ret []) in
    let qs := querystring page d in
    let! _ := emit (EvRequest next_url (c_path c) qs (c_stream_name c)) in
    let! response := lift (client_get next_url (c_path c) qs (c_stream_name c)) in
    match response with
    | None => ret (Return (JNum 0))
    | Some d =>
        if bool_decide (d = ∅) then ret (Return (JNum 0))
        else
          match records_of d with
          | [] => ret (Return (JNum 0))
          | transformed_data =>
              let! out :=
                process_records (c_stream_name c) (c_bookmark_field c)
                  (c_bookmark_type c) last_datetime last_integer (c_parent c)
                  (parent_id l) cat transformed_data (max_bookmark_value l) in
              let '(mbv, record_count, transformed_data') := out in
              let total := default (JNum 0) (d !! "count") in
              let next_url' := default JNull (d !! "next") in
              let l1 := Locals mbv (Some total) (parent_id l)
                               (parent_id_field l) in
              let! l2 :=
                sync_children (cfg_children (c_endpoint_config c))
                  transformed_data' l1 in
              let! _ :=
                (if truthy_str (c_bookmark_field c)
                 then write_bookmark (c_stream_name c) (max_bookmark_value l2)
                 else ret tt) in
              let to_rec := offset + limit in
              let! _ :=
                (match total with
                 | JNum n => ret tt
                 | _ => raise TypeError
                 end) in
              ret (Next (page + 1, next_url', offset + limit, l2))
          end
    end.

(** The pagination loop of line 175, [while next_url is not None]. *)
Fixpoint page_loop (params : loc) (fuel : nat) (page : Z) (next_url : jval)
      (offset : Z) (l : locals) : M (flow locals) :=
    match next_url with
    | JNull => ret (Next l)
    | _ =>
        match fuel with
        | O => out_of_fuel
        | S fuel' =>
            let! f := page_step params page next_url offset l in
            match f with
            | Return v => ret (Return v)
            | Next (page', next_url', offset', l') =>
                page_loop params fuel' page' next_url' offset' l'
            end
        end
    end.

(** Lines 158-168: [params] is the very object [static_params] refers to,
    and the window's bounds (or the integer cursor) are written into it. *)
Definition window_params (start_window end_window : Z) : M loc :=
  let params := c_static_params c in
  let! _ :=
    (match c_bookmark_query_field_from c with
     | Some bookmark_query_field_from =>
         if truthy_str (c_bookmark_query_field_from c) then
           let! _ :=
             (if bool_decide (c_bookmark_type c = Some "datetime") then
                store_set params bookmark_query_field_from
                  (PStr (strftime start_window))
              else if bool_decide (c_bookmark_type c = Some "integer") then
                store_set params bookmark_query_field_from last_integer
              else ret tt) in
           match c_bookmark_query_field_to c with
           | Some bookmark_query_field_to =>
               if truthy_str (c_bookmark_query_field_to c)
                  && bool_decide (c_bookmark_type c = Some "datetime")
               then store_set params bookmark_query_field_to
                      (PStr (strftime end_window))
               else ret tt
           | None => ret tt
           end
         else ret tt
     | None => ret tt
     end) in
  ret params.

(** Line 172: the URL of a window's first request. *)
Definition first_url : jval :=
  JText (client_base_url +:+ "/" +:+ c_path c).

(** Lines 154-157: the log statement at the head of the window loop. Its
    argument reads [bookmark_query_field], which is neither a parameter
    nor a local of [sync_endpoint]. *)
Definition log_window_start : M unit :=
  read_global "bookmark_query_field".

(** Lines 158-301, what follows the log statement in an iteration of the
    window loop: the parameters of the window, then its pages. *)
Definition window_pages (fuel : nat) (start_window end_window : Z)
    (l : locals) : M (flow locals) :=
  let! params := window_params start_window end_window in
  page_loop params fuel 1 first_url 0 l.

(** The body of the window loop (lines 154-301): the log statement, then
    the parameters and the pages. *)
Definition window_body (fuel : nat) (start_window end_window : Z)
    (l : locals) : M (flow locals) :=
  let! _ := log_window_start in
  window_pages fuel start_window end_window l.

End Windows.

(** The body of [sync_endpoint]. *)
Definition sync_endpoint_body (fuel : nat) : M jval :=
    let! st := get_state in
    let is_integer := bool_decide (c_bookmark_type c = Some "integer") in
    let last_integer :=
      if is_integer then get_bookmark (Some st) (c_stream_name c) (PInt 0)
      else PNone in
    let last_datetime :=
      if is_integer then PNone
      else get_bookmark (Some st) (c_stream_name c) start_date in
    let max_bookmark_value :=
      if is_integer then last_integer else last_datetime in
    let! _ := write_schema cat (c_stream_name c) in
    let now_datetime := utils_now in
    let! w :=
      (if truthy_str (c_bookmark_query_field_from c)
          && truthy_str (c_bookmark_query_field_to c)
       then
         let! start_window := lift (strptime_to_utc last_datetime) in
         ret (30, first_window start_window now_datetime)
       else
         let! start_window := lift (strptime_to_utc last_datetime) in
         (* end_window = now_datetime; diff_secs = end_window - start_window;
            line 152 then divides [diff_sec], a name nothing binds: were it
            a module-level object, the division would be a TypeError *)
         let! _ := read_global "diff_sec" in
         raise TypeError) in
    let '(days_interval, (start_window, end_window)) := w in
    let! f :=
      window_loop
        (window_body last_datetime last_integer fuel)
        now_datetime days_interval fuel start_window end_window
        (Locals max_bookmark_value None (c_parent_id c) None) in
    match f with
    | Return v => ret v
    | Next l =>
        match total_records l with
        | Some v => ret v
        | None => raise (UnboundLocalError "total_records")
        end
    end.

End SyncEndpoint.

(** [sync_endpoint(client, catalog, state, start_date, stream_name, ...)];
    [fuel] bounds the depth of the child recursion and the iterations of
    each loop. *)
Fixpoint sync_endpoint `{Externals} (fuel : nat) (cat : catalog)
    (start_date : pyval) (c : call) : M jval :=
  match fuel with
  | O => out_of_fuel
  | S fuel' =>
      sync_endpoint_body cat start_date
        (sync_endpoint fuel' cat start_date) c fuel'
  end.

(** ** The orchestrator *)

(** [update_currently_syncing(state, stream_name)] *)
Definition update_currently_syncing (stream_name : option string) : M unit :=
  let! st := get_state in
  let st' :=
    match stream_name, currently_syncing st with
    | None, Some _ => State (bookmarks st) None
    | _, _ => State (bookmarks st) (Some stream_name)
    end in
  let! _ := put_state st' in
  emit (EvState st').

(** [singer.get_currently_syncing(state)] *)
Definition get_currently_syncing (st : state) : option string :=
  match currently_syncing st with
  | Some o => o
  | None => None
  end.

Section Sync.
Context `{Externals}.

(** What line 376 calls: [sync_endpoint] itself in [sync] below. *)
Variable endpoint : pyval -> call -> M jval.

Variable cat : catalog.

(** [config.get('start_date')]: [start_date] is bound only when the key is
      in [config]. *)
Variable config_start_date : option pyval.

(** Lines 373-392, for one stream that should run. *)
Definition sync_stream (stream_name : string)
      (endpoint_config : endpoint_config) : M unit :=
    let! _ := update_currently_syncing (Some stream_name) in
    let path := default stream_name (cfg_path endpoint_config) in
    let! start_date :=
      (match config_start_date with
       | Some d => ret d
       | None => raise (UnboundLocalError "start_date")
       end) in
    let! static_params := params_of endpoint_config in
    let! bookmark_field :=
      (match default [] (cfg_replication_keys endpoint_config) with
       | k :: _ => ret k
       | [] => raise IndexError
       end) in
    let! total_records :=
      endpoint start_date
        (Call stream_name path endpoint_config static_params
           (cfg_bookmark_query_field_from endpoint_config)
           (cfg_bookmark_query_field_to endpoint_config)
           (Some bookmark_field)
           (cfg_bookmark_type endpoint_config)
           (default (Some "results") (cfg_data_key endpoint_config))
           (cfg_key_properties endpoint_config)
           None PNone) in
    update_currently_syncing None.

(** The loop of line 368 over [STREAMS.items()]. *)
Fixpoint sync_streams (selected_streams : list string)
      (streams : list (string * endpoint_config)) (last_stream : option string)
    : M unit :=
    match streams with
    | [] => ret tt
    | (stream_name, endpoint_config) :: rest =>
        let '(should_stream, last_stream') :=
          should_sync_stream selected_streams last_stream stream_name in
        let! _ :=
          (if should_stream then sync_stream stream_name endpoint_config
           else ret tt) in
        sync_streams selected_streams rest last_stream'
    end.

(** [sync(client, config, catalog, state)] over the stream definitions
      [STREAMS] of [tap_saasoptics.streams]. *)
Definition sync_with (STREAMS : list (string * endpoint_config)) : M unit :=
    let selected_streams := get_selected_streams cat in
    match selected_streams with
    | [] => ret tt
    | _ =>
        let! st := get_state in
        let last_stream := get_currently_syncing st in
        sync_streams selected_streams STREAMS last_stream
    end.

End Sync.

(** [sync] as the module has it: line 376 calls [sync_endpoint]. *)
Definition sync `{Externals} (fuel : nat) (config_start_date : option pyval)
    (cat : catalog) (STREAMS : list (string * endpoint_config)) : M unit :=
  sync_with (sync_endpoint fuel cat) cat config_start_date STREAMS.

(** * Vocabulary of the properties *)

(** The order Python's comparison induces on watermarks of one kind;
    [None] (no watermark yet) is below everything, as in line 84. *)
Definition py_le (a b : pyval) : Prop :=
  match a, b with
  | PNone, _ => True
  | PInt x, PInt y => x <= y
  | PStr s, PStr t => String.leb s t = true
  | _, _ => False
  end.

#[global] Instance jval_eq_dec : EqDecision jval.
Proof. solve_decision. Defined.

#[global] Instance exn_eq_dec : EqDecision exn.
Proof. solve_decision. Defined.

#[global] Instance result_eq_dec {A} `{EqDecision A} : EqDecision (result A).
Proof. solve_decision. Defined.

(** The running maximum of lines 83-86 carried over the transformed records
    of a page, in order. *)
Fixpoint fold_update_max (bookmark_field : option string) (trs : list record)
    (max_bookmark_value : pyval) : result pyval :=
  match trs with
  | [] => Ok max_bookmark_value
  | tr :: rest =>
      match update_max bookmark_field tr max_bookmark_value with
      | Ok m => fold_update_max bookmark_field rest m
      | Raise e => Raise e
      | OutOfFuel => OutOfFuel
      end
  end.

(** The claim's reading of the filter: the record's replication-key value is
    at or after the last watermark, integers by value, datetimes after both
    are normalized. *)
Definition at_or_after_watermark `{Externals} (bookmark_type : option string)
    (last_datetime last_integer : pyval) (v : pyval) : bool :=
  if bool_decide (bookmark_type = Some "integer") then
    match v, last_integer with
    | PInt x, PInt b => b <=? x
    | _, _ => false
    end
  else
    match transform_datetime v, transform_datetime last_datetime with
    | Ok (PStr n), Ok (PStr l) => String.leb l n
    | _, _ => false
    end.

(** A page of an integer-cursor stream: every transformed record has the
    replication key [f] with an integer value, and so are the watermarks. *)
Definition integer_keyed (f : string) (bookmark_type : option string)
    (last_integer max_bookmark_value : pyval) (trs : list record) : Prop :=
  bookmark_type = Some "integer"
  /\ (exists b, last_integer = PInt b)
  /\ (max_bookmark_value = PNone \/ exists z, max_bookmark_value = PInt z)
  /\ Forall (fun tr : record => exists z, tr !! f = Some (PInt z)) trs.

(** A page of a datetime stream: every transformed record has the
    replication key [f] with a string value that normalizes to a string, and
    so does the last watermark. *)
Definition datetime_keyed `{Externals} (f : string)
    (bookmark_type : option string)
    (last_datetime max_bookmark_value : pyval) (trs : list record) : Prop :=
  bookmark_type = Some "datetime"
  /\ (exists l, transform_datetime last_datetime = Ok (PStr l))
  /\ (max_bookmark_value = PNone \/ exists s, max_bookmark_value = PStr s)
  /\ Forall (fun tr : record =>
               exists s n, tr !! f = Some (PStr s)
                           /\ transform_datetime (PStr s) = Ok (PStr n)) trs.

(** The replication-key value of a transformed record ([None] when it has
    no such field). *)
Definition key_of (f : string) (tr : record) : pyval := default PNone (tr !! f).

(** ** A sample API and the library functions, to run the engine on concrete inputs *)

(** Modelled from the spec: [transform_json] of [tap_saasoptics.transform]
    is not among the sources; the spec has the raw records of a page
    located under a stream-specific key, so the stand-in returns the list
    under the data key. *)
Definition demo_transform_json (d : data) (stream_name data_key : string)
  : list record :=
  match d !! data_key with
  | Some (JList rs) => rs
  | _ => []
  end.

(** Days since 1970-01-01 of a date of the proleptic Gregorian calendar,
    and back. *)
Definition days_from_civil (y m d : Z) : Z :=
  let y' := if m <=? 2 then y - 1 else y in
  let era := y' / 400 in
  let yoe := y' - era * 400 in
  let doy := (153 * (if 2 <? m then m - 3 else m + 9) + 2) / 5 + d - 1 in
  let doe := yoe * 365 + yoe / 4 - yoe / 100 + doy in
  era * 146097 + doe - 719468.

Definition civil_from_days (z : Z) : Z * Z * Z :=
  let z' := z + 719468 in
  let era := z' / 146097 in
  let doe := z' - era * 146097 in
  let yoe := (doe - doe / 1460 + doe / 36524 - doe / 146096) / 365 in
  let doy := doe - (365 * yoe + yoe / 4 - yoe / 100) in
  let mp := (5 * doy + 2) / 153 in
  let d := doy - (153 * mp + 2) / 5 + 1 in
  let m := if mp <? 10 then mp + 3 else mp - 9 in
  (if m <=? 2 then yoe + era * 400 + 1 else yoe + era * 400, m, d).

Fixpoint zeros (n : nat) : string :=
  match n with
  | O => ""
  | S n' => "0" +:+ zeros n'
  end.

(** A number in decimal, padded with zeros to a width. *)
Definition padded (width : nat) (z : Z) : string :=
  zeros (width - String.length (pretty z)) +:+ pretty z.

(** [singer.utils.strftime] of an instant in UTC, given in microseconds
    since the epoch: the format [%Y-%m-%dT%H:%M:%S.%fZ]. *)
Definition utc_strftime (t : Z) : string :=
  let us := t mod 86400000000 in
  let '(y, m, d) := civil_from_days (t / 86400000000) in
  padded 4 y +:+ "-" +:+ padded 2 m +:+ "-" +:+ padded 2 d +:+ "T"
  +:+ padded 2 (us / 3600000000) +:+ ":"
  +:+ padded 2 (us / 60000000 mod 60) +:+ ":"
  +:+ padded 2 (us / 1000000 mod 60) +:+ "."
  +:+ padded 6 (us mod 1000000) +:+ "Z".

(** The value of a decimal digit. *)
Definition digit_of (a : Ascii.ascii) : option Z :=
  let n := Z.of_N (Ascii.N_of_ascii a) - 48 in
  if (0 <=? n) && (n <=? 9) then Some n else None.

(** Exactly [n] decimal digits at the head of a string. *)
Fixpoint read_digits (n : nat) (s : string) (acc : Z) : option (Z * string) :=
  match n with
  | O => Some (acc, s)
  | S n' =>
      match s with
      | String a rest =>
          match digit_of a with
          | Some d => read_digits n' rest (10 * acc + d)
          | None => None
          end
      | EmptyString => None
      end
  end.

(** Whether a character is the one a one-character string holds. *)
Definition is_char (c : string) (a : Ascii.ascii) : bool :=
  String.eqb (String a EmptyString) c.

(** The rest of a string after a given first character. *)
Definition expect (c : string) (s : string) : option string :=
  match s with
  | String b rest => if is_char c b then Some rest else None
  | EmptyString => None
  end.

(** The fraction of a second, when there is one: a dot and six digits. *)
Definition read_fraction (s : string) : option (Z * string) :=
  match s with
  | String a rest => if is_char "." a then read_digits 6 rest 0 else Some (0, s)
  | EmptyString => Some (0, s)
  end.

(** The zone: [Z], or a sign with hours and minutes, in minutes east of
    UTC; nothing may follow it. *)
Definition read_zone (s : string) : option Z :=
  match s with
  | String sign rest =>
      if is_char "Z" sign then
        match rest with
        | EmptyString => Some 0
        | _ => None
        end
      else
        '(hh, rest) ← read_digits 2 rest 0;
        rest ← expect ":" rest;
        '(mm, rest) ← read_digits 2 rest 0;
        match rest with
        | EmptyString =>
            if is_char "+" sign then Some (hh * 60 + mm)
            else if is_char "-" sign then Some (- (hh * 60 + mm))
            else None
        | _ => None
        end
  | EmptyString => None
  end.

(** The instant, in microseconds since the epoch, of a timestamp written
    as [YYYY-MM-DDTHH:MM:SS], an optional fraction of six digits, and a
    zone. *)
Definition parse_iso (s : string) : option Z :=
  '(y, s) ← read_digits 4 s 0;
  s ← expect "-" s;
  '(m, s) ← read_digits 2 s 0;
  s ← expect "-" s;
  '(d, s) ← read_digits 2 s 0;
  s ← expect "T" s;
  '(hh, s) ← read_digits 2 s 0;
  s ← expect ":" s;
  '(mi, s) ← read_digits 2 s 0;
  s ← expect ":" s;
  '(ss, s) ← read_digits 2 s 0;
  '(us, s) ← read_fraction s;
  zone ← read_zone s;
  if (1 <=? m) && (m <=? 12) && (1 <=? d) && (d <=? 31)
     && (hh <? 24) && (mi <? 60) && (ss <? 60)
  then Some (((days_from_civil y m d * 24 + hh) * 60 + mi - zone) * 60000000
             + ss * 1000000 + us)
  else None.

(** [singer.utils.strptime_to_utc] on timestamps of that form; [None] and
    numbers are a [TypeError], any other text is rejected. *)
Definition demo_strptime (v : pyval) : result Z :=
  match v with
  | PStr s =>
      match parse_iso s with
      | Some t => Ok t
      | None => Raise (ExternalError "unknown string format")
      end
  | _ => Raise TypeError
  end.

(** [singer.utils.strftime] *)
Definition demo_strftime (t : Z) : string := utc_strftime t.

(** [Transformer()._transform_datetime]: a timestamp is rewritten in UTC
    with microseconds; [None] and whatever does not parse give [None]. *)
Definition demo_transform_datetime (v : pyval) : result pyval :=
  match v with
  | PStr s =>
      match parse_iso s with
      | Some t => Ok (PStr (utc_strftime t))
      | None => Ok PNone
      end
  | _ => Ok PNone
  end.

(** The collaborators around a given API and clock: records pass the
    transformer unchanged. *)
Definition demo_externals
    (get : jval -> string -> option string -> string -> result (option data))
    (now : Z) : Externals :=
  {| client_base_url := "https://api.example";
     client_get := get;
     transform_json := demo_transform_json;
     transform := fun _ r => Ok r;
     transform_datetime := demo_transform_datetime;
     strptime_to_utc := demo_strptime;
     strftime := demo_strftime;
     utils_now := now;
     str_format := fun template arg => template +:+ arg |}.

(** An API that answers every request with no body. *)
Definition silent_api (url : jval) (path : string) (params : option string)
    (endpoint : string) : result (option data) := Ok None.

Definition empty_world : world := World (State None None) [] [].

(** The two kinds of watermark. *)
Inductive kind : Type := KInt | KStr.

Definition has_kind (k : kind) (v : pyval) : Prop :=
  match k, v with
  | KInt, PInt _ => True
  | KStr, PStr _ => True
  | _, _ => False
  end.

(** [m] is the maximum of [old] and the values [vs]: an upper bound of all of
    them that is one of them. *)
Definition is_max_of (old : pyval) (vs : list pyval) (m : pyval) : Prop :=
  py_le old m /\ Forall (fun v => py_le v m) vs /\ (m = old \/ m ∈ vs).

(** A record with an integer [id]. *)
Definition with_id (id : Z) : record := {[ "id" := PInt id ]}.

Definition invoices_catalog : catalog := [CatalogEntry "invoices" true].

(** The transformed records of the page a pagination step fetches in a
    given configuration: the response to the step's request, the records
    under the data key, annotated and transformed. *)
Definition page_records `{Externals} (c : call) (params : loc) (page : Z)
    (next_url : jval) (l : locals) (w : world) : list record :=
  let d := if page =? 1 then default [] (w_store w !! params) else [] in
  match client_get next_url (c_path c) (querystring page d) (c_stream_name c)
  with
  | Ok (Some body) =>
      omap (fun r =>
              match transform (c_stream_name c)
                      (annotate (c_parent c) (parent_id l) r) with
              | Ok tr => Some tr
              | _ => None
              end)
           (records_of c body)
  | _ => []
  end.

(** The pages a traversal processes to the end, in order: the pages of the
    successive steps of the loop that reach the next iteration. *)
Fixpoint pages_seen `{Externals} (cat : catalog) (self : call -> M jval)
    (c : call) (last_datetime last_integer : pyval) (params : loc)
    (fuel : nat) (page : Z) (next_url : jval) (offset : Z) (l : locals)
    (w : world) : list (list record) :=
  match next_url with
  | JNull => []
  | _ =>
      match fuel with
      | O => []
      | S fuel' =>
          match page_step cat self c last_datetime last_integer params page
                  next_url offset l w with
          | (Ok (Next (page', next_url', offset', l')), w') =>
              page_records c params page next_url l w
              :: pages_seen cat self c last_datetime last_integer params
                   fuel' page' next_url' offset' l' w'
          | _ => []
          end
      end
  end.

(** The replication-key values of the records that have one. *)
Definition keys_of (f : string) (trs : list record) : list pyval :=
  omap (fun tr : record => tr !! f) trs.

(** An API with two pages of invoices: ids 48, 52, 55, then id 60. *)
Definition two_pages_api (url : jval) (path : string) (params : option string)
    (endpoint : string) : result (option data) :=
  if bool_decide (url = JText "https://api.example/invoices") then
    Ok (Some {[ "results" := JList [with_id 48; with_id 52; with_id 55];
                "count" := JNum 4;
                "next" := JText "https://api.example/invoices?page=2" ]})
  else if bool_decide (url = JText "https://api.example/invoices?page=2") then
    Ok (Some {[ "results" := JList [with_id 60]; "count" := JNum 4;
                "next" := JNull ]})
  else Ok None.

(** A stream definition with nothing but a replication key. *)
Definition plain_config (key : string) : endpoint_config :=
  EndpointConfig None None None None (Some [key]) None None (Some ["id"]) None
    [].

(** A top-level call for the integer-cursor stream [invoices]. *)
Definition invoices_call : call :=
  Call "invoices" "invoices" (plain_config "id") 0%nat None None (Some "id")
    (Some "integer") (Some "results") (Some ["id"]) None PNone.

(** A child stream never synced, for properties that hold whatever the
    child calls do. *)
Definition no_child (c : call) : M jval := raise (ExternalError "no child").

(** A response that yields no records: no body, an empty body, or a body
    with no records under the data key. *)
Definition no_records `{Externals} (c : call) (r : result (option data))
  : Prop :=
  r = Ok None
  \/ exists d, r = Ok (Some d) /\ (d = ∅ \/ records_of c d = []).


Definition contacts_catalog : catalog := [CatalogEntry "contacts" true].

(** The definition of the datetime stream [contacts], whose API takes a
    from/to range; its ['params'] dictionary is the object at reference 0. *)
Definition contacts_config : endpoint_config :=
  EndpointConfig None (Some 0%nat) (Some "modified__gte")
    (Some "modified__lte") (Some ["modified"]) (Some "datetime") None
    (Some ["id"]) None [].

(** The top-level call [sync] makes for [contacts]. *)
Definition contacts_call : call :=
  Call "contacts" "contacts" contacts_config 0%nat
    (Some "modified__gte") (Some "modified__lte") (Some "modified")
    (Some "datetime") (Some "results") (Some ["id"]) None PNone.

Definition customers_catalog : catalog := [CatalogEntry "customers" true].

(** The top-level call for a datetime stream [customers] whose API has no
    from/to range filter. *)
Definition customers_call : call :=
  Call "customers" "customers" (plain_config "modified") 0%nat None None
    (Some "modified") (Some "datetime") (Some "results") (Some ["id"]) None
    PNone.

(** A body run over a list of windows in order, until one returns or
    raises. *)
Fixpoint over_windows {L : Type} (body : Z -> Z -> L -> M (flow L))
    (ws : list (Z * Z)) (l : L) : M (flow L) :=
  match ws with
  | [] => ret (Next l)
  | (s, e) :: rest =>
      let! f := body s e l in
      match f with
      | Return v => ret (Return v)
      | Next l' => over_windows body rest l'
      end
  end.

(** The windows [ws] tile the half-open range from [a] to [b]: each is a
    non-empty [s, e), the first starts at [a], each next one starts where
    the previous ends, the last ends at [b]; no window when [a = b]. *)
Fixpoint tiles (a b : Z) (ws : list (Z * Z)) : Prop :=
  match ws with
  | [] => a = b
  | (s, e) :: rest => s = a /\ a < e /\ e <= b /\ tiles e b rest
  end.

(** The 30-day windows from [start] to [now], at most [n] of them. *)
Fixpoint schedule (n : nat) (start now : Z) : list (Z * Z) :=
  if start =? now then []
  else
    match n with
    | O => []
    | S n' =>
        let e := Z.min (start + days 30) now in
        (start, e) :: schedule n' e now
    end.

(** A body that only notes the window it is given. *)
Definition note_window (s e : Z) (seen : list (Z * Z))
  : M (flow (list (Z * Z))) :=
  ret (Next (seen ++ [(s, e)])).

(** The requests of a trace that are made for a given stream: their URL and
    query string, in order. *)
Definition requests_for (name : string) (t : list event)
  : list (jval * option string) :=
  omap (fun e => match e with
                 | EvRequest url _ params endpoint =>
                     if bool_decide (endpoint = name) then Some (url, params)
                     else None
                 | _ => None
                 end) t.

(** A computation that sends no request for the stream, however it ends. *)
Definition sends_no_request {A : Type} (name : string) (m : M A) : Prop :=
  forall w r w', m w = (r, w') ->
                 requests_for name (w_trace w') = requests_for name (w_trace w).

(** The requests of a traversal that starts at [page] with [next_url]:
    the first goes to [next_url] with the query string of lines 177-180,
    and each further one goes, with the next page number, to the ['next']
    of the response to the one before. *)
Fixpoint follows_next `{Externals} (c : call) (d : odict) (page : Z)
    (next_url : jval) (reqs : list (jval * option string)) : Prop :=
  match reqs with
  | [] => True
  | (url, qs) :: rest =>
      url = next_url /\ qs = querystring page d
      /\ match rest with
         | [] => True
         | _ =>
             exists body,
               client_get url (c_path c) qs (c_stream_name c) = Ok (Some body)
               /\ follows_next c d (page + 1) (default JNull (body !! "next"))
                    rest
         end
  end.

(** The declared streams from the stream [s] on, [s] included. *)
Fixpoint from_stream (s : string) (streams : list (string * endpoint_config))
  : list (string * endpoint_config) :=
  match streams with
  | [] => []
  | (name, cfg) :: rest =>
      if String.eqb name s then (name, cfg) :: rest else from_stream s rest
  end.

(** The declared streams a run resumes from: all of them without a
    pointer, those from the interrupted stream on with one. *)
Definition resume_from (last_stream : option string)
    (streams : list (string * endpoint_config))
  : list (string * endpoint_config) :=
  match last_stream with
  | None => streams
  | Some s => from_stream s streams
  end.

(** The streams a run syncs: the selected ones among those it resumes
    from, in declaration order. *)
Definition streams_to_run (selected_streams : list string)
    (last_stream : option string) (streams : list (string * endpoint_config))
  : list (string * endpoint_config) :=
  filter (fun p => fst p ∈ selected_streams) (resume_from last_stream streams).

(** Lines 373-392 for each stream of a list, in order. *)
Fixpoint run_all (endpoint : pyval -> call -> M jval)
    (config_start_date : option pyval)
    (streams : list (string * endpoint_config)) : M unit :=
  match streams with
  | [] => ret tt
  | (name, cfg) :: rest =>
      let! _ := sync_stream endpoint config_start_date name cfg in
      run_all endpoint config_start_date rest
  end.

(** A stand-in for [sync_endpoint] that announces the stream's schema and
    reports no records. *)
Definition announce_only (start_date : pyval) (c : call) : M jval :=
  let! _ := emit (EvSchema (c_stream_name c)) in
  ret (JNum 0).

(** Two declared streams, [customers] before [invoices]. *)
Definition two_streams : list (string * endpoint_config) :=
  [("customers", plain_config "modified"); ("invoices", plain_config "id")].

(** A computation that, however it ends, has only written records of the
    stream: the state and the shared dictionaries are as before. *)
Definition only_writes_records {A : Type} (name : string) (m : M A) : Prop :=
  forall w r w',
    m w = (r, w') ->
    w_state w' = w_state w /\ w_store w' = w_store w
    /\ exists evs,
         w_trace w' = w_trace w ++ evs
         /\ Forall (fun e => exists tr, e = EvRecord name tr) evs.

(** The dictionary a window of a datetime stream leaves, from the one it
    found (lines 163 and 168). *)
Definition after_window `{Externals} (from : string) (to : option string)
    (start_window end_window : Z) (d : odict) : odict :=
  let d1 := odict_set from (PStr (strftime start_window)) d in
  match to with
  | Some t =>
      if truthy_str (Some t)
      then odict_set t (PStr (strftime end_window)) d1
      else d1
  | None => d1
  end.

(** Two pages of the stream [contacts]. *)
Definition contacts_pages_api (url : jval) (path : string)
    (params : option string) (endpoint : string) : result (option data) :=
  if bool_decide (url = JText "https://api.example/contacts") then
    Ok (Some {[ "results" :=
                  JList [{[ "id" := PInt 1;
                            "modified" := PStr "2023-01-05T00:00:00Z" ]}];
                "count" := JNum 2;
                "next" := JText "https://api.example/contacts?page=2" ]})
  else if bool_decide (url = JText "https://api.example/contacts?page=2") then
    Ok (Some {[ "results" :=
                  JList [{[ "id" := PInt 2;
                            "modified" := PStr "2023-01-06T00:00:00Z" ]}];
                "count" := JNum 2;
                "next" := JNull ]})
  else Ok None.

(** A contact modified at one in the morning, two hours east of UTC. *)
Definition eastern_contact : record :=
  {[ "id" := PInt 7; "modified" := PStr "2023-01-01T01:00:00+02:00" ]}.

(** A contact modified at midnight UTC, as the transformer writes
    timestamps. *)
Definition midnight_contact : record :=
  {[ "id" := PInt 8; "modified" := PStr "2023-01-01T00:00:00.000000Z" ]}.

(** * Properties *)

(** ** The order on watermarks *)

Lemma ascii_compare_refl (a : Ascii.ascii) : Ascii.compare a a = Eq.
Proof. unfold Ascii.compare. apply N.compare_refl. Qed.

Lemma string_compare_refl (s : string) : String.compare s s = Eq.
Proof.
  induction s as [|a s IH]; simpl; [reflexivity|].
  rewrite ascii_compare_refl. exact IH.
Qed.

Lemma ascii_compare_lt_trans (a b d : Ascii.ascii) :
  Ascii.compare a b = Lt -> Ascii.compare b d = Lt -> Ascii.compare a d = Lt.
Proof.
  unfold Ascii.compare. rewrite !N.compare_lt_iff. lia.
Qed.

Lemma string_compare_lt_trans (s t u : string) :
  String.compare s t = Lt -> String.compare t u = Lt -> String.compare s u = Lt.
Proof.
  revert t u. induction s as [|a s IH]; intros [|b t] [|d u]; simpl;
    try congruence.
  destruct (Ascii.compare a b) eqn:Hab; try congruence;
    destruct (Ascii.compare b d) eqn:Hbd; try congruence.
  - apply Ascii.compare_eq_iff in Hab, Hbd. subst.
    rewrite ascii_compare_refl. apply IH.
  - apply Ascii.compare_eq_iff in Hab. subst. rewrite Hbd. reflexivity.
  - apply Ascii.compare_eq_iff in Hbd. subst. rewrite Hab. reflexivity.
  - rewrite (ascii_compare_lt_trans a b d Hab Hbd). reflexivity.
Qed.

Lemma string_leb_refl (s : string) : String.leb s s = true.
Proof. unfold String.leb. rewrite string_compare_refl. reflexivity. Qed.

Lemma string_ltb_leb (s t : string) : String.ltb s t = true -> String.leb s t = true.
Proof. unfold String.ltb, String.leb. destruct (String.compare s t); congruence. Qed.

Lemma string_ltb_false_leb (s t : string) :
  String.ltb s t = false -> String.leb t s = true.
Proof.
  unfold String.ltb, String.leb. rewrite (String.compare_antisym s t).
  destruct (String.compare t s); simpl; congruence.
Qed.

Lemma string_leb_trans (s t u : string) :
  String.leb s t = true -> String.leb t u = true -> String.leb s u = true.
Proof.
  unfold String.leb. intros Hst Htu.
  destruct (String.compare s t) eqn:Est; try discriminate.
  - apply String.compare_eq_iff in Est. subst. exact Htu.
  - destruct (String.compare t u) eqn:Etu; try discriminate.
    + apply String.compare_eq_iff in Etu. subst. rewrite Est. reflexivity.
    + rewrite (string_compare_lt_trans s t u Est Etu). reflexivity.
Qed.

Lemma py_le_refl (a : pyval) : py_le a a.
Proof. destruct a; simpl; auto using string_leb_refl. lia. Qed.

Lemma py_le_trans (a b d : pyval) : py_le a b -> py_le b d -> py_le a d.
Proof.
  destruct a, b, d; simpl; try tauto; try lia.
  apply string_leb_trans.
Qed.

Lemma py_ge_le (a b : pyval) : py_ge a b = Ok true -> py_le b a.
Proof.
  destruct a, b; simpl; try discriminate; intros [= Hle]; [lia | exact Hle].
Qed.

Lemma py_gt_le (a b : pyval) : py_gt a b = Ok true -> py_le b a.
Proof.
  destruct a, b; simpl; try discriminate; intros [= Hlt];
    [lia | apply string_ltb_leb; exact Hlt].
Qed.

Lemma py_gt_false_le (a b : pyval) : py_gt a b = Ok false -> py_le a b.
Proof.
  destruct a, b; simpl; try discriminate; intros [= Hlt];
    [lia | apply string_ltb_false_leb; exact Hlt].
Qed.


(** ** process_records *)

Section ProcessRecordsFacts.
Context `{Externals}.
Variable stream_name : string.
Variable bookmark_field : option string.
Variable bookmark_type : option string.
Variable last_datetime last_integer : pyval.
Variable parent : option string.
Variable parent_id : pyval.

Let kept (tr : record) : Prop :=
  keep bookmark_field bookmark_type last_datetime last_integer tr = Ok true.

(** The loop, when the transformer accepts every record and no comparison
    fails: the maximum is the fold of line 83-86, the counter counts the
    records kept, the sink receives exactly those, in order. *)
Lemma process_loop_ok (records trs : list record) (mbv m : pyval)
    (counter : Z) (w : world) :
  Forall2 (fun r tr =>
             transform stream_name (annotate parent parent_id r) = Ok tr)
          records trs ->
  Forall (fun tr => exists b,
            keep bookmark_field bookmark_type last_datetime last_integer tr
            = Ok b) trs ->
  fold_update_max bookmark_field trs mbv = Ok m ->
  process_loop stream_name bookmark_field bookmark_type last_datetime
    last_integer parent parent_id records mbv counter w
  = (Ok (m, counter + Z.of_nat (length (filter kept trs)),
         map (annotate parent parent_id) records),
     World (w_state w) (w_store w)
           (w_trace w ++ map (EvRecord stream_name) (filter kept trs))).
Proof.
  intros Htr. revert mbv counter w.
  induction Htr as [|r tr records trs Hr Htr IH]; intros mbv counter w Hk Hm.
  - simpl in *. injection Hm as ->. unfold ret. destruct w; simpl.
    rewrite Z.add_0_r, app_nil_r. reflexivity.
  - apply Forall_cons in Hk as [[b Hb] Hk]. simpl in Hm.
    destruct (update_max bookmark_field tr mbv) as [m1| |] eqn:Hm1;
      try discriminate.
    simpl. unfold bind at 1. unfold lift at 1. rewrite Hr.
    unfold bind at 1. unfold lift at 1. rewrite Hm1.
    unfold bind at 1. unfold lift at 1. rewrite Hb.
    destruct b.
    + rewrite (filter_cons_True kept tr trs) by exact Hb.
      unfold bind at 1. unfold bind at 1. unfold write_record, emit, ret.
      simpl. unfold bind at 1.
      rewrite (IH m1 (counter + 1) _ Hk Hm). simpl.
      rewrite <- app_assoc. simpl.
      replace (counter + 1 + Z.of_nat (length (filter kept trs)))
        with (counter + Z.pos (Pos.of_succ_nat (length (filter kept trs))))
        by lia.
      reflexivity.
    + rewrite (filter_cons_False kept tr trs)
        by (unfold kept; rewrite Hb; discriminate).
      unfold bind at 1. unfold ret at 1. unfold bind at 1.
      rewrite (IH m1 counter w Hk Hm). reflexivity.
Qed.

End ProcessRecordsFacts.

Section KeyedPages.
Context `{Externals}.
Variable f : string.
Hypothesis f_truthy : f <> "".

Lemma bookmark_of_truthy (tr : record) : bookmark_of (Some f) tr = tr !! f.
Proof.
  unfold bookmark_of, truthy_str.
  destruct (String.eqb f "") eqn:E; [|reflexivity].
  apply String.eqb_eq in E. contradiction.
Qed.

(** One step of the running maximum on values of one kind. *)
Lemma update_max_kind (k : kind) (tr : record) (v mbv : pyval) :
  tr !! f = Some v -> has_kind k v -> mbv = PNone \/ has_kind k mbv ->
  exists m, update_max (Some f) tr mbv = Ok m /\ has_kind k m
            /\ py_le mbv m /\ py_le v m /\ (m = mbv \/ m = v).
Proof.
  intros Hv Hk Hm. unfold update_max. rewrite bookmark_of_truthy, Hv.
  destruct Hm as [-> |Hm].
  - exists v. repeat split; auto using py_le_refl.
  - destruct k, v, mbv; simpl in *; try contradiction.
    + destruct (z0 <? z) eqn:E; eexists; repeat split; eauto; simpl; lia.
    + destruct (String.ltb s0 s) eqn:E; eexists; repeat split; eauto; simpl;
        auto using string_leb_refl, string_ltb_leb, string_ltb_false_leb.
Qed.

(** The running maximum over a page of one kind is the maximum of the old
    value and the page's values. *)
Lemma fold_update_max_kind (k : kind) (trs : list record) (mbv : pyval) :
  Forall (fun tr : record => exists v, tr !! f = Some v /\ has_kind k v) trs ->
  mbv = PNone \/ has_kind k mbv ->
  exists m, fold_update_max (Some f) trs mbv = Ok m
            /\ (m = PNone \/ has_kind k m)
            /\ is_max_of mbv (map (key_of f) trs) m.
Proof.
  intros Htrs. revert mbv.
  induction Htrs as [|tr trs [v [Hv Hk]] Htrs IH]; intros mbv Hm.
  - exists mbv. simpl. repeat split; auto using py_le_refl.
  - destruct (update_max_kind k tr v mbv Hv Hk Hm)
      as (m1 & E1 & K1 & L1 & L2 & C1).
    destruct (IH m1 (or_intror K1)) as (m & E & K & L & U & C).
    exists m. simpl. rewrite E1. repeat split; auto.
    + eapply py_le_trans; eauto.
    + constructor; [|exact U].
      unfold key_of. rewrite Hv. simpl. eapply py_le_trans; eauto.
    + destruct C as [-> |C].
      * destruct C1 as [-> | ->]; [left; reflexivity|].
        right. unfold key_of at 1. rewrite Hv. simpl. left.
      * right. right. exact C.
Qed.

Lemma integer_keyed_kind bt li mbv trs :
  integer_keyed f bt li mbv trs ->
  Forall (fun tr : record => exists v, tr !! f = Some v /\ has_kind KInt v) trs
  /\ (mbv = PNone \/ has_kind KInt mbv).
Proof.
  intros (_ & _ & Hm & Htrs). split.
  - eapply Forall_impl; [exact Htrs|]. intros tr [z Hz].
    exists (PInt z). split; [exact Hz|exact I].
  - destruct Hm as [-> |[z ->]]; [left|right]; simpl; auto.
Qed.

Lemma datetime_keyed_kind bt ld mbv trs :
  datetime_keyed f bt ld mbv trs ->
  Forall (fun tr : record => exists v, tr !! f = Some v /\ has_kind KStr v) trs
  /\ (mbv = PNone \/ has_kind KStr mbv).
Proof.
  intros (_ & _ & Hm & Htrs). split.
  - eapply Forall_impl; [exact Htrs|]. intros tr (s & n & Hs & _).
    exists (PStr s). split; [exact Hs|exact I].
  - destruct Hm as [-> |[z ->]]; [left|right]; simpl; auto.
Qed.

(** On a keyed page the filter of lines 88-103 is the comparison with the
    watermark. *)
Lemma keep_keyed bt ld li mbv trs :
  integer_keyed f bt li mbv trs \/ datetime_keyed f bt ld mbv trs ->
  Forall (fun tr =>
            keep (Some f) bt ld li tr
            = Ok (at_or_after_watermark bt ld li (key_of f tr))) trs.
Proof.
  intros [(Hbt & [b ->] & _ & Htrs)|(Hbt & [l Hl] & _ & Htrs)];
    (eapply Forall_impl; [exact Htrs|]); subst bt.
  - intros tr [z Hz]. unfold keep, at_or_after_watermark, key_of.
    rewrite bookmark_of_truthy, Hz. simpl. reflexivity.
  - intros tr (s & n & Hs & Hn). unfold keep, at_or_after_watermark, key_of.
    rewrite bookmark_of_truthy, Hs. simpl. rewrite Hl, Hn. reflexivity.
Qed.

Lemma filter_keep_keyed bt ld li (trs : list record) :
  Forall (fun tr =>
            keep (Some f) bt ld li tr
            = Ok (at_or_after_watermark bt ld li (key_of f tr))) trs ->
  filter (fun tr => keep (Some f) bt ld li tr = Ok true) trs
  = filter (fun tr => at_or_after_watermark bt ld li (key_of f tr) = true) trs.
Proof.
  induction 1 as [|tr trs Hk _ IH]; [reflexivity|].
  rewrite !filter_cons, IH.
  destruct (decide (keep (Some f) bt ld li tr = Ok true)) as [E|E];
    destruct (decide (at_or_after_watermark bt ld li (key_of f tr) = true))
      as [E'|E']; try reflexivity; exfalso.
  - apply E'. rewrite Hk in E. congruence.
  - apply E. rewrite Hk, E'. reflexivity.
Qed.

End KeyedPages.

(** C2. Filter correctness: on a page of a stream with a replication key
    (integer, or datetime with both sides normalized), [process_records]
    returns normally, and the sink receives exactly the transformed records
    whose replication-key value is at or after the last watermark, each once
    and in page order; a record whose value is strictly before the watermark
    is not written. The returned maximum is the running maximum of the page
    and the returned count is the number of records written. *)
Theorem filter_correctness `{Externals} (stream_name f : string)
    (bookmark_type : option string) (last_datetime last_integer : pyval)
    (parent : option string) (parent_id : pyval) (cat : catalog)
    (records trs : list record) (mbv : pyval) (w : world) :
  is_Some (get_stream cat stream_name) ->
  f <> "" ->
  Forall2 (fun r tr =>
             transform stream_name (annotate parent parent_id r) = Ok tr)
          records trs ->
  integer_keyed f bookmark_type last_integer mbv trs
  \/ datetime_keyed f bookmark_type last_datetime mbv trs ->
  let newer := fun tr : record =>
    at_or_after_watermark bookmark_type last_datetime last_integer
      (key_of f tr) = true in
  exists m,
    fold_update_max (Some f) trs mbv = Ok m
    /\ process_records stream_name (Some f) bookmark_type last_datetime
         last_integer parent parent_id cat records mbv w
       = (Ok (m, Z.of_nat (length (filter newer trs)),
              map (annotate parent parent_id) records),
          World (w_state w) (w_store w)
                (w_trace w ++ map (EvRecord stream_name) (filter newer trs)))
    /\ (forall tr, ~ newer tr ->
          EvRecord stream_name tr
          ∉ map (EvRecord stream_name) (filter newer trs)).
Proof.
  intros [e He] Hf Htr Hkeyed newer.
  assert (Hmax : exists m, fold_update_max (Some f) trs mbv = Ok m).
  { destruct Hkeyed as [Hi|Hd].
    - destruct (integer_keyed_kind f _ _ _ _ Hi) as [Hk Hm].
      destruct (fold_update_max_kind f Hf KInt trs mbv Hk Hm) as (m & E & _).
      eauto.
    - destruct (datetime_keyed_kind f _ _ _ _ Hd) as [Hk Hm].
      destruct (fold_update_max_kind f Hf KStr trs mbv Hk Hm) as (m & E & _).
      eauto. }
  destruct Hmax as [m Hm]. exists m. split; [exact Hm|].
  pose proof (keep_keyed f Hf _ _ _ _ _ Hkeyed) as Hkeep.
  split.
  - unfold process_records. rewrite He.
    rewrite (process_loop_ok stream_name (Some f) bookmark_type last_datetime
               last_integer parent parent_id records trs mbv m 0 w Htr).
    + rewrite (filter_keep_keyed f _ _ _ trs Hkeep). reflexivity.
    + eapply Forall_impl; [exact Hkeep|]. intros tr ->. eauto.
    + exact Hm.
  - intros tr Hn Hin. apply list_elem_of_fmap in Hin as (tr' & [= ->] & Hin).
    apply list_elem_of_filter in Hin as [Hin _]. exact (Hn Hin).
Qed.

(** The scenario of the integer cursor: watermark 50 and a page with ids
    48, 52 and 55: only 52 and 55 are written, the new maximum is 55. *)
Lemma filter_correctness_witness :
  process_records (H := demo_externals silent_api 0) "invoices" (Some "id")
    (Some "integer") PNone (PInt 50) None PNone invoices_catalog
    [with_id 48; with_id 52; with_id 55] (PInt 50) empty_world
  = (Ok (PInt 55, 2, [with_id 48; with_id 52; with_id 55]),
     World (State None None) []
       [EvRecord "invoices" (with_id 52); EvRecord "invoices" (with_id 55)]).
Proof.
  destruct (filter_correctness (H := demo_externals silent_api 0)
              "invoices" "id" (Some "integer") PNone (PInt 50) None PNone
              invoices_catalog [with_id 48; with_id 52; with_id 55]
              [with_id 48; with_id 52; with_id 55] (PInt 50) empty_world)
    as (m & Hm & Hrun & _).
  - eexists. reflexivity.
  - discriminate.
  - repeat constructor.
  - left. repeat split; eauto.
    repeat constructor; eexists; reflexivity.
  - vm_compute in Hm. injection Hm as <-. rewrite Hrun. reflexivity.
Defined.


(** C1. The bookmark candidate moves back in time. [process_records] is
    given the watermark 2023-01-01T00:00:00Z (as bookmark so far and as
    last datetime) and a page with one contact modified at
    2023-01-01T01:00:00+02:00, an hour before the watermark. Line 85
    compares the two strings as they are, finds the record's the higher
    and returns it as the new bookmark value; lines 95-98 normalize both
    before they compare, find the record older than the watermark and do
    not write it. So the value handed to line 286 for persisting is an
    hour behind the bookmark the call started from. The same happens with
    a record in the transformer's own format when it is the watermark that
    carries an offset: from 2022-12-31T23:30:00-05:00 the bookmark value
    goes to 2023-01-01T00:00:00.000000Z, four and a half hours earlier. *)
Theorem bookmark_moves_back_in_time :
  let old := PStr "2023-01-01T00:00:00Z" in
  let new := PStr "2023-01-01T01:00:00+02:00" in
  let run := process_records (H := demo_externals silent_api 0) "contacts"
               (Some "modified") (Some "datetime") old PNone None PNone
               contacts_catalog [eastern_contact] old empty_world in
  let old' := PStr "2022-12-31T23:30:00-05:00" in
  let new' := PStr "2023-01-01T00:00:00.000000Z" in
  let run' := process_records (H := demo_externals silent_api 0) "contacts"
                (Some "modified") (Some "datetime") old' PNone None PNone
                contacts_catalog [midnight_contact] old' empty_world in
  (fst run = Ok (new, 0, [eastern_contact])
   /\ w_trace (snd run) = []
   /\ demo_strptime old = Ok 1672531200000000
   /\ demo_strptime new = Ok 1672527600000000
   /\ demo_transform_datetime old = Ok (PStr "2023-01-01T00:00:00.000000Z")
   /\ demo_transform_datetime new = Ok (PStr "2022-12-31T23:00:00.000000Z"))
  /\ (fst run' = Ok (new', 0, [midnight_contact])
      /\ w_trace (snd run') = []
      /\ demo_strptime old' = Ok 1672547400000000
      /\ demo_strptime new' = Ok 1672531200000000
      /\ demo_transform_datetime old'
         = Ok (PStr "2023-01-01T04:30:00.000000Z")
      /\ demo_transform_datetime new' = Ok new').
Proof. vm_compute. repeat split. Qed.


(** ** Stepping through the monad *)

Lemma bind_ok_inv {A B} (m : M A) (k : A -> M B) (w w' : world) (b : B) :
  bind m k w = (Ok b, w') ->
  exists a w1, m w = (Ok a, w1) /\ k a w1 = (Ok b, w').
Proof.
  unfold bind. destruct (m w) as [[a| |] w1]; try discriminate. eauto.
Qed.

Lemma bind_ok {A B} (m : M A) (k : A -> M B) (w w1 : world) (a : A) :
  m w = (Ok a, w1) -> bind m k w = k a w1.
Proof. unfold bind. intros ->. reflexivity. Qed.

Lemma lift_ok_inv {A} (r : result A) (w w' : world) (a : A) :
  lift r w = (Ok a, w') -> r = Ok a /\ w' = w.
Proof. unfold lift. intros [= -> ->]. auto. Qed.

(** ** The running maximum *)

Lemma update_max_is_max (f : string) (tr : record) (mbv m : pyval) :
  f <> "" ->
  update_max (Some f) tr mbv = Ok m ->
  py_le mbv m
  /\ (forall v, tr !! f = Some v -> py_le v m)
  /\ (m = mbv \/ tr !! f = Some m).
Proof.
  intros Hf. unfold update_max. rewrite (bookmark_of_truthy f Hf).
  destruct (tr !! f) as [v|] eqn:Hv.
  - destruct (decide (mbv = PNone)) as [-> | Hne].
    + intros [= ->]. repeat split; auto.
      intros v' [= ->]. apply py_le_refl.
    + assert (Hgt : match py_gt v mbv with
                    | Ok higher => Ok (if higher then v else mbv)
                    | Raise e => Raise e
                    | OutOfFuel => OutOfFuel
                    end = Ok m -> py_le mbv m
                      /\ (forall v0, Some v = Some v0 -> py_le v0 m)
                      /\ (m = mbv \/ Some v = Some m)).
      { destruct (py_gt v mbv) as [[|]| |] eqn:E; try discriminate;
          intros [= <-].
        - repeat split; auto using py_gt_le.
          intros v0 [= <-]. apply py_le_refl.
        - repeat split; auto using py_le_refl.
          intros v0 [= <-]. apply py_gt_false_le. exact E. }
      destruct mbv; [contradiction|exact Hgt|exact Hgt].
  - intros [= ->]. repeat split; auto using py_le_refl. discriminate.
Qed.

(** Whenever the running maximum of a list of transformed records is
    computed without a failed comparison, it is the maximum of the old value
    and the replication-key values of the records, kept or not. *)
Lemma fold_update_max_is_max (f : string) (trs : list record) (mbv m : pyval) :
  f <> "" ->
  fold_update_max (Some f) trs mbv = Ok m ->
  is_max_of mbv (keys_of f trs) m.
Proof.
  intros Hf. revert mbv. induction trs as [|tr trs IH]; intros mbv.
  - simpl. intros [= ->]. repeat split; auto using py_le_refl.
  - simpl. destruct (update_max (Some f) tr mbv) as [m1| |] eqn:E1;
      try discriminate.
    intros Hm. destruct (update_max_is_max f tr mbv m1 Hf E1) as (L1 & U1 & C1).
    destruct (IH m1 Hm) as (L & U & C). unfold keys_of in *. simpl.
    repeat split.
    + eapply py_le_trans; eauto.
    + destruct (tr !! f) as [v|] eqn:Hv; [|exact U].
      constructor; [|exact U]. eapply py_le_trans; [|exact L]. auto.
    + destruct C as [-> | C].
      * destruct C1 as [-> | C1]; [left; reflexivity|].
        right. rewrite C1. left.
      * right. destruct (tr !! f); [right|]; exact C.
Qed.

Lemma fold_update_max_app (bf : option string) (xs ys : list record)
    (mbv m1 : pyval) :
  fold_update_max bf xs mbv = Ok m1 ->
  fold_update_max bf (xs ++ ys) mbv = fold_update_max bf ys m1.
Proof.
  revert mbv. induction xs as [|x xs IH]; intros mbv; simpl.
  - intros [= ->]. reflexivity.
  - destruct (update_max bf x mbv); try discriminate. apply IH.
Qed.

Ltac inv_bind H a w1 Ha :=
  apply bind_ok_inv in H as (a & w1 & Ha & H).

(** ** What a page does to the bookmark *)

Section PageFacts.
Context `{Externals}.
Variable cat : catalog.
Variable self : call -> M jval.
Variable c : call.
Variable last_datetime last_integer : pyval.

Lemma process_loop_inv stream_name bf bt parent pid (records : list record)
    (mbv : pyval) (counter : Z) (w w' : world) m n rs :
  process_loop stream_name bf bt last_datetime last_integer parent pid
    records mbv counter w = (Ok (m, n, rs), w') ->
  exists trs,
    Forall2 (fun r tr => transform stream_name (annotate parent pid r) = Ok tr)
            records trs
    /\ fold_update_max bf trs mbv = Ok m
    /\ w_state w' = w_state w /\ w_store w' = w_store w.
Proof.
  revert mbv counter w m n rs.
  induction records as [|r records IH]; intros mbv counter w m n rs Hrun.
  - simpl in Hrun. injection Hrun as <- <- <- <-.
    exists []. repeat split; constructor.
  - simpl in Hrun.
    inv_bind Hrun tr w1 Htr. apply lift_ok_inv in Htr as [Htr ->].
    inv_bind Hrun m1 w1 Hm1. apply lift_ok_inv in Hm1 as [Hm1 ->].
    inv_bind Hrun k w1 Hk. apply lift_ok_inv in Hk as [Hk ->].
    inv_bind Hrun counter' w1 Hc.
    inv_bind Hrun out w2 Hrest. destruct out as [[m2 n2] rs2].
    injection Hrun as <- <- <- <-.
    apply IH in Hrest as (trs & Htrs & Hmax & Hst & Hsto).
    exists (tr :: trs). split; [constructor; assumption|].
    split; [simpl; rewrite Hm1; exact Hmax|].
    assert (w_state w1 = w_state w /\ w_store w1 = w_store w) as [E1 E2].
    { destruct k.
      - inv_bind Hc u w3 Hw. injection Hc as <- <-.
        unfold write_record, emit in Hw. injection Hw as <- <-. auto.
      - injection Hc as <- <-. auto. }
    rewrite Hst, Hsto. auto.
Qed.

Lemma omap_transformed stream_name parent pid (records trs : list record) :
  Forall2 (fun r tr => transform stream_name (annotate parent pid r) = Ok tr)
          records trs ->
  omap (fun r => match transform stream_name (annotate parent pid r) with
                 | Ok tr => Some tr
                 | _ => None
                 end) records = trs.
Proof.
  induction 1 as [|r tr records trs Hr _ IH]; [reflexivity|].
  simpl. rewrite Hr. simpl. f_equal. exact IH.
Qed.

Lemma sync_child_records_max name cfg (records : list record) (l l' : locals)
    (w w' : world) :
  sync_child_records self c name cfg records l w = (Ok l', w') ->
  max_bookmark_value l' = max_bookmark_value l.
Proof.
  revert l w. induction records as [|r records IH]; intros l w Hrun.
  - injection Hrun as <- <-. reflexivity.
  - simpl in Hrun. inv_bind Hrun l1 w1 Hchild.
    apply IH in Hrun. rewrite Hrun. clear Hrun IH.
    unfold sync_child in Hchild.
    inv_bind Hchild fs w2 Hfs. inv_bind Hchild f w3 Hf.
    inv_bind Hchild sp w4 Hsp. inv_bind Hchild bf w5 Hbf.
    inv_bind Hchild tot w6 Hself. injection Hchild as <- <-. reflexivity.
Qed.

Lemma sync_children_max (children : list (string * endpoint_config))
    (records : list record) (l l' : locals) (w w' : world) :
  sync_children cat self c children records l w = (Ok l', w') ->
  max_bookmark_value l' = max_bookmark_value l.
Proof.
  revert l w. induction children as [|[name cfg] children IH]; intros l w Hrun.
  - injection Hrun as <- <-. reflexivity.
  - simpl in Hrun.
    destruct (should_sync_stream (get_selected_streams cat) None name)
      as [should last] eqn:Es.
    inv_bind Hrun l1 w1 Hone. apply IH in Hrun. rewrite Hrun.
    destruct should.
    + eapply sync_child_records_max; eauto.
    + injection Hone as <- <-. reflexivity.
Qed.

Lemma get_bookmark_set (st : state) (name : string) (v d : pyval) :
  get_bookmark (Some (set_bookmark st name v)) name d = v.
Proof.
  unfold get_bookmark, set_bookmark. simpl. rewrite lookup_insert_eq.
  reflexivity.
Qed.

(** A step that reaches the next iteration has folded the page into the
    running maximum and persisted the result (lines 215-226 and 284-286). *)
Lemma page_step_next (params : loc) (page : Z) (next_url : jval) (offset : Z)
    (l : locals) (w : world) page' next_url' offset' l' w' :
  truthy_str (c_bookmark_field c) = true ->
  page_step cat self c last_datetime last_integer params page next_url
    offset l w = (Ok (Next (page', next_url', offset', l')), w') ->
  fold_update_max (c_bookmark_field c)
    (page_records c params page next_url l w) (max_bookmark_value l)
  = Ok (max_bookmark_value l')
  /\ forall d, get_bookmark (Some (w_state w')) (c_stream_name c) d
               = max_bookmark_value l'.
Proof.
  intros Hbf Hrun. unfold page_step in Hrun.
  inv_bind Hrun d w1 Hd.
  assert (w1 = w /\ d = if page =? 1 then default [] (w_store w !! params)
                        else []) as [-> ->].
  { destruct (page =? 1).
    - unfold load in Hd. destruct (w_store w !! params); [|discriminate].
      injection Hd as <- <-. auto.
    - injection Hd as <- <-. auto. }
  inv_bind Hrun u w2 Hemit. unfold emit in Hemit. injection Hemit as _ <-.
  inv_bind Hrun response w3 Hget. apply lift_ok_inv in Hget as [Hget ->].
  destruct response as [body|]; [|discriminate].
  destruct (bool_decide (body = ∅)); [discriminate|].
  destruct (records_of c body) as [|r0 rs0] eqn:Hrecs; [discriminate|].
  inv_bind Hrun out w4 Hproc. destruct out as [[mbv n] recs'].
  inv_bind Hrun l2 w5 Hchildren.
  inv_bind Hrun u2 w6 Hwrite.
  inv_bind Hrun u3 w7 Hcount.
  injection Hrun as <- <- <- <- <-.
  assert (w7 = w6) as ->.
  { destruct (default (JNum 0) (body !! "count")); try discriminate.
    injection Hcount as _ <-. reflexivity. }
  apply sync_children_max in Hchildren. simpl in Hchildren.
  unfold process_records in Hproc.
  destruct (get_stream cat (c_stream_name c)); [|discriminate].
  apply process_loop_inv in Hproc as (trs & Htrs & Hmax & _ & _).
  split.
  - unfold page_records. cbv zeta.
    match goal with
    | |- context [client_get ?u ?p ?q ?e] =>
        replace (client_get u p q e) with (Ok (Some body))
          by (symmetry; exact Hget)
    end.
    rewrite Hrecs.
    rewrite (omap_transformed _ _ _ _ _ Htrs). rewrite Hchildren. exact Hmax.
  - intros d. rewrite Hbf in Hwrite. unfold write_bookmark in Hwrite.
    inv_bind Hwrite st w8 Hst. unfold get_state in Hst.
    injection Hst as <- <-.
    inv_bind Hwrite u4 w9 Hput. unfold put_state in Hput.
    injection Hput as _ <-. unfold emit in Hwrite. injection Hwrite as <- <-.
    simpl. apply get_bookmark_set.
Qed.

(** A step that returns has changed neither the state nor the shared
    dictionaries: it has only sent its request. *)
Lemma page_step_return (params : loc) (page : Z) (next_url : jval) (offset : Z)
    (l : locals) (w w' : world) (v : jval) :
  page_step cat self c last_datetime last_integer params page next_url
    offset l w = (Ok (Return v), w') ->
  v = JNum 0 /\ w_state w' = w_state w /\ w_store w' = w_store w.
Proof.
  intros Hrun. unfold page_step in Hrun.
  inv_bind Hrun d w1 Hd.
  assert (w1 = w) as ->.
  { destruct (page =? 1).
    - unfold load in Hd. destruct (w_store w !! params); [|discriminate].
      injection Hd as _ <-. reflexivity.
    - injection Hd as _ <-. reflexivity. }
  inv_bind Hrun u w2 Hemit. unfold emit in Hemit. injection Hemit as _ <-.
  inv_bind Hrun response w3 Hget. apply lift_ok_inv in Hget as [Hget ->].
  destruct response as [body|]; [|injection Hrun as <- <-; auto].
  destruct (bool_decide (body = ∅)); [injection Hrun as <- <-; auto|].
  destruct (records_of c body) as [|r0 rs0] eqn:Hrecs;
    [injection Hrun as <- <-; auto|].
  inv_bind Hrun out w4 Hproc. destruct out as [[mbv n] recs'].
  inv_bind Hrun l2 w5 Hchildren.
  inv_bind Hrun u2 w6 Hwrite.
  inv_bind Hrun u3 w7 Hcount.
  discriminate.
Qed.

End PageFacts.

Section Traversal.
Context `{Externals}.
Variable cat : catalog.
Variable self : call -> M jval.
Variable c : call.
Variable last_datetime last_integer : pyval.
Variable params : loc.

(** The traversal, page after page: the running maximum is the fold over
    the pages processed, and it is what the state holds once a page has
    been processed. *)
Lemma page_loop_bookmark (fuel : nat) (page : Z) (next_url : jval)
    (offset : Z) (l : locals) (w w' : world) (fl : flow locals) :
  truthy_str (c_bookmark_field c) = true ->
  page_loop cat self c last_datetime last_integer params fuel page next_url
    offset l w = (Ok fl, w') ->
  let pages := pages_seen cat self c last_datetime last_integer params fuel
                 page next_url offset l w in
  exists m,
    fold_update_max (c_bookmark_field c) (concat pages) (max_bookmark_value l)
    = Ok m
    /\ (pages = [] -> w_state w' = w_state w)
    /\ (pages <> [] ->
        forall d, get_bookmark (Some (w_state w')) (c_stream_name c) d = m).
Proof.
  intros Hbf. revert page next_url offset l w.
  induction fuel as [|fuel IH]; intros page next_url offset l w Hrun.
  - exists (max_bookmark_value l).
    destruct next_url; simpl in *; try discriminate.
    injection Hrun as <- <-. repeat split; auto. congruence.
  - assert (Hstep :
      next_url <> JNull ->
      (exists v, page_step cat self c last_datetime last_integer params page
                   next_url offset l w = (Ok (Return v), w'))
      \/ (exists page' next_url' offset' l' w1,
            page_step cat self c last_datetime last_integer params page
              next_url offset l w
            = (Ok (Next (page', next_url', offset', l')), w1)
            /\ page_loop cat self c last_datetime last_integer params fuel
                 page' next_url' offset' l' w1 = (Ok fl, w'))).
    { intros Hne.
      assert (Hrun' :
        bind (page_step cat self c last_datetime last_integer params page
                next_url offset l)
             (fun f => match f with
                       | Return v => ret (Return v)
                       | Next (page', next_url', offset', l') =>
                           page_loop cat self c last_datetime last_integer
                             params fuel page' next_url' offset' l'
                       end) w = (Ok fl, w')).
      { destruct next_url; [contradiction|exact Hrun..]. }
      inv_bind Hrun' f w1 Hf. destruct f as [[[[page' next_url'] offset'] l']|v].
      - right. eauto 10.
      - injection Hrun' as <- <-. left. eauto. }
    destruct (decide (next_url = JNull)) as [-> | Hne].
    + simpl in *. injection Hrun as <- <-.
      exists (max_bookmark_value l). repeat split; auto. congruence.
    + destruct (Hstep Hne) as [(v & Hf) |
                               (page' & next_url' & offset' & l' & w1 & Hf & Hrest)].
      * apply page_step_return in Hf as Hret. destruct Hret as (_ & Hst & _).
        assert (Hp : pages_seen cat self c last_datetime last_integer params
                       (S fuel) page next_url offset l w = []).
        { destruct next_url; [contradiction|simpl; rewrite Hf; reflexivity..]. }
        cbv zeta. rewrite Hp. exists (max_bookmark_value l).
        repeat split; auto. congruence.
      * destruct (page_step_next cat self c last_datetime last_integer params
                    page next_url offset l w _ _ _ _ _ Hbf Hf) as [Hfold Hbook].
        destruct (IH _ _ _ _ _ Hrest) as (m & Hm & Hnil & Hcons).
        assert (Hp : pages_seen cat self c last_datetime last_integer params
                       (S fuel) page next_url offset l w
                     = page_records c params page next_url l w
                       :: pages_seen cat self c last_datetime last_integer
                            params fuel page' next_url' offset' l' w1).
        { destruct next_url; [contradiction|simpl; rewrite Hf; reflexivity..]. }
        cbv zeta. rewrite Hp. exists m. simpl.
        rewrite (fold_update_max_app _ _ _ _ _ Hfold).
        split; [exact Hm|]. split; [discriminate|].
        intros _ d.
        destruct (pages_seen cat self c last_datetime last_integer params fuel
                    page' next_url' offset' l' w1) as [|p ps] eqn:Hps.
        -- simpl in Hm. injection Hm as <-. rewrite (Hnil eq_refl).
           apply Hbook.
        -- apply Hcons. discriminate.
Qed.

End Traversal.

(** The running maximum through the pagination loop of lines 175-301, in
    the order the code compares with (integers by value, strings by code
    units). (a) Whenever [process_records] returns, the maximum it returns
    is the maximum of the one it was given and the replication-key values
    of all the page's transformed records, written or not. (b) When the
    loop starts with the stream's bookmark as its running maximum and ends
    normally, the bookmark in the state afterwards is the maximum of the
    bookmark before and the replication-key values of all records of all
    pages processed. *)
Lemma page_loop_running_maximum `{Externals} (cat : catalog) (self : call -> M jval)
    (c : call) (last_datetime last_integer : pyval) (params : loc) (f : string)
    (fuel : nat) (page : Z) (next_url : jval) (offset : Z) (l : locals)
    (w w' : world) (fl : flow locals) (default : pyval) :
  c_bookmark_field c = Some f ->
  f <> "" ->
  page_loop cat self c last_datetime last_integer params fuel page next_url
    offset l w = (Ok fl, w') ->
  max_bookmark_value l
  = get_bookmark (Some (w_state w)) (c_stream_name c) default ->
  let pages := pages_seen cat self c last_datetime last_integer params fuel
                 page next_url offset l w in
  let before := get_bookmark (Some (w_state w)) (c_stream_name c) default in
  let after := get_bookmark (Some (w_state w')) (c_stream_name c) default in
  (forall records mbv w0 m n rs w1,
     process_records (c_stream_name c) (Some f) (c_bookmark_type c)
       last_datetime last_integer (c_parent c) (parent_id l) cat records mbv w0
     = (Ok (m, n, rs), w1) ->
     exists trs,
       Forall2 (fun r tr =>
                  transform (c_stream_name c)
                    (annotate (c_parent c) (parent_id l) r) = Ok tr)
               records trs
       /\ is_max_of mbv (keys_of f trs) m)
  /\ py_le before after
  /\ is_max_of before (keys_of f (concat pages)) after.
Proof.
  intros Hbf Hf Hrun Hinit pages before after. split.
  { intros records mbv w0 m n rs w1 Hproc. unfold process_records in Hproc.
    destruct (get_stream cat (c_stream_name c)); [|discriminate].
    apply process_loop_inv in Hproc as (trs & Htrs & Hmax & _).
    exists trs. split; [exact Htrs|].
    apply fold_update_max_is_max; assumption. }
  assert (Htruthy : truthy_str (c_bookmark_field c) = true).
  { rewrite Hbf. simpl. destruct (String.eqb f "") eqn:E; [|reflexivity].
    apply String.eqb_eq in E. contradiction. }
  destruct (page_loop_bookmark cat self c last_datetime last_integer params
              fuel page next_url offset l w w' fl Htruthy Hrun)
    as (m & Hm & Hnil & Hcons).
  fold pages in Hm, Hnil, Hcons. rewrite Hbf in Hm.
  apply (fold_update_max_is_max f _ _ _ Hf) in Hm. rewrite Hinit in Hm.
  fold before in Hm.
  assert (Hafter : after = m).
  { destruct pages as [|p ps] eqn:Hp.
    - unfold after. rewrite (Hnil eq_refl). fold before.
      destruct Hm as (_ & _ & [-> | Hin]); [reflexivity|].
      simpl in Hin. inversion Hin.
    - unfold after. apply Hcons. discriminate. }
  rewrite Hafter. split; [apply Hm|exact Hm].
Qed.


(** ** Empty pages *)

Section EmptyPage.
Context `{Externals}.
Variable cat : catalog.
Variable self : call -> M jval.
Variable c : call.
Variable last_datetime last_integer : pyval.

Lemma page_step_empty (params : loc) (page : Z) (next_url : jval) (offset : Z)
    (l : locals) (w : world) :
  (page = 1 -> is_Some (w_store w !! params)) ->
  (forall qs, no_records c (client_get next_url (c_path c) qs (c_stream_name c))) ->
  exists qs,
    page_step cat self c last_datetime last_integer params page next_url
      offset l w
    = (Ok (Return (JNum 0)),
       World (w_state w) (w_store w)
             (w_trace w
              ++ [EvRequest next_url (c_path c) qs (c_stream_name c)])).
Proof.
  intros Hstore Hempty. unfold page_step.
  assert (Hd : exists d, (if page =? 1 then load params else ret []) w
                         = (Ok d, w)).
  { destruct (page =? 1) eqn:E.
    - apply Z.eqb_eq in E. destruct (Hstore E) as [d Hd]. exists d.
      unfold load. rewrite Hd. reflexivity.
    - exists []. reflexivity. }
  destruct Hd as [d Hd]. exists (querystring page d).
  rewrite (bind_ok _ _ _ _ _ Hd). unfold bind at 1, emit at 1.
  unfold bind at 1, lift at 1.
  destruct (Hempty (querystring page d)) as [-> | (body & -> & Hbody)];
    [reflexivity|].
  destruct Hbody as [-> | Hrecs].
  - rewrite bool_decide_eq_true_2 by reflexivity. reflexivity.
  - destruct (bool_decide (body = ∅)); [reflexivity|].
    rewrite Hrecs. reflexivity.
Qed.

Lemma page_loop_empty (params : loc) (fuel : nat) (page : Z) (next_url : jval)
    (offset : Z) (l : locals) (w : world) :
  next_url <> JNull ->
  (page = 1 -> is_Some (w_store w !! params)) ->
  (forall qs, no_records c (client_get next_url (c_path c) qs (c_stream_name c))) ->
  exists qs,
    page_loop cat self c last_datetime last_integer params (S fuel) page
      next_url offset l w
    = (Ok (Return (JNum 0)),
       World (w_state w) (w_store w)
             (w_trace w
              ++ [EvRequest next_url (c_path c) qs (c_stream_name c)])).
Proof.
  intros Hne Hstore Hempty.
  destruct (page_step_empty params page next_url offset l w Hstore Hempty)
    as [qs Hstep].
  exists qs. destruct next_url; [contradiction|..];
    simpl; rewrite (bind_ok _ _ _ _ _ Hstep); reflexivity.
Qed.

(** Writing a window's bounds into the parameters touches neither the state
    nor the trace, and keeps every reference valid. *)
Lemma store_set_frame (p : loc) (k : string) (v : pyval) (w : world) :
  is_Some (w_store w !! p) ->
  exists sto, store_set p k v w = (Ok tt, World (w_state w) sto (w_trace w))
              /\ length sto = length (w_store w).
Proof.
  intros [d Hd]. unfold store_set. rewrite Hd. eexists. split; [reflexivity|].
  apply length_insert.
Qed.

End EmptyPage.

Lemma window_params_frame `{Externals} (c : call) (last_integer : pyval)
    (start_window end_window : Z) (w : world) :
  is_Some (w_store w !! c_static_params c) ->
  exists sto,
    window_params c last_integer start_window end_window w
    = (Ok (c_static_params c), World (w_state w) sto (w_trace w))
    /\ length sto = length (w_store w).
Proof.
  intros Hp. unfold window_params.
  assert (Hret : forall w0 : world,
            bind (ret tt) (fun _ => ret (c_static_params c)) w0
            = (Ok (c_static_params c), w0)) by reflexivity.
  assert (Hkeep : exists sto, (Ok (c_static_params c), w)
            = (Ok (c_static_params c), World (w_state w) sto (w_trace w))
            /\ length sto = length (w_store w)).
  { exists (w_store w). destruct w; auto. }
  destruct (c_bookmark_query_field_from c) as [from|]; [|rewrite Hret; exact Hkeep].
  destruct (truthy_str (Some from)); [|rewrite Hret; exact Hkeep].
  assert (Hfirst : exists sto1,
            (if bool_decide (c_bookmark_type c = Some "datetime")
             then store_set (c_static_params c) from
                    (PStr (strftime start_window))
             else if bool_decide (c_bookmark_type c = Some "integer")
                  then store_set (c_static_params c) from last_integer
                  else ret tt) w
            = (Ok tt, World (w_state w) sto1 (w_trace w))
            /\ length sto1 = length (w_store w)).
  { destruct (bool_decide (c_bookmark_type c = Some "datetime"));
      [apply store_set_frame; exact Hp|].
    destruct (bool_decide (c_bookmark_type c = Some "integer"));
      [apply store_set_frame; exact Hp|].
    exists (w_store w). destruct w; auto. }
  destruct Hfirst as (sto1 & Hfirst & Hlen1).
  unfold bind at 1. unfold bind at 1. rewrite Hfirst.
  assert (Hp1 : is_Some (sto1 !! c_static_params c)).
  { apply lookup_lt_is_Some. rewrite Hlen1. apply lookup_lt_is_Some. exact Hp. }
  destruct (c_bookmark_query_field_to c) as [to|];
    [|exists sto1; split; [reflexivity|exact Hlen1]].
  destruct (truthy_str (Some to)
            && bool_decide (c_bookmark_type c = Some "datetime"));
    [|exists sto1; split; [reflexivity|exact Hlen1]].
  destruct (store_set_frame (c_static_params c) to
              (PStr (strftime end_window))
              (World (w_state w) sto1 (w_trace w)) Hp1)
    as (sto2 & Hsecond & Hlen2).
  rewrite Hsecond. exists sto2. split; [reflexivity|].
  simpl in Hlen2. congruence.
Qed.

(** X17. An empty page ends the traversal of lines 175-301. When the response
    to a page's request has no body, an empty body or no records under the
    data key, the pagination loop returns 0 (a [Return], not an exception)
    after that one request and without touching the state; and so do the
    parameters and pages of a window (lines 158-301), taken after the log
    statement. *)
Theorem empty_page_ends_traversal `{Externals} (cat : catalog)
    (self : call -> M jval) (c : call) (last_datetime last_integer : pyval)
    (fuel : nat) :
  (forall (params : loc) (page : Z) (next_url : jval) (offset : Z)
          (l : locals) (w : world),
     next_url <> JNull ->
     (page = 1 -> is_Some (w_store w !! params)) ->
     (forall qs,
        no_records c (client_get next_url (c_path c) qs (c_stream_name c))) ->
     exists qs,
       page_loop cat self c last_datetime last_integer params (S fuel) page
         next_url offset l w
       = (Ok (Return (JNum 0)),
          World (w_state w) (w_store w)
                (w_trace w
                 ++ [EvRequest next_url (c_path c) qs (c_stream_name c)])))
  /\ (forall (start_window end_window : Z) (l : locals) (w : world),
        is_Some (w_store w !! c_static_params c) ->
        (forall qs,
           no_records c
             (client_get (first_url c) (c_path c) qs (c_stream_name c))) ->
        exists qs sto,
          window_pages cat self c last_datetime last_integer (S fuel)
            start_window end_window l w
          = (Ok (Return (JNum 0)),
             World (w_state w) sto
                   (w_trace w
                    ++ [EvRequest (first_url c) (c_path c) qs
                          (c_stream_name c)]))).
Proof.
  split.
  - intros params page next_url offset l w Hne Hstore Hempty.
    apply page_loop_empty; assumption.
  - intros start_window end_window l w Hstore Hempty.
    destruct (window_params_frame c last_integer start_window end_window w
                Hstore) as (sto & Hparams & Hlen).
    destruct (page_loop_empty cat self c last_datetime last_integer
                (c_static_params c) fuel 1 (first_url c) 0 l
                (World (w_state w) sto (w_trace w)))
      as [qs Hloop].
    + discriminate.
    + intros _. simpl. apply lookup_lt_is_Some. rewrite Hlen.
      apply lookup_lt_is_Some. exact Hstore.
    + exact Hempty.
    + exists qs, sto. unfold window_pages.
      rewrite (bind_ok _ _ _ _ _ Hparams). rewrite Hloop. reflexivity.
Qed.

(** Page 1 of the stream [contacts] has no body: the parameters and pages
    of the window return 0 and the state is the one from before. *)
Lemma empty_page_ends_traversal_witness :
  let w0 := World (State (Some {[ "contacts" := PStr "2023-01-01T00:00:00Z" ]})
                         None) [[]] [] in
  let run := window_pages (H := demo_externals silent_api 1676419200000000)
               contacts_catalog no_child contacts_call
               (PStr "2023-01-01T00:00:00Z") PNone 1
               1672531200000000 1675123200000000
               (Locals (PStr "2023-01-01T00:00:00Z") None PNone None) w0 in
  fst run = Ok (Return (JNum 0)) /\ w_state (snd run) = w_state w0.
Proof.
  intros w0 run.
  destruct (proj2 (empty_page_ends_traversal
                     (H := demo_externals silent_api 1676419200000000)
                     contacts_catalog no_child contacts_call
                     (PStr "2023-01-01T00:00:00Z") PNone 0)
              1672531200000000 1675123200000000
              (Locals (PStr "2023-01-01T00:00:00Z") None PNone None) w0)
    as (qs & sto & Hrun).
  - eexists. reflexivity.
  - intros qs. left. reflexivity.
  - unfold run. rewrite Hrun. split; reflexivity.
Defined.


(** ** Child records *)

Lemma process_loop_trace `{Externals} stream_name bf bt ld li parent pid
    (records : list record) (mbv : pyval) (counter : Z) (w w' : world) m n rs :
  process_loop stream_name bf bt ld li parent pid records mbv counter w
  = (Ok (m, n, rs), w') ->
  rs = map (annotate parent pid) records
  /\ exists evs,
       w_trace w' = w_trace w ++ evs
       /\ Forall (fun e => exists r tr,
                    e = EvRecord stream_name tr /\ r ∈ rs
                    /\ transform stream_name r = Ok tr) evs.
Proof.
  revert mbv counter w m n rs.
  induction records as [|r records IH]; intros mbv counter w m n rs Hrun.
  - simpl in Hrun. injection Hrun as <- <- <- <-. split; [reflexivity|].
    exists []. rewrite app_nil_r. split; [reflexivity|constructor].
  - simpl in Hrun.
    inv_bind Hrun tr w1 Htr. apply lift_ok_inv in Htr as [Htr ->].
    inv_bind Hrun m1 w1 Hm1. apply lift_ok_inv in Hm1 as [Hm1 ->].
    inv_bind Hrun k w1 Hk. apply lift_ok_inv in Hk as [Hk ->].
    inv_bind Hrun counter' w1 Hc.
    inv_bind Hrun out w2 Hrest. destruct out as [[m2 n2] rs2].
    injection Hrun as <- <- <- <-.
    apply IH in Hrest as (-> & evs & Htrace & Hevs).
    split; [reflexivity|].
    assert (Hmono : Forall (fun e => exists r0 tr0,
                      e = EvRecord stream_name tr0
                      /\ r0 ∈ annotate parent pid r
                              :: map (annotate parent pid) records
                      /\ transform stream_name r0 = Ok tr0) evs).
    { eapply Forall_impl; [exact Hevs|]. intros e (r0 & tr0 & -> & Hin & Ht).
      exists r0, tr0. repeat split; auto. right. exact Hin. }
    destruct k.
    + inv_bind Hc u w3 Hw. injection Hc as <- <-.
      unfold write_record, emit in Hw. injection Hw as <- <-.
      simpl in Htrace. rewrite <- app_assoc in Htrace.
      eexists. split; [exact Htrace|]. constructor; [|exact Hmono].
      exists (annotate parent pid r), tr. repeat split; auto. left.
    + injection Hc as <- <-. exists evs. auto.
Qed.

(** C7. A parent whose id is 0 is not propagated. The child call of
    [process_records] receives the parent name [accounts] and the parent id
    0 (the id line 253 read from the parent record, which line 260 puts in
    the child's path all the same); line 73 tests the id for truth, so the
    record is handed to the transformer as it came and the record written
    has no [accounts_id] field. The same holds for every record of every
    page of that call. *)
Theorem child_record_without_parent_id :
  let run := process_records (H := demo_externals silent_api 0) "invoices"
               (Some "id") (Some "integer") PNone (PInt 0) (Some "accounts")
               (PInt 0) invoices_catalog [with_id 7] (PInt 0) empty_world in
  fst run = Ok (PInt 7, 1, [with_id 7])
  /\ w_trace (snd run) = [EvRecord "invoices" (with_id 7)]
  /\ with_id 7 !! "accounts_id" = (None : option pyval)
  /\ py_str (PInt 0) = "0"
  /\ (forall r : record, annotate (Some "accounts") (PInt 0) r = r).
Proof. vm_compute. repeat split. Qed.

(** X19. With a non-empty parent name and a truthy parent id (not [None], 0 or
    the empty string), every record of the page is given the field
    [<parent>_id] with the parent id before it is transformed, and every
    record written is the transformer's output for such a record. *)
Theorem truthy_parent_id_is_attached `{Externals} (stream_name : string)
    (bookmark_field bookmark_type : option string)
    (last_datetime last_integer : pyval) (parent : string) (parent_id : pyval)
    (cat : catalog) (records : list record) (mbv : pyval) (w w' : world)
    (m : pyval) (n : Z) (rs : list record) :
  parent <> "" ->
  truthy parent_id = true ->
  process_records stream_name bookmark_field bookmark_type last_datetime
    last_integer (Some parent) parent_id cat records mbv w
  = (Ok (m, n, rs), w') ->
  Forall (fun r : record => r !! (parent +:+ "_id") = Some parent_id) rs
  /\ exists evs,
       w_trace w' = w_trace w ++ evs
       /\ Forall (fun e => exists r tr,
                    e = EvRecord stream_name tr
                    /\ r !! (parent +:+ "_id") = Some parent_id
                    /\ transform stream_name r = Ok tr) evs.
Proof.
  intros Hp Hid Hrun. unfold process_records in Hrun.
  destruct (get_stream cat stream_name); [|discriminate].
  apply process_loop_trace in Hrun as (-> & evs & Htrace & Hevs).
  assert (Hann : forall r : record,
            annotate (Some parent) parent_id r !! (parent +:+ "_id")
            = Some parent_id).
  { intros r. unfold annotate, truthy_str. rewrite Hid.
    destruct (String.eqb parent "") eqn:E.
    - apply String.eqb_eq in E. contradiction.
    - simpl. apply lookup_insert_eq. }
  assert (Hall : Forall (fun r : record =>
                           r !! (parent +:+ "_id") = Some parent_id)
                        (map (annotate (Some parent) parent_id) records)).
  { apply Forall_forall. intros r Hin.
    apply list_elem_of_fmap in Hin as (r0 & -> & _). apply Hann. }
  split; [exact Hall|].
  exists evs. split; [exact Htrace|].
  eapply Forall_impl; [exact Hevs|]. intros e (r & tr & -> & Hin & Ht).
  exists r, tr. rewrite Forall_forall in Hall.
  repeat split; auto.
Qed.

(** A child page of invoices of account 7: the record written is the
    transformer's output for a record that carries [accounts_id] 7. *)
Lemma truthy_parent_id_is_attached_witness :
  let run := process_records (H := demo_externals silent_api 0) "invoices"
               (Some "id") (Some "integer") PNone (PInt 0) (Some "accounts")
               (PInt 7) invoices_catalog [with_id 1] (PInt 0) empty_world in
  Forall (fun r : record => r !! "accounts_id" = Some (PInt 7))
         [<["accounts_id" := PInt 7]> (with_id 1)]
  /\ exists evs,
       w_trace (snd run) = w_trace empty_world ++ evs
       /\ Forall (fun e => exists r tr,
                    e = EvRecord "invoices" tr
                    /\ r !! "accounts_id" = Some (PInt 7)
                    /\ transform (Externals := demo_externals silent_api 0)
                         "invoices" r = Ok tr) evs.
Proof.
  intros run.
  apply (truthy_parent_id_is_attached (H := demo_externals silent_api 0)
           "invoices" (Some "id") (Some "integer") PNone (PInt 0)
           "accounts" (PInt 7) invoices_catalog [with_id 1] (PInt 0)
           empty_world (snd run) (PInt 1) 1
           [<["accounts_id" := PInt 7]> (with_id 1)]).
  - discriminate.
  - reflexivity.
  - vm_compute. reflexivity.
Defined.


(** ** The parent's id field *)

Lemma pick_parent_id_field_later (i : Z) (id_fields : list string)
    (current : option string) :
  0 < i ->
  pick_parent_id_field i id_fields current
  = if bool_decide ("id" ∈ id_fields) then Some "id" else current.
Proof.
  revert i current. induction id_fields as [|g fields IH]; intros i current Hi.
  - reflexivity.
  - simpl. replace (i =? 0) with false by (symmetry; apply Z.eqb_neq; lia).
    rewrite IH by lia.
    destruct (String.eqb g "id") eqn:E.
    + apply String.eqb_eq in E. subst g.
      rewrite (bool_decide_eq_true_2 ("id" ∈ "id" :: fields)) by left.
      destruct (bool_decide ("id" ∈ fields)); reflexivity.
    + apply String.eqb_neq in E.
      destruct (decide ("id" ∈ fields)) as [Hin | Hout].
      * rewrite !bool_decide_eq_true_2; [reflexivity|right; exact Hin|exact Hin].
      * rewrite !bool_decide_eq_false_2; [reflexivity| |exact Hout].
        intros Hin. apply elem_of_cons in Hin as [Heq | Hin]; congruence.
Qed.

(** C8 as stated fails: with the key properties [customer] and [number],
    neither of them [id], the parent's id is read from [customer], the
    first, and not from [number], the last. *)
Lemma parent_id_field_not_last :
  ("id" ∉ ["customer"; "number"])
  /\ pick_parent_id_field 0 ["customer"; "number"] None = Some "customer"
  /\ pick_parent_id_field 0 ["customer"; "number"] None
     <> last ["customer"; "number"].
Proof.
  split; [|split; [reflexivity|discriminate]].
  intros Hin. repeat (apply elem_of_cons in Hin as [Heq | Hin];
                      [discriminate|]).
  inversion Hin.
Qed.

(** C8, amended. The field the parent's id is read from is the field named
    [id] when the key properties contain one, and otherwise the first key
    property in iteration order (first-wins, id-preferred); with no key
    property at all the variable keeps whatever it held. *)
Theorem parent_id_field_first_or_id (id_fields : list string)
    (previous : option string) :
  pick_parent_id_field 0 id_fields previous
  = match id_fields with
    | [] => previous
    | first :: _ =>
        if bool_decide ("id" ∈ id_fields) then Some "id" else Some first
    end.
Proof.
  destruct id_fields as [|g fields]; [reflexivity|].
  simpl. rewrite pick_parent_id_field_later by lia.
  destruct (String.eqb g "id") eqn:E.
  - apply String.eqb_eq in E. subst g.
    rewrite (bool_decide_eq_true_2 ("id" ∈ "id" :: fields)) by left.
    destruct (bool_decide ("id" ∈ fields)); reflexivity.
  - apply String.eqb_neq in E.
    destruct (decide ("id" ∈ fields)) as [Hin | Hout].
    + rewrite !bool_decide_eq_true_2; [reflexivity|right; exact Hin|exact Hin].
    + rewrite !bool_decide_eq_false_2; [reflexivity| |exact Hout].
      intros Hin. apply elem_of_cons in Hin as [Heq | Hin]; congruence.
Qed.


(** ** The names [sync_endpoint] reads but nothing binds *)

Lemma read_diff_sec : read_global "diff_sec" = raise (NameError "diff_sec").
Proof. reflexivity. Qed.

Lemma read_bookmark_query_field :
  read_global "bookmark_query_field"
  = raise (NameError "bookmark_query_field").
Proof. reflexivity. Qed.

(** As the module stands, no call of [sync_endpoint] returns: without both
    range fields line 152 reads [diff_sec]; with them, the first window's
    log line (line 157) reads [bookmark_query_field], and with no window at
    all line 312 reads [total_records] before any assignment. The call has
    then sent at most the stream's schema, and has changed neither the state
    nor the shared dictionaries. *)
Lemma sync_endpoint_never_returns `{Externals} (fuel : nat) (cat : catalog)
    (start_date : pyval) (c : call) (w : world) :
  exists r w',
    sync_endpoint fuel cat start_date c w = (r, w')
    /\ (forall v, r <> Ok v)
    /\ w_state w' = w_state w /\ w_store w' = w_store w
    /\ (w_trace w' = w_trace w
        \/ w_trace w' = w_trace w ++ [EvSchema (c_stream_name c)]).
Proof.
  destruct fuel as [|fuel].
  { exists OutOfFuel, w. repeat split; auto; try discriminate. }
  simpl. unfold sync_endpoint_body.
  unfold bind at 1. unfold get_state at 1.
  unfold bind at 1. unfold write_schema.
  destruct (get_stream cat (c_stream_name c)) as [entry|].
  2:{ exists (Raise AttributeError), w. repeat split; auto; try discriminate. }
  unfold emit at 1.
  set (w1 := World (w_state w) (w_store w)
                   (w_trace w ++ [EvSchema (c_stream_name c)])).
  set (last_datetime :=
         if bool_decide (c_bookmark_type c = Some "integer") then PNone
         else get_bookmark (Some (w_state w)) (c_stream_name c) start_date).
  unfold bind at 1.
  destruct (truthy_str (c_bookmark_query_field_from c)
            && truthy_str (c_bookmark_query_field_to c)).
  - unfold bind at 1. unfold lift at 1.
    destruct (strptime_to_utc last_datetime) as [start| |].
    + unfold ret at 1. unfold first_window.
      unfold bind at 1.
      destruct (start =? utils_now) eqn:Enow.
      * destruct fuel; simpl; rewrite Enow;
          (exists (Raise (UnboundLocalError "total_records")), w1;
           repeat split; auto; try discriminate).
      * destruct fuel as [|fuel]; simpl; rewrite Enow.
        -- exists OutOfFuel, w1. repeat split; auto; try discriminate.
        -- exists (Raise (NameError "bookmark_query_field")), w1.
           repeat split; auto; try discriminate.
    + exists (Raise e), w1. repeat split; auto; try discriminate.
    + exists OutOfFuel, w1. repeat split; auto; try discriminate.
  - unfold bind at 1. unfold lift at 1.
    destruct (strptime_to_utc last_datetime) as [start| |].
    + exists (Raise (NameError "diff_sec")), w1. repeat split; auto;
      try discriminate.
    + exists (Raise e), w1. repeat split; auto; try discriminate.
    + exists OutOfFuel, w1. repeat split; auto; try discriminate.
Qed.

(** X9. Whatever the stream, the catalog and the state: without both range
    fields, a call whose stream is in the catalog and whose bookmark parses
    ends at line 152 with [NameError] for [diff_sec], having sent the
    schema and nothing else. *)
Theorem no_range_filter_raises `{Externals} (fuel : nat) (cat : catalog)
    (start_date : pyval) (c : call) (w : world) (entry : catalog_entry)
    (start : Z) :
  truthy_str (c_bookmark_query_field_from c)
  && truthy_str (c_bookmark_query_field_to c) = false ->
  get_stream cat (c_stream_name c) = Some entry ->
  strptime_to_utc
    (if bool_decide (c_bookmark_type c = Some "integer") then PNone
     else get_bookmark (Some (w_state w)) (c_stream_name c) start_date)
  = Ok start ->
  sync_endpoint (S fuel) cat start_date c w
  = (Raise (NameError "diff_sec"),
     World (w_state w) (w_store w)
           (w_trace w ++ [EvSchema (c_stream_name c)])).
Proof.
  intros Hrange Hentry Hparse. simpl. unfold sync_endpoint_body.
  unfold bind at 1. unfold get_state at 1.
  unfold bind at 1. unfold write_schema. rewrite Hentry. unfold emit at 1.
  rewrite Hrange. unfold bind at 1. unfold bind at 1. unfold lift at 1.
  rewrite Hparse. reflexivity.
Qed.

(** The stream [invoices] without range fields, from a persisted
    bookmark. *)
Lemma no_range_filter_raises_witness :
  sync_endpoint (H := demo_externals two_pages_api 1676419200000000) 1
    invoices_catalog (PStr "2022-06-01T00:00:00Z")
    (Call "invoices" "invoices" (plain_config "modified") 0%nat None None
       (Some "modified") (Some "datetime") (Some "results") (Some ["id"])
       None PNone)
    (World (State (Some {[ "invoices" := PStr "2023-01-31T00:00:00Z" ]}) None)
       [[]] [])
  = (Raise (NameError "diff_sec"),
     World (State (Some {[ "invoices" := PStr "2023-01-31T00:00:00Z" ]}) None)
       [[]] [EvSchema "invoices"]).
Proof.
  apply (no_range_filter_raises
           (H := demo_externals two_pages_api 1676419200000000) 0
           invoices_catalog (PStr "2022-06-01T00:00:00Z")
           (Call "invoices" "invoices" (plain_config "modified") 0%nat None
              None (Some "modified") (Some "datetime") (Some "results")
              (Some ["id"]) None PNone)
           (World (State (Some {[ "invoices" := PStr "2023-01-31T00:00:00Z" ]})
                     None) [[]] [])
           (CatalogEntry "invoices" true) 1675123200000000);
    reflexivity.
Defined.

(** With both range fields the first window ends at its log line: here the
    stream [contacts] from the bookmark 2023-01-01 with the clock at
    2023-02-15. *)
Lemma windowed_stream_raises_at_log_line :
  sync_endpoint (H := demo_externals two_pages_api 1676419200000000) 5
    contacts_catalog (PStr "2023-01-01T00:00:00Z") contacts_call
    (World (State None None) [[]] [])
  = (Raise (NameError "bookmark_query_field"),
     World (State None None) [[]] [EvSchema "contacts"]).
Proof. vm_compute. reflexivity. Qed.

(** C5. A datetime stream whose API takes no from/to range never gets its
    single full-span window: after the schema message, line 152 raises
    [NameError] for [diff_sec] (the difference was stored in [diff_secs]),
    and no request is sent. Here for the stream [customers] with the
    bookmark 2023-01-01 and the clock at 2023-02-15. *)
Theorem full_span_window_raises :
  sync_endpoint (H := demo_externals two_pages_api 1676419200000000) 5
    customers_catalog (PStr "2023-01-01T00:00:00Z") customers_call
    empty_world
  = (Raise (NameError "diff_sec"),
     World (State None None) [] [EvSchema "customers"]).
Proof. vm_compute. reflexivity. Qed.


(** ** The parameters a window writes *)

(** What lines 158-168 do to the dictionary [static_params] refers to:
    [params] is another name for it and lines 163 and 168 assign into it.
    After the parameters and pages of one window of the stream [contacts],
    whose definition holds the static parameter [ordering], the
    definition's own dictionary also holds [modified__gte] and
    [modified__lte]. (No call gets to these lines: the log statement before
    them raises, see [sync_endpoint_never_returns].) *)
Lemma window_pages_write_shared_params :
  let w0 := World (State None None) [[("ordering", PStr "modified")]] [] in
  let run := window_pages (H := demo_externals silent_api 1676419200000000)
               contacts_catalog no_child contacts_call
               (PStr "2023-01-01T00:00:00Z") PNone 1
               1672531200000000 1675123200000000
               (Locals (PStr "2023-01-01T00:00:00Z") None PNone None) w0 in
  fst (params_of contacts_config w0) = Ok (c_static_params contacts_call)
  /\ w_store w0 !! c_static_params contacts_call
     = Some [("ordering", PStr "modified")]
  /\ fst run = Ok (Return (JNum 0))
  /\ w_store (snd run) !! c_static_params contacts_call
     = Some [("ordering", PStr "modified");
             ("modified__gte", PStr "2023-01-01T00:00:00.000000Z");
             ("modified__lte", PStr "2023-01-31T00:00:00.000000Z")].
Proof. vm_compute. repeat split. Qed.

(** In general, for a datetime stream with a from field: one window leaves
    the from field (and the to field, when there is one) in the dictionary
    [static_params] refers to, whatever it held. *)
Lemma window_params_datetime `{Externals} (c : call) (last_integer : pyval)
    (start_window end_window : Z) (w : world) (from : string) (d : odict) :
  c_bookmark_type c = Some "datetime" ->
  c_bookmark_query_field_from c = Some from ->
  from <> "" ->
  w_store w !! c_static_params c = Some d ->
  let d1 := odict_set from (PStr (strftime start_window)) d in
  let d2 := match c_bookmark_query_field_to c with
            | Some to =>
                if truthy_str (Some to)
                then odict_set to (PStr (strftime end_window)) d1
                else d1
            | None => d1
            end in
  window_params c last_integer start_window end_window w
  = (Ok (c_static_params c),
     World (w_state w) (<[c_static_params c := d2]> (w_store w)) (w_trace w)).
Proof.
  intros Hbt Hfrom Hne Hd. cbv zeta.
  set (d1 := odict_set from (PStr (strftime start_window)) d).
  unfold window_params.
  rewrite Hfrom, Hbt. simpl.
  destruct (String.eqb from "") eqn:E;
    [apply String.eqb_eq in E; contradiction|]. simpl.
  unfold bind at 1. unfold bind at 1. unfold store_set at 1. rewrite Hd.
  assert (Hd1 : <[c_static_params c := d1]> (w_store w) !! c_static_params c
                = Some d1).
  { apply list_lookup_insert_eq. apply lookup_lt_is_Some. eauto. }
  destruct (c_bookmark_query_field_to c) as [to|]; [|reflexivity].
  simpl. rewrite andb_true_r.
  destruct (negb (String.eqb to "")); [|reflexivity].
  unfold store_set. cbn [w_store w_state w_trace]. fold d1.
  rewrite Hd1. rewrite list_insert_insert_eq.
  reflexivity.
Qed.


(** ** Date windows *)

Lemma first_window_min (start now : Z) :
  first_window start now = (start, Z.min (start + days 30) now).
Proof.
  unfold first_window. f_equal.
  destruct (now <? start + days 30) eqn:E;
    [apply Z.ltb_lt in E|apply Z.ltb_ge in E]; lia.
Qed.

Lemma next_window_min (end_window now : Z) :
  next_window end_window now 30
  = (end_window, Z.min (end_window + days 30) now).
Proof.
  unfold next_window. f_equal.
  destruct (now <? end_window + days 30) eqn:E;
    [apply Z.ltb_lt in E|apply Z.ltb_ge in E]; lia.
Qed.

(** With enough fuel the loop of line 153 runs its body over the schedule. *)
Lemma window_loop_schedule {L : Type} (body : Z -> Z -> L -> M (flow L))
    (now : Z) (n : nat) (start : Z) (l : L) (w : world) :
  start <= now ->
  now - start <= Z.of_nat n * days 30 ->
  window_loop body now 30 n start (Z.min (start + days 30) now) l w
  = over_windows body (schedule n start now) l w.
Proof.
  revert start l w. induction n as [|n IH]; intros start l w Hle Hfuel.
  - assert (start = now) as -> by lia. simpl. rewrite Z.eqb_refl. reflexivity.
  - cbn -[days next_window]. destruct (start =? now) eqn:E; [reflexivity|].
    apply Z.eqb_neq in E. cbn [over_windows]. unfold bind.
    destruct (body start (Z.min (start + days 30) now) l w) as [[[l'|v]| |] w1];
      try reflexivity.
    rewrite next_window_min. apply IH; unfold days in *; lia.
Qed.

Lemma schedule_tiles (now : Z) (n : nat) (start : Z) :
  start <= now ->
  now - start <= Z.of_nat n * days 30 ->
  tiles start now (schedule n start now)
  /\ Forall (fun p => snd p - fst p <= days 30) (schedule n start now)
  /\ (forall i s e,
        schedule n start now !! i = Some (s, e) ->
        (S i < length (schedule n start now))%nat ->
        e - s = days 30).
Proof.
  revert start. induction n as [|n IH]; intros start Hle Hfuel.
  - assert (start = now) as -> by lia. simpl. rewrite Z.eqb_refl.
    repeat split; auto. intros i s e Hi. discriminate.
  - simpl. destruct (start =? now) eqn:E.
    + apply Z.eqb_eq in E. subst. repeat split; auto.
      intros i s e Hi. discriminate.
    + apply Z.eqb_neq in E.
      destruct (IH (Z.min (start + days 30) now)) as (Ht & Hw & Hx);
        [unfold days in *; lia..|].
      simpl. repeat split; auto; try (unfold days in *; lia).
      * constructor; [simpl; unfold days in *; lia|exact Hw].
      * intros [|i] s e Hi Hlen.
        -- simpl in Hi. injection Hi as <- <-.
           destruct (decide (start + days 30 <= now)) as [Hin | Hout];
             [lia|].
           exfalso. replace (Z.min (start + days 30) now) with now in Hlen
             by lia.
           destruct n; simpl in Hlen; rewrite ?Z.eqb_refl in Hlen;
             simpl in Hlen; lia.
        -- simpl in Hi, Hlen. apply (Hx i s e Hi). lia.
Qed.

Lemma tiles_within (a b : Z) (ws : list (Z * Z)) :
  tiles a b ws -> forall s e, (s, e) ∈ ws -> a <= s /\ s < e /\ e <= b.
Proof.
  revert a. induction ws as [|[s1 e1] ws IH]; intros a Ht s e Hin.
  - inversion Hin.
  - simpl in Ht. destruct Ht as (-> & Hlt & Hle & Ht).
    apply elem_of_cons in Hin as [[= -> ->] | Hin]; [lia|].
    destruct (IH e1 Ht s e Hin) as (? & ? & ?). lia.
Qed.

(** Tiling windows cover the range exactly and do not overlap: an instant
    of the range lies in one and only one window. *)
Lemma tiles_cover (a b : Z) (ws : list (Z * Z)) :
  tiles a b ws ->
  forall t, a <= t < b <-> exists s e, (s, e) ∈ ws /\ s <= t < e.
Proof.
  revert a. induction ws as [|[s e] ws IH]; intros a Ht t; simpl in Ht.
  - subst. split; [lia|]. intros (s & e & Hin & _). inversion Hin.
  - destruct Ht as (-> & Hlt & Hle & Ht). specialize (IH e Ht t).
    pose proof (tiles_within e b ws Ht) as Hb.
    split.
    + intros Hr. destruct (decide (t < e)) as [Hin | Hout].
      * exists a, e. split; [left|lia].
      * destruct IH as [IH _]. destruct IH as (s' & e' & Hin & Hr');
          [lia|]. exists s', e'. split; [right; exact Hin|exact Hr'].
    + intros (s' & e' & Hin & Hr).
      apply elem_of_cons in Hin as [[= -> ->] | Hin]; [lia|].
      destruct (Hb s' e' Hin) as (? & ? & ?). lia.
Qed.

Lemma tiles_disjoint (a b : Z) (ws : list (Z * Z)) :
  tiles a b ws ->
  forall i j s1 e1 s2 e2,
    ws !! i = Some (s1, e1) -> ws !! j = Some (s2, e2) -> (i < j)%nat ->
    e1 <= s2.
Proof.
  revert a. induction ws as [|[s e] ws IH]; intros a Ht i j s1 e1 s2 e2 Hi Hj Hij.
  - discriminate.
  - simpl in Ht. destruct Ht as (-> & Hlt & Hle & Ht).
    destruct j as [|j]; [lia|]. simpl in Hj.
    destruct i as [|i].
    + simpl in Hi. injection Hi as <- <-.
      apply list_elem_of_lookup_2 in Hj.
      destruct (tiles_within e b ws Ht s2 e2 Hj) as (? & ? & ?). lia.
    + simpl in Hi. apply (IH e Ht i j s1 e1 s2 e2 Hi Hj). lia.
Qed.

(** X16. The arithmetic of the window loop (lines 144-147, 153, 303-309). For a
    last bookmark at or before now, with fuel for every window: the loop
    runs its body, whatever it is, over a list of windows that tile the
    range from the last bookmark to now (no gap, no overlap: every instant
    of the range lies in a window, the windows are in increasing order and
    each starts where the previous one ends), until the body returns from
    the function; every window is at most 30 days wide and every window but
    the last exactly 30 days. When the last bookmark equals now there is no
    window and the body is never run. *)
Theorem window_loop_tiles_span (last now : Z) (fuel : nat) :
  last <= now ->
  (Z.to_nat ((now - last) / days 30) + 1 <= fuel)%nat ->
  exists ws : list (Z * Z),
    (forall (L : Type) (body : Z -> Z -> L -> M (flow L)) (l : L) (w : world),
       window_loop body now 30 fuel (fst (first_window last now))
         (snd (first_window last now)) l w
       = over_windows body ws l w)
    /\ tiles last now ws
    /\ (forall t, last <= t < now <-> exists s e, (s, e) ∈ ws /\ s <= t < e)
    /\ (forall i j s1 e1 s2 e2,
          ws !! i = Some (s1, e1) -> ws !! j = Some (s2, e2) -> (i < j)%nat ->
          e1 <= s2)
    /\ Forall (fun p => snd p - fst p <= days 30) ws
    /\ (forall i s e,
          ws !! i = Some (s, e) -> (S i < length ws)%nat -> e - s = days 30)
    /\ (last = now ->
        ws = []
        /\ forall (L : Type) (body : Z -> Z -> L -> M (flow L)) (l : L)
                  (w : world),
             window_loop body now 30 fuel (fst (first_window last now))
               (snd (first_window last now)) l w
             = (Ok (Next l), w)).
Proof.
  intros Hle Hfuel.
  assert (Hpos : 0 < days 30) by (unfold days; lia).
  assert (Henough : now - last <= Z.of_nat fuel * days 30).
  { pose proof (Z.mul_succ_div_gt (now - last) (days 30) Hpos) as Hgt.
    assert (0 <= (now - last) / days 30) by (apply Z.div_pos; lia).
    assert (Z.succ ((now - last) / days 30) <= Z.of_nat fuel) by lia.
    nia. }
  destruct (schedule_tiles now fuel last Hle Henough) as (Ht & Hw & Hx).
  exists (schedule fuel last now).
  assert (Hloop : forall (L : Type) (body : Z -> Z -> L -> M (flow L)) (l : L)
                         (w : world),
            window_loop body now 30 fuel (fst (first_window last now))
              (snd (first_window last now)) l w
            = over_windows body (schedule fuel last now) l w).
  { intros L body l w. rewrite first_window_min. simpl.
    apply window_loop_schedule; assumption. }
  split; [exact Hloop|].
  split; [exact Ht|].
  split; [apply tiles_cover; exact Ht|].
  split; [apply (tiles_disjoint last now); exact Ht|].
  split; [exact Hw|].
  split; [exact Hx|].
  intros ->.
  assert (Hnil : schedule fuel now now = []).
  { destruct fuel; simpl; rewrite Z.eqb_refl; reflexivity. }
  split; [exact Hnil|].
  intros L body l w. rewrite Hloop, Hnil. reflexivity.
Qed.

(** The scenario of the bookmark 2023-01-01 with the clock at 2023-02-15:
    the windows are 01-01 to 01-31 and 01-31 to 02-15. *)
Lemma window_loop_tiles_span_witness :
  let t0101 := 1672531200000000 in
  let t0131 := 1675123200000000 in
  let t0215 := 1676419200000000 in
  window_loop note_window t0215 30 3 (fst (first_window t0101 t0215))
    (snd (first_window t0101 t0215)) [] empty_world
  = (Ok (Next [(t0101, t0131); (t0131, t0215)]), empty_world)
  /\ exists ws : list (Z * Z),
       (forall (L : Type) (body : Z -> Z -> L -> M (flow L)) (l : L)
               (w : world),
          window_loop body t0215 30 3 (fst (first_window t0101 t0215))
            (snd (first_window t0101 t0215)) l w
          = over_windows body ws l w)
       /\ tiles t0101 t0215 ws.
Proof.
  intros t0101 t0131 t0215. split; [vm_compute; reflexivity|].
  destruct (window_loop_tiles_span t0101 t0215 3) as (ws & Hloop & Ht & _).
  - unfold t0101, t0215. lia.
  - vm_compute. lia.
  - exists ws. split; assumption.
Defined.


(** ** Requests *)

Lemma requests_for_app (name : string) (t1 t2 : list event) :
  requests_for name (t1 ++ t2) = requests_for name t1 ++ requests_for name t2.
Proof. unfold requests_for. apply omap_app. Qed.

Section NoRequest.
Variable name : string.

Lemma snr_ret {A} (a : A) : sends_no_request name (ret a).
Proof. intros w r w' [= <- <-]. reflexivity. Qed.

Lemma snr_raise {A} (e : exn) : sends_no_request name (raise (A := A) e).
Proof. intros w r w' [= <- <-]. reflexivity. Qed.

Lemma snr_lift {A} (x : result A) : sends_no_request name (lift x).
Proof. intros w r w' [= <- <-]. reflexivity. Qed.

Lemma snr_bind {A B} (m : M A) (k : A -> M B) :
  sends_no_request name m -> (forall a, sends_no_request name (k a)) ->
  sends_no_request name (bind m k).
Proof.
  intros Hm Hk w r w' Hrun. unfold bind in Hrun.
  destruct (m w) as [[a| |] w1] eqn:E.
  - rewrite (Hk a w1 r w' Hrun). exact (Hm w _ _ E).
  - injection Hrun as <- <-. exact (Hm w _ _ E).
  - injection Hrun as <- <-. exact (Hm w _ _ E).
Qed.

Lemma snr_emit (e : event) :
  (forall url path params, e <> EvRequest url path params name) ->
  sends_no_request name (emit e).
Proof.
  intros He w r w' [= <- <-]. simpl. rewrite requests_for_app. simpl.
  destruct e as [s|s rec|st|url path params endpoint]; simpl;
    try apply app_nil_r.
  destruct (bool_decide (endpoint = name)) eqn:E; [|apply app_nil_r].
  apply bool_decide_eq_true in E. subst. exfalso. eapply He. reflexivity.
Qed.

Lemma snr_get_state : sends_no_request name get_state.
Proof. intros w r w' [= <- <-]. reflexivity. Qed.

Lemma snr_put_state (st : state) : sends_no_request name (put_state st).
Proof. intros w r w' [= <- <-]. reflexivity. Qed.

Lemma snr_alloc (d : odict) : sends_no_request name (alloc d).
Proof. intros w r w' [= <- <-]. reflexivity. Qed.

Lemma snr_params_of (cfg : endpoint_config) :
  sends_no_request name (params_of cfg).
Proof.
  unfold params_of. destruct (cfg_params cfg); [apply snr_ret|apply snr_alloc].
Qed.

Lemma snr_write_bookmark (stream : string) (v : pyval) :
  sends_no_request name (write_bookmark stream v).
Proof.
  unfold write_bookmark. apply snr_bind; [apply snr_get_state|]. intros st.
  apply snr_bind; [apply snr_put_state|]. intros _.
  apply snr_emit. discriminate.
Qed.

Lemma snr_process_loop `{Externals} stream bf bt ld li parent pid
    (records : list record) (mbv : pyval) (counter : Z) :
  sends_no_request name
    (process_loop stream bf bt ld li parent pid records mbv counter).
Proof.
  revert mbv counter. induction records as [|r records IH]; intros mbv counter.
  - apply snr_ret.
  - simpl. apply snr_bind; [apply snr_lift|]. intros tr.
    apply snr_bind; [apply snr_lift|]. intros m1.
    apply snr_bind; [apply snr_lift|]. intros k.
    apply snr_bind.
    + destruct k; [|apply snr_ret].
      apply snr_bind; [|intros; apply snr_ret].
      apply snr_emit. discriminate.
    + intros counter'. apply snr_bind; [apply IH|].
      intros [[m n] rs]. apply snr_ret.
Qed.

Lemma snr_process_records `{Externals} stream bf bt ld li parent pid cat
    (records : list record) (mbv : pyval) :
  sends_no_request name
    (process_records stream bf bt ld li parent pid cat records mbv).
Proof.
  unfold process_records.
  destruct (get_stream cat stream); [apply snr_process_loop|apply snr_raise].
Qed.

Section Children.
Context `{Externals}.
Variable cat : catalog.
Variable self : call -> M jval.
Variable c : call.
Hypothesis self_quiet : forall child, sends_no_request name (self child).

Lemma snr_sync_child child_name cfg (r : record) (l : locals) :
  sends_no_request name (sync_child self c child_name cfg r l).
Proof.
  unfold sync_child.
  apply snr_bind; [destruct (c_id_fields c); [apply snr_ret|apply snr_raise]|].
  intros fs. apply snr_bind.
  { destruct (pick_parent_id_field 0 fs (parent_id_field l));
      [apply snr_ret|apply snr_raise]. }
  intros f. apply snr_bind; [apply snr_params_of|]. intros sp.
  apply snr_bind.
  { destruct (default [] (cfg_replication_keys cfg));
      [apply snr_raise|apply snr_ret]. }
  intros bf. apply snr_bind; [apply self_quiet|]. intros tot. apply snr_ret.
Qed.

Lemma snr_sync_child_records child_name cfg (records : list record)
    (l : locals) :
  sends_no_request name (sync_child_records self c child_name cfg records l).
Proof.
  revert l. induction records as [|r records IH]; intros l.
  - apply snr_ret.
  - simpl. apply snr_bind; [apply snr_sync_child|]. intros l'. apply IH.
Qed.

Lemma snr_sync_children (children : list (string * endpoint_config))
    (records : list record) (l : locals) :
  sends_no_request name (sync_children cat self c children records l).
Proof.
  revert l. induction children as [|[child_name cfg] children IH]; intros l.
  - apply snr_ret.
  - simpl.
    destruct (should_sync_stream (get_selected_streams cat) None child_name)
      as [should last].
    apply snr_bind; [|intros l'; apply IH].
    destruct should; [apply snr_sync_child_records|apply snr_ret].
Qed.

End Children.
End NoRequest.

Lemma querystring_later (page : Z) (d : odict) :
  page <> 1 -> querystring page d = None.
Proof.
  intros Hne. unfold querystring.
  replace (page =? 1) with false by (symmetry; apply Z.eqb_neq; exact Hne).
  reflexivity.
Qed.

Lemma querystring_first (page : Z) (d : odict) :
  querystring page (if page =? 1 then d else []) = querystring page d.
Proof.
  destruct (page =? 1) eqn:E; [reflexivity|].
  apply Z.eqb_neq in E. rewrite !querystring_later by exact E. reflexivity.
Qed.

Lemma follows_next_later `{Externals} (c : call) (d d' : odict) (page : Z)
    (next_url : jval) (reqs : list (jval * option string)) :
  1 < page ->
  follows_next c d page next_url reqs ->
  follows_next c d' page next_url reqs
  /\ Forall (fun rq => snd rq = None) reqs.
Proof.
  revert page next_url. induction reqs as [|[url qs] rest IH];
    intros page next_url Hpage Hf.
  - split; constructor.
  - simpl in Hf. destruct Hf as (-> & -> & Hrest).
    rewrite (querystring_later page d) in * by lia.
    destruct rest as [|rq rest'].
    + split; [|repeat constructor]. simpl.
      rewrite (querystring_later page d') by lia. auto.
    + destruct Hrest as (body & Hget & Hrest).
      assert (Hnext : 1 < page + 1) by lia.
      destruct (IH (page + 1) _ Hnext Hrest) as [Hf' Hnone].
      split; [|constructor; [reflexivity|exact Hnone]].
      simpl. rewrite (querystring_later page d') by lia.
      split; [reflexivity|]. split; [reflexivity|]. exists body. auto.
Qed.

Section PageRequests.
Context `{Externals}.
Variable cat : catalog.
Variable self : call -> M jval.
Variable c : call.
Variable last_datetime last_integer : pyval.
Variable params : loc.
Hypothesis self_quiet :
  forall child, sends_no_request (c_stream_name c) (self child).

(** One iteration sends exactly one request for the stream, to the URL it
    was given and with the query string of lines 177-180, unless the
    parameters could not be read. *)
Lemma page_step_requests (page : Z) (next_url : jval) (offset : Z)
    (l : locals) (w w' : world) r :
  page_step cat self c last_datetime last_integer params page next_url
    offset l w = (r, w') ->
  (requests_for (c_stream_name c) (w_trace w')
   = requests_for (c_stream_name c) (w_trace w)
   /\ forall x, r <> Ok x)
  \/ requests_for (c_stream_name c) (w_trace w')
     = requests_for (c_stream_name c) (w_trace w)
       ++ [(next_url,
            querystring page (default [] (w_store w !! params)))].
Proof.
  intros Hrun. rewrite <- (querystring_first page).
  set (d := if page =? 1 then default [] (w_store w !! params) else []).
  unfold page_step in Hrun.
  assert (Hload : (if page =? 1 then load params else ret []) w = (Ok d, w)
                  \/ ((page =? 1) = true /\ w_store w !! params = None)).
  { subst d. destruct (page =? 1); [|left; reflexivity].
    unfold load. destruct (w_store w !! params); [left|right]; auto. }
  destruct Hload as [Hload | [Hp Hnone]].
  - right. rewrite (bind_ok _ _ _ _ _ Hload) in Hrun.
    unfold bind at 1 in Hrun. unfold emit at 1 in Hrun.
    match type of Hrun with
    | ?tail ?w1 = _ =>
        assert (Htail : sends_no_request (c_stream_name c) tail)
    end.
    { apply snr_bind; [apply snr_lift|]. intros [body|]; [|apply snr_ret].
      destruct (bool_decide (body = ∅)); [apply snr_ret|].
      destruct (records_of c body) as [|r0 rs0]; [apply snr_ret|].
      apply snr_bind; [apply snr_process_records|]. intros [[mbv n] recs].
      apply snr_bind; [apply snr_sync_children; exact self_quiet|]. intros l2.
      apply snr_bind.
      { destruct (truthy_str (c_bookmark_field c));
          [apply snr_write_bookmark|apply snr_ret]. }
      intros _. apply snr_bind; [|intros; apply snr_ret].
      destruct (default (JNum 0) (body !! "count"));
        try apply snr_raise; apply snr_ret. }
    rewrite (Htail _ _ _ Hrun). simpl. rewrite requests_for_app. simpl.
    rewrite bool_decide_eq_true_2 by reflexivity. reflexivity.
  - left. rewrite Hp in Hrun. unfold bind at 1, load in Hrun.
    rewrite Hnone in Hrun. injection Hrun as <- <-. split; [reflexivity|].
    discriminate.
Qed.

(** An iteration that goes on goes on with the next page number and the
    ['next'] of the response. *)
Lemma page_step_continues (page : Z) (next_url : jval) (offset : Z)
    (l : locals) (w w' : world) page' next_url' offset' l' :
  page_step cat self c last_datetime last_integer params page next_url
    offset l w = (Ok (Next (page', next_url', offset', l')), w') ->
  page' = page + 1
  /\ exists body,
       client_get next_url (c_path c)
         (querystring page (default [] (w_store w !! params)))
         (c_stream_name c)
       = Ok (Some body)
       /\ next_url' = default JNull (body !! "next").
Proof.
  intros Hrun. rewrite <- (querystring_first page).
  set (d := if page =? 1 then default [] (w_store w !! params) else []).
  unfold page_step in Hrun.
  inv_bind Hrun d0 w1 Hd.
  assert (w1 = w /\ d0 = d) as [-> ->].
  { subst d. destruct (page =? 1).
    - unfold load in Hd. destruct (w_store w !! params); [|discriminate].
      injection Hd as <- <-. auto.
    - injection Hd as <- <-. auto. }
  inv_bind Hrun u w2 Hemit.
  inv_bind Hrun response w3 Hget. apply lift_ok_inv in Hget as [Hget ->].
  destruct response as [body|]; [|discriminate].
  destruct (bool_decide (body = ∅)); [discriminate|].
  destruct (records_of c body) as [|r0 rs0]; [discriminate|].
  inv_bind Hrun out w4 Hproc. destruct out as [[mbv n] recs'].
  inv_bind Hrun l2 w5 Hchildren.
  inv_bind Hrun u2 w6 Hwrite.
  inv_bind Hrun u3 w7 Hcount.
  injection Hrun as <- <- <- <- <-.
  split; [reflexivity|]. exists body. split; [exact Hget|reflexivity].
Qed.

(** The requests of a traversal. *)
Lemma page_loop_requests (fuel : nat) (page : Z) (next_url : jval)
    (offset : Z) (l : locals) (w w' : world) r :
  1 <= page ->
  page_loop cat self c last_datetime last_integer params fuel page next_url
    offset l w = (r, w') ->
  exists reqs,
    requests_for (c_stream_name c) (w_trace w')
    = requests_for (c_stream_name c) (w_trace w) ++ reqs
    /\ follows_next c (default [] (w_store w !! params)) page next_url reqs.
Proof.
  revert page next_url offset l w.
  induction fuel as [|fuel IH]; intros page next_url offset l w Hpage Hrun.
  - exists []. rewrite app_nil_r. split; [|exact I].
    destruct next_url; simpl in Hrun; injection Hrun as <- <-; reflexivity.
  - destruct (decide (next_url = JNull)) as [-> | Hne].
    { simpl in Hrun. injection Hrun as <- <-. exists [].
      rewrite app_nil_r. split; [reflexivity|exact I]. }
    assert (Hrun' :
      bind (page_step cat self c last_datetime last_integer params page
              next_url offset l)
           (fun f => match f with
                     | Return v => ret (Return v)
                     | Next (page', next_url', offset', l') =>
                         page_loop cat self c last_datetime last_integer
                           params fuel page' next_url' offset' l'
                     end) w = (r, w')).
    { destruct next_url; [contradiction|exact Hrun..]. }
    clear Hrun. unfold bind in Hrun'.
    destruct (page_step cat self c last_datetime last_integer params page
                next_url offset l w) as [rs w1] eqn:Hstep.
    pose proof (page_step_requests _ _ _ _ _ _ _ Hstep) as Hreq.
    assert (Hone : forall w2,
              w2 = w' ->
              w1 = w2 ->
              exists reqs,
                requests_for (c_stream_name c) (w_trace w')
                = requests_for (c_stream_name c) (w_trace w) ++ reqs
                /\ follows_next c (default [] (w_store w !! params)) page
                     next_url reqs).
    { intros w2 <- ->. destruct Hreq as [[Hreq _] | Hreq].
      - exists []. rewrite app_nil_r. split; [exact Hreq|exact I].
      - eexists. split; [exact Hreq|]. simpl. auto. }
    destruct rs as [[[[[page' next_url'] offset'] l']|v]|e|].
    + destruct Hreq as [[_ Hno] | Hreq]; [exfalso; eapply Hno; reflexivity|].
      pose proof (page_step_continues _ _ _ _ _ _ _ _ _ _ Hstep) as Hcont.
      destruct Hcont as (-> & body & Hget & ->).
      assert (Hpage' : 1 <= page + 1) by lia.
      destruct (IH _ _ _ _ _ Hpage' Hrun') as (reqs & Htrace & Hfollows).
      exists ((next_url, querystring page (default [] (w_store w !! params)))
              :: reqs).
      split.
      * rewrite Htrace, Hreq. rewrite <- app_assoc. reflexivity.
      * simpl. split; [reflexivity|]. split; [reflexivity|].
        destruct reqs as [|rq reqs']; [exact I|].
        exists body. split; [exact Hget|].
        assert (Hnext : 1 < page + 1) by lia.
        exact (proj1 (follows_next_later c _ _ _ _ _ Hnext Hfollows)).
    + injection Hrun' as <- <-. eapply Hone; reflexivity.
    + injection Hrun' as <- <-. eapply Hone; reflexivity.
    + injection Hrun' as <- <-. eapply Hone; reflexivity.
Qed.

End PageRequests.




(** ** The orchestrator *)

Section Orchestrator.
Variable endpoint : pyval -> call -> M jval.
Variable config_start_date : option pyval.
Variable selected_streams : list string.

(** The loop of line 368 syncs the streams to run, and only them. *)
Lemma sync_streams_run_all (streams : list (string * endpoint_config))
    (last_stream : option string) (w : world) :
  sync_streams endpoint config_start_date selected_streams streams
    last_stream w
  = run_all endpoint config_start_date
      (streams_to_run selected_streams last_stream streams) w.
Proof.
  revert last_stream w.
  induction streams as [|[name cfg] streams IH]; intros last_stream w.
  - destruct last_stream; reflexivity.
  - assert (Hgate : forall w0,
              sync_streams endpoint config_start_date selected_streams
                ((name, cfg) :: streams) None w0
              = run_all endpoint config_start_date
                  (streams_to_run selected_streams None
                     ((name, cfg) :: streams)) w0).
    { intros w0. unfold streams_to_run. simpl. unfold should_sync_stream.
      simpl. destruct (decide (name ∈ selected_streams)) as [Hin | Hout].
      - rewrite bool_decide_eq_true_2 by exact Hin.
        rewrite filter_cons_True by exact Hin. simpl. unfold bind.
        destruct (sync_stream endpoint config_start_date name cfg w0)
          as [[[]| |] w1]; try reflexivity.
        apply (IH None).
      - rewrite bool_decide_eq_false_2 by exact Hout.
        rewrite filter_cons_False by exact Hout.
        apply (IH None). }
    destruct last_stream as [s|]; [|apply Hgate].
    destruct (String.eqb name s) eqn:E.
    + apply String.eqb_eq in E. subst s.
      transitivity (sync_streams endpoint config_start_date selected_streams
                      ((name, cfg) :: streams) None w).
      * simpl. unfold should_sync_stream.
        rewrite (bool_decide_eq_true_2 (Some name = Some name)) by reflexivity.
        simpl. reflexivity.
      * rewrite Hgate. unfold streams_to_run. simpl.
        rewrite String.eqb_refl. reflexivity.
    + unfold streams_to_run. simpl. rewrite E. unfold should_sync_stream.
      apply String.eqb_neq in E.
      rewrite (bool_decide_eq_false_2 (Some s = Some name)) by congruence.
      simpl. apply (IH (Some s)).
Qed.

End Orchestrator.

Lemma filter_none_selected (streams : list (string * endpoint_config)) :
  filter (fun p : string * endpoint_config => fst p ∈ ([] : list string))
         streams = [].
Proof.
  induction streams as [|p streams IH]; [reflexivity|].
  rewrite filter_cons_False; [exact IH|]. intros Hin. inversion Hin.
Qed.

(** Marking a stream puts its name in the state and writes the state out. *)
Lemma update_currently_syncing_marks (name : string) (w : world) :
  let st := State (bookmarks (w_state w)) (Some (Some name)) in
  update_currently_syncing (Some name) w
  = (Ok tt, World st (w_store w) (w_trace w ++ [EvState st])).
Proof. reflexivity. Qed.

(** Clearing the pointer leaves no interrupted stream, whatever the state
    held. *)
Lemma update_currently_syncing_clears (w : world) :
  fst (update_currently_syncing None w) = Ok tt
  /\ get_currently_syncing (w_state (snd (update_currently_syncing None w)))
     = None
  /\ w_trace (snd (update_currently_syncing None w))
     = w_trace w ++ [EvState (w_state (snd (update_currently_syncing None w)))].
Proof.
  unfold update_currently_syncing, bind, get_state, put_state, emit. simpl.
  destruct (currently_syncing (w_state w)); repeat split.
Qed.

(** X20. The loop of [sync] around any function in the place of
    [sync_endpoint]: it syncs, in declaration order, exactly the selected
    streams among the declared streams from the interrupted one on (all
    declared streams when no pointer is persisted). Each stream is first
    marked as currently syncing, the marked state being written out before
    the function is entered; if the function returns the pointer is cleared
    and the state written out again, and an exception leaves the pointer on
    the stream. *)
Theorem sync_runs_due_streams (endpoint : pyval -> call -> M jval) (cat : catalog)
    (config_start_date : option pyval)
    (STREAMS : list (string * endpoint_config)) (w : world) :
  sync_with endpoint cat config_start_date STREAMS w
  = run_all endpoint config_start_date
      (streams_to_run (get_selected_streams cat)
         (get_currently_syncing (w_state w)) STREAMS) w
  /\ (forall name cfg start_date key keys w0,
        config_start_date = Some start_date ->
        default [] (cfg_replication_keys cfg) = key :: keys ->
        exists c w1,
          c_stream_name c = name
          /\ currently_syncing (w_state w1) = Some (Some name)
          /\ w_trace w1 = w_trace w0 ++ [EvState (w_state w1)]
          /\ sync_stream endpoint config_start_date name cfg w0
             = match endpoint start_date c w1 with
               | (Ok _, w2) => update_currently_syncing None w2
               | (Raise e, w2) => (Raise e, w2)
               | (OutOfFuel, w2) => (OutOfFuel, w2)
               end)
  /\ (forall w2,
        fst (update_currently_syncing None w2) = Ok tt
        /\ get_currently_syncing
             (w_state (snd (update_currently_syncing None w2))) = None).
Proof.
  split; [|split].
  - unfold sync_with.
    destruct (get_selected_streams cat) as [|s sel] eqn:Hsel.
    + unfold streams_to_run. rewrite filter_none_selected. reflexivity.
    + unfold bind, get_state. apply sync_streams_run_all.
  - intros name cfg start_date key keys w0 -> Hkey.
    pose proof (update_currently_syncing_marks name w0) as Hmark.
    set (st1 := State (bookmarks (w_state w0)) (Some (Some name))) in *.
    unfold sync_stream. rewrite Hkey.
    rewrite (bind_ok _ _ _ _ _ Hmark).
    rewrite (bind_ok (ret start_date) _ _ _ start_date eq_refl).
    destruct (cfg_params cfg) as [sp|] eqn:Hsp.
    + eexists _, _. split; [|split; [|split]]; cycle 3.
      * unfold params_of. rewrite Hsp.
        rewrite (bind_ok (ret sp) _ _ _ sp eq_refl).
        rewrite (bind_ok (ret key) _ _ _ key eq_refl).
        unfold bind. reflexivity.
      * reflexivity.
      * reflexivity.
      * reflexivity.
    + eexists _, _. split; [|split; [|split]]; cycle 3.
      * unfold params_of. rewrite Hsp.
        rewrite (bind_ok (alloc []) _ _ _ _ eq_refl).
        rewrite (bind_ok (ret key) _ _ _ key eq_refl).
        unfold bind. reflexivity.
      * reflexivity.
      * reflexivity.
      * reflexivity.
  - intros w2. destruct (update_currently_syncing_clears w2) as (? & ? & _).
    auto.
Qed.

(** A run resumed at [invoices] with both streams selected skips
    [customers] and syncs [invoices]. *)
Lemma sync_runs_due_streams_witness :
  let w0 := World (State None (Some (Some "invoices"))) [] [] in
  let cat := [CatalogEntry "customers" true; CatalogEntry "invoices" true] in
  let start := Some (PStr "2023-01-01T00:00:00Z") in
  sync_with announce_only cat start two_streams w0
  = run_all announce_only start [("invoices", plain_config "id")] w0
  /\ exists c w1,
       c_stream_name c = "invoices"
       /\ currently_syncing (w_state w1) = Some (Some "invoices")
       /\ w_trace w1 = w_trace w0 ++ [EvState (w_state w1)]
       /\ sync_stream announce_only start "invoices" (plain_config "id") w0
          = match announce_only (PStr "2023-01-01T00:00:00Z") c w1 with
            | (Ok _, w2) => update_currently_syncing None w2
            | (Raise e, w2) => (Raise e, w2)
            | (OutOfFuel, w2) => (OutOfFuel, w2)
            end.
Proof.
  intros w0 cat start.
  destruct (sync_runs_due_streams announce_only cat start two_streams w0)
    as (Hrun & Hmark & _).
  split; [exact Hrun|].
  apply (Hmark "invoices" (plain_config "id") (PStr "2023-01-01T00:00:00Z")
           "id" [] w0); reflexivity.
Defined.


(** * The calls of sync_endpoint and the runs of sync *)

(** ** How a call of sync_endpoint with range fields ends *)

(** With both range fields, a call whose stream is in the catalog and whose
    bookmark parses ends in its first window at the log statement, or,
    when there is no window, at the return of line 312. *)
Lemma range_call_raises `{Externals} (fuel : nat) (cat : catalog)
    (start_date : pyval) (c : call) (w : world) (entry : catalog_entry)
    (start : Z) :
  truthy_str (c_bookmark_query_field_from c)
  && truthy_str (c_bookmark_query_field_to c) = true ->
  get_stream cat (c_stream_name c) = Some entry ->
  strptime_to_utc
    (if bool_decide (c_bookmark_type c = Some "integer") then PNone
     else get_bookmark (Some (w_state w)) (c_stream_name c) start_date)
  = Ok start ->
  sync_endpoint (S (S fuel)) cat start_date c w
  = (Raise (if start =? utils_now
            then UnboundLocalError "total_records"
            else NameError "bookmark_query_field"),
     World (w_state w) (w_store w)
           (w_trace w ++ [EvSchema (c_stream_name c)])).
Proof.
  intros Hrange Hentry Hparse.
  simpl. unfold sync_endpoint_body.
  unfold bind at 1. unfold get_state at 1.
  unfold bind at 1. unfold write_schema. rewrite Hentry. unfold emit at 1.
  rewrite Hrange. unfold bind at 1. unfold bind at 1. unfold lift at 1.
  rewrite Hparse. unfold ret at 1. unfold first_window. unfold bind at 1.
  destruct (start =? utils_now) eqn:Enow; simpl; rewrite Enow; reflexivity.
Qed.

(** C3. The scenario of the empty first page. [sync_endpoint] is called for
    the stream [contacts], which has both range fields, with the bookmark
    2023-01-01 in the state and the clock at 2023-02-15. Whatever the API
    would answer (a missing body, an empty body, no records, or records),
    the call does not return 0: it writes the schema and raises [NameError]
    at the log statement of the first window (line 157 reads
    [bookmark_query_field]), before the page is requested. The state, and
    with it the bookmark, is as before the call. *)
Theorem empty_page_call_raises
    (get : jval -> string -> option string -> string -> result (option data))
    (fuel : nat) :
  let st := State (Some {[ "contacts" := PStr "2023-01-01T00:00:00Z" ]}) None in
  sync_endpoint (H := demo_externals get 1676419200000000) (S (S fuel))
    contacts_catalog (PStr "2022-06-01T00:00:00Z") contacts_call
    (World st [[]] [])
  = (Raise (NameError "bookmark_query_field"),
     World st [[]] [EvSchema "contacts"]).
Proof.
  intros st.
  rewrite (range_call_raises (H := demo_externals get 1676419200000000) fuel
             contacts_catalog (PStr "2022-06-01T00:00:00Z") contacts_call
             (World st [[]] []) (CatalogEntry "contacts" true)
             1672531200000000); reflexivity.
Qed.

(** The returns of lines 196-198 and 210-212 sit inside both loops. Taking
    the parameters and pages of a window as the loop body (that is, the
    body without its log statement), an API with nothing from 2023-01-01 to
    2023-01-31 ends the loop in its first window: one request is sent and
    the window from 01-31 to 02-15 is never asked for. *)
Lemma empty_window_ends_the_loop :
  let now := 1676419200000000 in
  let run := window_loop
               (window_pages (H := demo_externals silent_api now)
                  contacts_catalog no_child contacts_call
                  (PStr "2023-01-01T00:00:00Z") PNone 3)
               now 30 3 (fst (first_window 1672531200000000 now))
               (snd (first_window 1672531200000000 now))
               (Locals (PStr "2023-01-01T00:00:00Z") None PNone None)
               (World (State None None) [[]] []) in
  fst run = Ok (Return (JNum 0))
  /\ requests_for "contacts" (w_trace (snd run))
     = [(JText "https://api.example/contacts",
         Some ("modified__gte=2023-01-01T00:00:00.000000Z"
               +:+ "&modified__lte=2023-01-31T00:00:00.000000Z"))].
Proof. vm_compute. repeat split. Qed.

(** C4. The windows of a stream with a from/to range. For every such stream
    of the catalog whose bookmark parses to the instant [last]: when [last]
    is not now, the call computes the first window (lines 144-147), enters
    the loop and raises [NameError] at the log statement of that first
    iteration, so no request is sent for any window and lines 303-309
    never form a second one; when [last] is now there is no iteration and
    no request, and the return of line 312 raises [UnboundLocalError]. In
    both cases only the schema message has been sent. *)
Theorem windows_end_at_log_statement `{Externals} (fuel : nat) (cat : catalog)
    (start_date : pyval) (c : call) (w : world) (entry : catalog_entry)
    (last : Z) :
  truthy_str (c_bookmark_query_field_from c) = true ->
  truthy_str (c_bookmark_query_field_to c) = true ->
  get_stream cat (c_stream_name c) = Some entry ->
  strptime_to_utc
    (if bool_decide (c_bookmark_type c = Some "integer") then PNone
     else get_bookmark (Some (w_state w)) (c_stream_name c) start_date)
  = Ok last ->
  sync_endpoint (S (S fuel)) cat start_date c w
  = (Raise (if last =? utils_now
            then UnboundLocalError "total_records"
            else NameError "bookmark_query_field"),
     World (w_state w) (w_store w)
           (w_trace w ++ [EvSchema (c_stream_name c)])).
Proof.
  intros Hfrom Hto Hentry Hparse.
  apply (range_call_raises fuel cat start_date c w entry last);
    [rewrite Hfrom, Hto; reflexivity|assumption|assumption].
Qed.

(** The scenario of the bookmark 2023-01-01 with the clock at 2023-02-15,
    for the stream [contacts]: neither of the windows 01-01 to 01-31 and
    01-31 to 02-15 is requested. *)
Lemma windows_end_at_log_statement_witness :
  sync_endpoint (H := demo_externals contacts_pages_api 1676419200000000) 5
    contacts_catalog (PStr "2023-01-01T00:00:00Z") contacts_call
    (World (State None None) [[]] [])
  = (Raise (NameError "bookmark_query_field"),
     World (State None None) [[]] [EvSchema "contacts"]).
Proof.
  apply (windows_end_at_log_statement
           (H := demo_externals contacts_pages_api 1676419200000000) 3
           contacts_catalog (PStr "2023-01-01T00:00:00Z") contacts_call
           (World (State None None) [[]] []) (CatalogEntry "contacts" true)
           1672531200000000);
    reflexivity.
Defined.

(** C10. No request is sent. No call of [sync_endpoint] sends a request,
    for any stream, catalog, state and collaborators: the requests in the
    messages after the call are those from before it. With two pages of
    contacts waiting at the API and the static parameter [ordering] in the
    stream's dictionary, the call raises at the log statement of the first
    window; the first page's request, which would carry the query string,
    is not made, and neither is the second. *)
Theorem no_request_is_sent :
  (forall (E : Externals) (fuel : nat) (cat : catalog) (start_date : pyval)
          (c : call) (w : world) (name : string),
     requests_for name
       (w_trace (snd (sync_endpoint (H := E) fuel cat start_date c w)))
     = requests_for name (w_trace w))
  /\ (let run :=
        sync_endpoint (H := demo_externals contacts_pages_api 1676419200000000)
          5 contacts_catalog (PStr "2023-01-01T00:00:00Z") contacts_call
          (World (State None None) [[("ordering", PStr "modified")]] []) in
      fst run = Raise (NameError "bookmark_query_field")
      /\ w_trace (snd run) = [EvSchema "contacts"]
      /\ requests_for "contacts" (w_trace (snd run)) = []).
Proof.
  split.
  - intros E fuel cat start_date c w name.
    destruct (sync_endpoint_never_returns (H := E) fuel cat start_date c w)
      as (r & w' & Hrun & _ & _ & _ & Htr).
    rewrite Hrun. cbn [snd]. destruct Htr as [-> | ->].
    + reflexivity.
    + rewrite requests_for_app. cbn. apply app_nil_r.
  - vm_compute. repeat split.
Qed.

(** ** What the module's own sync does *)

Lemma bind_not_ok {A B} (m : M A) (k : A -> M B) (w : world) :
  (forall a, fst (m w) <> Ok a) ->
  (forall b, fst (bind m k w) <> Ok b) /\ snd (bind m k w) = snd (m w).
Proof.
  intros Hno. unfold bind. destruct (m w) as [[a|e|] w1]; simpl.
  - exfalso. apply (Hno a). reflexivity.
  - split; [discriminate|reflexivity].
  - split; [discriminate|reflexivity].
Qed.

(** A stream that is due, under the module's own [sync_endpoint]: the
    pointer is set and the state written, and the stream then fails, with
    at most its schema sent; the dictionaries of the store are as they
    were, with at most a fresh empty one (the [{}] of line 384) added. *)
Lemma sync_stream_never_completes `{Externals} (fuel : nat) (cat : catalog)
    (config_start_date : option pyval) (name : string)
    (cfg : endpoint_config) (w : world) :
  let st := State (bookmarks (w_state w)) (Some (Some name)) in
  let run := sync_stream (sync_endpoint fuel cat) config_start_date name cfg w in
  (forall v, fst run <> Ok v)
  /\ w_state (snd run) = st
  /\ (w_trace (snd run) = w_trace w ++ [EvState st]
      \/ w_trace (snd run) = w_trace w ++ [EvState st; EvSchema name])
  /\ (w_store (snd run) = w_store w \/ w_store (snd run) = w_store w ++ [[]]).
Proof.
  cbv zeta. unfold sync_stream.
  rewrite (bind_ok _ _ _ _ _ (update_currently_syncing_marks name w)).
  set (st := State (bookmarks (w_state w)) (Some (Some name))).
  set (w1 := World st (w_store w) (w_trace w ++ [EvState st])).
  destruct config_start_date as [sd|].
  2:{ simpl. split; [discriminate|]. split; [reflexivity|].
      split; left; reflexivity. }
  assert (Hafter : forall (p : loc) (w2 : world),
            w_state w2 = st -> w_trace w2 = w_trace w ++ [EvState st] ->
            (w_store w2 = w_store w \/ w_store w2 = w_store w ++ [[]]) ->
            let run :=
              (let! bookmark_field :=
                 (match default [] (cfg_replication_keys cfg) with
                  | k :: _ => ret k
                  | [] => raise IndexError
                  end) in
               let! total_records :=
                 sync_endpoint fuel cat sd
                   (Call name (default name (cfg_path cfg)) cfg p
                      (cfg_bookmark_query_field_from cfg)
                      (cfg_bookmark_query_field_to cfg)
                      (Some bookmark_field) (cfg_bookmark_type cfg)
                      (default (Some "results") (cfg_data_key cfg))
                      (cfg_key_properties cfg) None PNone) in
               update_currently_syncing None) w2 in
            (forall v, fst run <> Ok v)
            /\ w_state (snd run) = st
            /\ (w_trace (snd run) = w_trace w ++ [EvState st]
                \/ w_trace (snd run) = w_trace w ++ [EvState st; EvSchema name])
            /\ (w_store (snd run) = w_store w
                \/ w_store (snd run) = w_store w ++ [[]])).
  { intros p w2 Hst Htr Hsto. cbv zeta.
    destruct (default [] (cfg_replication_keys cfg)) as [|k ks].
    - simpl. split; [discriminate|]. split; [exact Hst|].
      split; [left; exact Htr|exact Hsto].
    - rewrite (bind_ok (ret k) _ w2 w2 k eq_refl). cbv beta.
      match goal with
      | |- context [bind (sync_endpoint fuel cat sd ?c) ?k] =>
          set (cl := c); set (kk := k)
      end.
      destruct (sync_endpoint_never_returns fuel cat sd cl w2)
        as (r & w' & Hrun & Hno & Hst' & Hsto' & Htr').
      destruct (bind_not_ok (sync_endpoint fuel cat sd cl) kk w2)
        as [Hnot Hsnd].
      { rewrite Hrun. exact Hno. }
      split; [exact Hnot|]. rewrite Hsnd, Hrun. cbn [snd].
      split; [congruence|]. split.
      + destruct Htr' as [-> | ->].
        * left. exact Htr.
        * right. rewrite Htr. rewrite <- app_assoc. reflexivity.
      + rewrite Hsto'. exact Hsto. }
  unfold bind at 1. unfold ret at 1.
  unfold params_of. destruct (cfg_params cfg) as [p|].
  - unfold bind at 1. unfold ret at 1.
    apply (Hafter p w1); try reflexivity. left. reflexivity.
  - unfold bind at 1. unfold alloc at 1.
    apply (Hafter (length (w_store w1))
             (World (w_state w1) (w_store w1 ++ [[]]) (w_trace w1)));
      try reflexivity.
    right. reflexivity.
Qed.

(** What a run of the module's [sync] does, by the streams that are due. *)
Lemma sync_first_due_stream `{Externals} (fuel : nat)
    (config_start_date : option pyval) (cat : catalog)
    (STREAMS : list (string * endpoint_config)) (w : world) :
  let run := sync fuel config_start_date cat STREAMS w in
  match streams_to_run (get_selected_streams cat)
          (get_currently_syncing (w_state w)) STREAMS with
  | [] => run = (Ok tt, w)
  | (name, _) :: _ =>
      let st := State (bookmarks (w_state w)) (Some (Some name)) in
      (forall v, fst run <> Ok v)
      /\ w_state (snd run) = st
      /\ (w_trace (snd run) = w_trace w ++ [EvState st]
          \/ w_trace (snd run) = w_trace w ++ [EvState st; EvSchema name])
      /\ (w_store (snd run) = w_store w
          \/ w_store (snd run) = w_store w ++ [[]])
  end.
Proof.
  cbv zeta. unfold sync, sync_with.
  destruct (get_selected_streams cat) as [|s0 sel] eqn:Hsel.
  - unfold streams_to_run. rewrite filter_none_selected. reflexivity.
  - assert (Heq : (let! st := get_state in
                   sync_streams (sync_endpoint fuel cat) config_start_date
                     (s0 :: sel) STREAMS (get_currently_syncing st)) w
                  = run_all (sync_endpoint fuel cat) config_start_date
                      (streams_to_run (s0 :: sel)
                         (get_currently_syncing (w_state w)) STREAMS) w).
    { unfold bind, get_state. apply sync_streams_run_all. }
    rewrite Heq. clear Heq.
    destruct (streams_to_run (s0 :: sel) (get_currently_syncing (w_state w))
                STREAMS) as [|[name cfg] rest]; [reflexivity|].
    cbn [run_all].
    destruct (sync_stream_never_completes fuel cat config_start_date name cfg w)
      as (Hno & Hst & Htr & Hsto).
    destruct (bind_not_ok
                (sync_stream (sync_endpoint fuel cat) config_start_date name cfg)
                (fun _ => run_all (sync_endpoint fuel cat) config_start_date rest)
                w Hno) as [Hnot Hsnd].
    split; [exact Hnot|]. rewrite Hsnd. auto.
Qed.

(** C9. The static parameters are not written to. Whatever the stream, the
    catalog, the state and the collaborators, a call of [sync_endpoint]
    leaves every shared dictionary as it was, the stream definition's
    [params] among them; and after a run of [sync], which passes the
    definitions' own dictionaries as [static_params] (line 384), the
    dictionaries that existed are as they were, with at most fresh empty
    ones (the [{}] defaults of line 384) beside them. *)
Theorem static_params_unchanged `{Externals} (fuel : nat) (cat : catalog) :
  (forall (start_date : pyval) (c : call) (w : world),
     w_store (snd (sync_endpoint fuel cat start_date c w)) = w_store w)
  /\ (forall (config_start_date : option pyval)
             (STREAMS : list (string * endpoint_config)) (w : world),
        exists fresh,
          w_store (snd (sync fuel config_start_date cat STREAMS w))
          = w_store w ++ fresh
          /\ Forall (fun d : odict => d = []) fresh).
Proof.
  split.
  - intros start_date c w.
    destruct (sync_endpoint_never_returns fuel cat start_date c w)
      as (r & w' & -> & _ & _ & Hsto & _).
    exact Hsto.
  - intros config_start_date STREAMS w.
    pose proof (sync_first_due_stream fuel config_start_date cat STREAMS w)
      as Hrun. cbv zeta in Hrun.
    destruct (streams_to_run (get_selected_streams cat)
                (get_currently_syncing (w_state w)) STREAMS)
      as [|[name cfg] rest].
    + rewrite Hrun. exists []. rewrite app_nil_r. split; [reflexivity|constructor].
    + destruct Hrun as (_ & _ & _ & [-> | ->]).
      * exists []. rewrite app_nil_r. split; [reflexivity|constructor].
      * exists [[]]. split; [reflexivity|]. repeat constructor.
Qed.

(** C6 as stated fails when the interrupted stream is no longer selected.
    With the pointer at [customers], [customers] unselected and [invoices]
    selected, the run does not run [customers]: the first thing it does is
    mark [invoices], and nothing it sends is about [customers]. *)
Lemma interrupted_stream_not_selected :
  let w0 := World (State None (Some (Some "customers"))) [] [] in
  let run := sync (H := demo_externals silent_api 1676419200000000) 5
               (Some (PStr "2023-01-01T00:00:00Z"))
               [CatalogEntry "customers" false; CatalogEntry "invoices" true]
               two_streams w0 in
  get_currently_syncing (w_state w0) = Some "customers"
  /\ w_trace (snd run)
     = [EvState (State None (Some (Some "invoices"))); EvSchema "invoices"]
  /\ (EvState (State None (Some (Some "customers"))) ∉ w_trace (snd run))
  /\ (EvSchema "customers" ∉ w_trace (snd run)).
Proof.
  vm_compute. repeat split;
    intros Hin;
    repeat (apply elem_of_cons in Hin as [Heq | Hin]; [discriminate|]);
    inversion Hin.
Qed.

(** C6, amended. Where a restarted run starts. The streams that are due are
    the selected ones among the declared streams from the interrupted one
    on (all declared streams when no pointer is persisted): the streams
    declared before the interrupted one are skipped, and so is the
    interrupted one when it is not selected. When no stream is due the run
    returns and has done nothing. Otherwise the first thing the run does
    is mark the first stream due as currently syncing and write the state;
    all it sends after that is at most that stream's schema, and the
    pointer is on that stream when the run ends. *)
Theorem resumability `{Externals} (fuel : nat)
    (config_start_date : option pyval) (cat : catalog)
    (STREAMS : list (string * endpoint_config)) (w : world) :
  let run := sync fuel config_start_date cat STREAMS w in
  match filter (fun p => fst p ∈ get_selected_streams cat)
          (match get_currently_syncing (w_state w) with
           | Some s => from_stream s STREAMS
           | None => STREAMS
           end) with
  | [] => run = (Ok tt, w)
  | (name, _) :: _ =>
      let st := State (bookmarks (w_state w)) (Some (Some name)) in
      w_state (snd run) = st
      /\ (w_trace (snd run) = w_trace w ++ [EvState st]
          \/ w_trace (snd run) = w_trace w ++ [EvState st; EvSchema name])
  end.
Proof.
  pose proof (sync_first_due_stream fuel config_start_date cat STREAMS w)
    as Hrun.
  unfold streams_to_run, resume_from in Hrun. cbv zeta in *.
  destruct (filter (fun p => fst p ∈ get_selected_streams cat)
              (match get_currently_syncing (w_state w) with
               | Some s => from_stream s STREAMS
               | None => STREAMS
               end)) as [|[name cfg] rest].
  - exact Hrun.
  - destruct Hrun as (_ & Hst & Htr & _). auto.
Qed.


(** X10. No call of [sync_endpoint] returns, and none changes the state:
    whatever the stream, the catalog, the state and the collaborators, the
    call ends in an exception (or out of fuel) with the bookmarks and the
    pointer as they were, having sent at most the stream's schema. *)
Theorem sync_endpoint_never_completes `{Externals} (fuel : nat) (cat : catalog)
    (start_date : pyval) (c : call) (w : world) :
  (forall v, fst (sync_endpoint fuel cat start_date c w) <> Ok v)
  /\ w_state (snd (sync_endpoint fuel cat start_date c w)) = w_state w
  /\ (w_trace (snd (sync_endpoint fuel cat start_date c w)) = w_trace w
      \/ w_trace (snd (sync_endpoint fuel cat start_date c w))
         = w_trace w ++ [EvSchema (c_stream_name c)]).
Proof.
  destruct (sync_endpoint_never_returns fuel cat start_date c w)
    as (r & w' & -> & Hno & Hst & _ & Htr).
  simpl. auto.
Qed.

Lemma from_stream_absent (s : string)
    (streams : list (string * endpoint_config)) :
  s ∉ map fst streams -> from_stream s streams = [].
Proof.
  induction streams as [|[name cfg] rest IH]; intros Hnot; [reflexivity|].
  cbn [from_stream]. destruct (String.eqb_spec name s) as [->|Hne].
  - exfalso. apply Hnot. cbn [map fst]. apply list_elem_of_here.
  - apply IH. intros Hin. apply Hnot. cbn [map fst].
    apply list_elem_of_further. exact Hin.
Qed.

(** X21. A run with nothing to do: when no stream is selected, or when the
    state's pointer names a stream that [STREAMS] does not declare, [sync]
    returns without calling [sync_endpoint], sending a message or touching
    the state; in the second case the pointer stays where it was, so every
    later run does nothing either. *)
Theorem stale_pointer_runs_nothing (endpoint : pyval -> call -> M jval)
    (cat : catalog) (config_start_date : option pyval)
    (STREAMS : list (string * endpoint_config)) (w : world) :
  get_selected_streams cat = []
  \/ (exists s, get_currently_syncing (w_state w) = Some s
                /\ s ∉ map fst STREAMS) ->
  sync_with endpoint cat config_start_date STREAMS w = (Ok tt, w).
Proof.
  intros Hwhy. unfold sync_with.
  destruct (get_selected_streams cat) as [|s0 sel] eqn:Hsel; [reflexivity|].
  destruct Hwhy as [Hnone | (s & Hptr & Habsent)]; [discriminate|].
  unfold bind at 1. unfold get_state at 1.
  rewrite sync_streams_run_all. rewrite Hptr.
  unfold streams_to_run, resume_from.
  rewrite (from_stream_absent s STREAMS Habsent). reflexivity.
Qed.

(** The pointer is on [contacts], which is not among the declared
    streams: the module's [sync] does nothing. *)
Lemma stale_pointer_runs_nothing_witness :
  sync (H := demo_externals two_pages_api 1676419200000000) 5
    (Some (PStr "2023-01-01T00:00:00Z"))
    [CatalogEntry "customers" true; CatalogEntry "invoices" true]
    two_streams (World (State None (Some (Some "contacts"))) [] [])
  = (Ok tt, World (State None (Some (Some "contacts"))) [] []).
Proof.
  apply (stale_pointer_runs_nothing
           (sync_endpoint (H := demo_externals two_pages_api 1676419200000000)
              5 [CatalogEntry "customers" true; CatalogEntry "invoices" true])
           [CatalogEntry "customers" true; CatalogEntry "invoices" true]
           (Some (PStr "2023-01-01T00:00:00Z")) two_streams
           (World (State None (Some (Some "contacts"))) [] [])).
  right. exists "contacts". split; [reflexivity|].
  vm_compute. intros Hin.
  apply elem_of_cons in Hin as [Hin|Hin]; [discriminate|].
  apply elem_of_cons in Hin as [Hin|Hin]; [discriminate|].
  inversion Hin.
Defined.


(** * Further properties of the module *)

(** ** Bookmarks and the pointer *)

(** X1. A bookmark written is the bookmark read back, whatever the default;
    the bookmarks of the other streams and the pointer stay as they were
    (with the ['bookmarks'] key created when it was missing); and the state
    message that follows carries the state as updated. *)
Theorem write_bookmark_round_trip (stream : string) (value : pyval)
    (w : world) :
  exists st',
    write_bookmark stream value w
    = (Ok tt, World st' (w_store w) (w_trace w ++ [EvState st']))
    /\ (forall default, get_bookmark (Some st') stream default = value)
    /\ (forall other default,
          other <> stream ->
          get_bookmark (Some st') other default
          = get_bookmark (Some (w_state w)) other default)
    /\ currently_syncing st' = currently_syncing (w_state w).
Proof.
  exists (set_bookmark (w_state w) stream value).
  split; [reflexivity|]. split; [intros d; apply get_bookmark_set|].
  split; [|reflexivity].
  intros other d Hne. unfold get_bookmark, set_bookmark. simpl.
  rewrite lookup_insert_ne by congruence.
  destruct (bookmarks (w_state w)); [reflexivity|].
  rewrite lookup_empty. reflexivity.
Qed.

(** X2. Marking a stream and reading the pointer back gives the stream;
    clearing after marking removes the key; neither touches the bookmarks,
    and each writes the state out once. Clearing a state that has no
    pointer does not leave it without the key: the key is then set, to
    [None]. *)
Theorem currently_syncing_round_trip (name : string) (w : world) :
  let marked := snd (update_currently_syncing (Some name) w) in
  let cleared := snd (update_currently_syncing None marked) in
  get_currently_syncing (w_state marked) = Some name
  /\ currently_syncing (w_state cleared) = None
  /\ bookmarks (w_state marked) = bookmarks (w_state w)
  /\ bookmarks (w_state cleared) = bookmarks (w_state w)
  /\ w_trace cleared
     = w_trace w ++ [EvState (w_state marked); EvState (w_state cleared)]
  /\ (forall b store trace,
        w_state (snd (update_currently_syncing None
                        (World (State b None) store trace)))
        = State b (Some None)).
Proof.
  simpl. rewrite <- app_assoc. repeat split.
Qed.

(** ** More on process_records *)

Lemma owr_ret {A} (name : string) (a : A) : only_writes_records name (ret a).
Proof.
  intros w r w' [= <- <-]. repeat split. exists []. rewrite app_nil_r.
  split; [reflexivity|constructor].
Qed.

Lemma owr_lift {A} (name : string) (x : result A) :
  only_writes_records name (lift x).
Proof.
  intros w r w' [= <- <-]. repeat split. exists []. rewrite app_nil_r.
  split; [reflexivity|constructor].
Qed.

Lemma owr_raise {A} (name : string) (e : exn) :
  only_writes_records name (raise (A := A) e).
Proof.
  intros w r w' [= <- <-]. repeat split. exists []. rewrite app_nil_r.
  split; [reflexivity|constructor].
Qed.

Lemma owr_write_record (name : string) (tr : record) :
  only_writes_records name (write_record name tr).
Proof.
  intros w r w' [= <- <-]. repeat split. exists [EvRecord name tr].
  split; [reflexivity|]. repeat constructor. eauto.
Qed.

Lemma owr_bind {A B} (name : string) (m : M A) (k : A -> M B) :
  only_writes_records name m -> (forall a, only_writes_records name (k a)) ->
  only_writes_records name (bind m k).
Proof.
  intros Hm Hk w r w' Hrun. unfold bind in Hrun.
  destruct (m w) as [[a| |] w1] eqn:E.
  - destruct (Hm w _ _ E) as (S1 & T1 & evs1 & Tr1 & F1).
    destruct (Hk a w1 r w' Hrun) as (S2 & T2 & evs2 & Tr2 & F2).
    split; [congruence|]. split; [congruence|].
    exists (evs1 ++ evs2). split.
    + rewrite Tr2, Tr1, app_assoc. reflexivity.
    + apply Forall_app. auto.
  - injection Hrun as <- <-. exact (Hm w _ _ E).
  - injection Hrun as <- <-. exact (Hm w _ _ E).
Qed.

Lemma owr_process_loop `{Externals} stream bf bt ld li parent pid
    (records : list record) (mbv : pyval) (counter : Z) :
  only_writes_records stream
    (process_loop stream bf bt ld li parent pid records mbv counter).
Proof.
  revert mbv counter. induction records as [|r records IH]; intros mbv counter.
  - apply owr_ret.
  - simpl. apply owr_bind; [apply owr_lift|]. intros tr.
    apply owr_bind; [apply owr_lift|]. intros m1.
    apply owr_bind; [apply owr_lift|]. intros k.
    apply owr_bind.
    + destruct k; [|apply owr_ret].
      apply owr_bind; [apply owr_write_record|]. intros; apply owr_ret.
    + intros counter'. apply owr_bind; [apply IH|].
      intros [[m n] rs]. apply owr_ret.
Qed.

Lemma process_loop_count `{Externals} stream bf bt ld li parent pid
    (records : list record) (mbv : pyval) (counter : Z) (w w' : world)
    m n rs :
  process_loop stream bf bt ld li parent pid records mbv counter w
  = (Ok (m, n, rs), w') ->
  exists evs,
    w_trace w' = w_trace w ++ evs
    /\ n = counter + Z.of_nat (length evs)
    /\ (length evs <= length records)%nat
    /\ length rs = length records.
Proof.
  revert mbv counter w m n rs.
  induction records as [|r records IH]; intros mbv counter w m n rs Hrun.
  - simpl in Hrun. injection Hrun as <- <- <- <-. exists [].
    rewrite app_nil_r. simpl. repeat split; lia.
  - simpl in Hrun.
    inv_bind Hrun tr w1 Htr. apply lift_ok_inv in Htr as [Htr ->].
    inv_bind Hrun m1 w1 Hm1. apply lift_ok_inv in Hm1 as [Hm1 ->].
    inv_bind Hrun k w1 Hk. apply lift_ok_inv in Hk as [Hk ->].
    inv_bind Hrun counter' w1 Hc.
    inv_bind Hrun out w2 Hrest. destruct out as [[m2 n2] rs2].
    injection Hrun as <- <- <- <-.
    apply IH in Hrest as (evs & Htrace & Hn & Hlen & Hrs).
    destruct k.
    + inv_bind Hc u w3 Hw. injection Hc as <- <-.
      unfold write_record, emit in Hw. injection Hw as <- <-.
      simpl in Htrace. rewrite <- app_assoc in Htrace.
      eexists. split; [exact Htrace|]. simpl. repeat split; lia.
    + injection Hc as <- <-. exists evs. simpl. repeat split; auto; lia.
Qed.



Lemma fold_update_max_unkeyed (bf : option string) (trs : list record)
    (mbv : pyval) :
  Forall (fun tr => bookmark_of bf tr = None) trs ->
  fold_update_max bf trs mbv = Ok mbv.
Proof.
  induction 1 as [|tr trs Hk _ IH]; [reflexivity|].
  simpl. unfold update_max. rewrite Hk. exact IH.
Qed.

Lemma filter_all {A} (P : A -> Prop) `{forall x, Decision (P x)}
    (l : list A) :
  Forall P l -> filter P l = l.
Proof.
  induction 1 as [|x l Hx _ IH]; [reflexivity|].
  rewrite filter_cons_True by exact Hx. rewrite IH. reflexivity.
Qed.

Lemma filter_nothing {A} (P : A -> Prop) `{forall x, Decision (P x)}
    (l : list A) :
  Forall (fun x => ~ P x) l -> filter P l = [].
Proof.
  induction 1 as [|x l Hx _ IH]; [reflexivity|].
  rewrite filter_cons_False by exact Hx. exact IH.
Qed.



(** X5. A bookmark type that is neither ['integer'] nor ['datetime'] drops
    every record that has the replication key: nothing is written and the
    count is 0, yet the maximum still moves to the highest key of the
    page. *)
Theorem unknown_bookmark_type_drops_records `{Externals}
    (stream_name f : string) (bookmark_type : option string)
    (last_datetime last_integer : pyval) (parent : option string)
    (parent_id : pyval) (cat : catalog) (records trs : list record)
    (mbv m : pyval) (w : world) :
  is_Some (get_stream cat stream_name) ->
  f <> "" ->
  bookmark_type <> Some "integer" ->
  bookmark_type <> Some "datetime" ->
  Forall2 (fun r tr =>
             transform stream_name (annotate parent parent_id r) = Ok tr)
          records trs ->
  Forall (fun tr : record => is_Some (tr !! f)) trs ->
  fold_update_max (Some f) trs mbv = Ok m ->
  process_records stream_name (Some f) bookmark_type last_datetime
    last_integer parent parent_id cat records mbv w
  = (Ok (m, 0, map (annotate parent parent_id) records), w)
  /\ is_max_of mbv (keys_of f trs) m.
Proof.
  intros [e He] Hf Hint Hdt Htr Hkey Hmax.
  split; [|apply fold_update_max_is_max; assumption].
  unfold process_records. rewrite He.
  assert (Hkeep : Forall (fun tr =>
                    keep (Some f) bookmark_type last_datetime last_integer tr
                    = Ok false) trs).
  { eapply Forall_impl; [exact Hkey|]. intros tr [v Hv].
    unfold keep. rewrite (bookmark_of_truthy f Hf), Hv.
    rewrite !bool_decide_eq_false_2 by assumption. reflexivity. }
  rewrite (process_loop_ok stream_name (Some f) bookmark_type
             last_datetime last_integer parent parent_id records trs mbv m
             0 w Htr).
  - rewrite filter_nothing.
    + simpl. rewrite app_nil_r. destruct w; reflexivity.
    + eapply Forall_impl; [exact Hkeep|]. intros tr ->. discriminate.
  - eapply Forall_impl; [exact Hkeep|]. intros tr ->. eauto.
  - exact Hmax.
Qed.

(** A stream with no bookmark type: the record with id 9 is not written,
    the maximum moves from 5 to 9. *)
Lemma unknown_bookmark_type_drops_records_witness :
  process_records (H := demo_externals silent_api 0) "invoices" (Some "id")
    None PNone PNone None PNone invoices_catalog [with_id 9] (PInt 5)
    empty_world
  = (Ok (PInt 9, 0, [with_id 9]), empty_world)
  /\ is_max_of (PInt 5) [PInt 9] (PInt 9).
Proof.
  apply (unknown_bookmark_type_drops_records
           (H := demo_externals silent_api 0) "invoices" "id" None PNone
           PNone None PNone invoices_catalog [with_id 9] [with_id 9]
           (PInt 5) (PInt 9) empty_world).
  - eexists. reflexivity.
  - discriminate.
  - discriminate.
  - discriminate.
  - repeat constructor.
  - repeat constructor. eexists. reflexivity.
  - reflexivity.
Defined.

(** X6. A replication-key value that Python cannot compare with the running
    maximum (a null value, or a string against an integer) is a
    [TypeError]: when the first record of the page has such a value and a
    maximum is already known, the call raises before writing anything. *)
Theorem incomparable_key_raises `{Externals} (stream_name f : string)
    (bookmark_type : option string) (last_datetime last_integer : pyval)
    (parent : option string) (parent_id : pyval) (cat : catalog)
    (r : record) (rest : list record) (tr : record) (v mbv : pyval)
    (w : world) :
  is_Some (get_stream cat stream_name) ->
  f <> "" ->
  transform stream_name (annotate parent parent_id r) = Ok tr ->
  tr !! f = Some v ->
  mbv <> PNone ->
  py_gt v mbv = Raise TypeError ->
  process_records stream_name (Some f) bookmark_type last_datetime
    last_integer parent parent_id cat (r :: rest) mbv w
  = (Raise TypeError, w).
Proof.
  intros [e He] Hf Htr Hv Hne Hgt. unfold process_records. rewrite He.
  simpl. unfold bind at 1, lift at 1. rewrite Htr.
  unfold bind at 1, lift at 1. unfold update_max.
  rewrite (bookmark_of_truthy f Hf), Hv, Hgt.
  destruct mbv; [contradiction|reflexivity..].
Qed.

(** An invoice whose [id] is null, with the maximum at 50. *)
Lemma incomparable_key_raises_witness :
  process_records (H := demo_externals silent_api 0) "invoices" (Some "id")
    (Some "integer") PNone (PInt 50) None PNone invoices_catalog
    [{[ "id" := PNone ]}; with_id 60] (PInt 50) empty_world
  = (Raise TypeError, empty_world).
Proof.
  apply (incomparable_key_raises (H := demo_externals silent_api 0)
           "invoices" "id" (Some "integer") PNone (PInt 50) None PNone
           invoices_catalog {[ "id" := PNone ]} [with_id 60]
           {[ "id" := PNone ]} PNone (PInt 50) empty_world).
  - eexists. reflexivity.
  - discriminate.
  - reflexivity.
  - reflexivity.
  - discriminate.
  - reflexivity.
Defined.


(** ** More on sync_endpoint *)

(** X7. A stream the catalog does not have: [sync_endpoint] raises
    [AttributeError] from [write_schema] (line 14 reads the schema of
    [None]) and has then sent nothing and changed nothing. *)
Theorem stream_missing_from_catalog `{Externals} (fuel : nat) (cat : catalog)
    (start_date : pyval) (c : call) (w : world) :
  get_stream cat (c_stream_name c) = None ->
  sync_endpoint (S fuel) cat start_date c w = (Raise AttributeError, w).
Proof.
  intros Hnone. simpl. unfold sync_endpoint_body.
  unfold bind at 1. unfold get_state at 1.
  unfold bind at 1. unfold write_schema. rewrite Hnone. reflexivity.
Qed.

(** The stream [contacts] against a catalog that only has [invoices]. *)
Lemma stream_missing_from_catalog_witness :
  sync_endpoint (H := demo_externals silent_api 0) 1 invoices_catalog
    (PStr "2023-01-01T00:00:00Z") contacts_call empty_world
  = (Raise AttributeError, empty_world).
Proof.
  apply (stream_missing_from_catalog (H := demo_externals silent_api 0) 0
           invoices_catalog (PStr "2023-01-01T00:00:00Z") contacts_call
           empty_world).
  reflexivity.
Defined.

(** X8. An integer-cursor stream never gets to its cursor: for the bookmark
    type ['integer'] [last_datetime] stays [None] (line 128), and lines 144
    and 149 parse it all the same, so whatever [strptime_to_utc] raises for
    [None] is what the call raises, after the schema message and before
    any request, with or without range fields. *)
Theorem integer_stream_parses_none `{Externals} (fuel : nat) (cat : catalog)
    (start_date : pyval) (c : call) (w : world) (entry : catalog_entry)
    (e : exn) :
  c_bookmark_type c = Some "integer" ->
  get_stream cat (c_stream_name c) = Some entry ->
  strptime_to_utc PNone = Raise e ->
  sync_endpoint (S fuel) cat start_date c w
  = (Raise e,
     World (w_state w) (w_store w)
           (w_trace w ++ [EvSchema (c_stream_name c)])).
Proof.
  intros Hint Hentry Hparse. simpl. unfold sync_endpoint_body.
  unfold bind at 1. unfold get_state at 1.
  unfold bind at 1. unfold write_schema. rewrite Hentry. unfold emit at 1.
  rewrite Hint. rewrite bool_decide_eq_true_2 by reflexivity.
  unfold bind at 1.
  destruct (truthy_str (c_bookmark_query_field_from c)
            && truthy_str (c_bookmark_query_field_to c));
    unfold bind at 1; unfold lift at 1; rewrite Hparse; reflexivity.
Qed.

(** The integer-cursor stream [invoices], with a parser that rejects
    [None]. *)
Lemma integer_stream_parses_none_witness :
  sync_endpoint (H := demo_externals two_pages_api 0) 3 invoices_catalog
    (PStr "2023-01-01T00:00:00Z") invoices_call empty_world
  = (Raise TypeError, World (State None None) [] [EvSchema "invoices"]).
Proof.
  apply (integer_stream_parses_none (H := demo_externals two_pages_api 0) 2
           invoices_catalog (PStr "2023-01-01T00:00:00Z") invoices_call
           empty_world (CatalogEntry "invoices" true) TypeError);
    reflexivity.
Defined.

(** ** The parameters of a window *)

Lemma odict_get_set (k : string) (v : pyval) (d : odict) :
  odict_get k (odict_set k v d) = Some v.
Proof.
  induction d as [|[k' v'] d IH]; simpl.
  - rewrite String.eqb_refl. reflexivity.
  - destruct (String.eqb k' k) eqn:E; simpl.
    + rewrite String.eqb_refl. reflexivity.
    + rewrite E. exact IH.
Qed.

Lemma odict_get_set_other (k k' : string) (v : pyval) (d : odict) :
  k <> k' -> odict_get k' (odict_set k v d) = odict_get k' d.
Proof.
  intros Hne. induction d as [|[k0 v0] d IH]; simpl.
  - destruct (String.eqb k k') eqn:E; [|reflexivity].
    apply String.eqb_eq in E. contradiction.
  - destruct (String.eqb k0 k) eqn:E; simpl.
    + apply String.eqb_eq in E. subst k0.
      destruct (String.eqb k k') eqn:E'; [|reflexivity].
      apply String.eqb_eq in E'. contradiction.
    + destruct (String.eqb k0 k'); [reflexivity|exact IH].
Qed.

Lemma odict_set_set (k : string) (v v' : pyval) (d : odict) :
  odict_set k v (odict_set k v' d) = odict_set k v d.
Proof.
  induction d as [|[k0 v0] d IH]; simpl.
  - rewrite String.eqb_refl. reflexivity.
  - destruct (String.eqb k0 k) eqn:E; simpl.
    + rewrite String.eqb_refl. reflexivity.
    + rewrite E, IH. reflexivity.
Qed.

Lemma odict_set_comm (k k' : string) (v v' : pyval) (d : odict) :
  k <> k' -> is_Some (odict_get k d) ->
  odict_set k v (odict_set k' v' d) = odict_set k' v' (odict_set k v d).
Proof.
  intros Hne.
  assert (Hkk : String.eqb k' k = false) by (apply String.eqb_neq; congruence).
  assert (Hkk' : String.eqb k k' = false) by (apply String.eqb_neq; exact Hne).
  induction d as [|[k0 v0] d IH]; simpl; intros Hin.
  - destruct Hin as [x Hx]. discriminate.
  - destruct (String.eqb k0 k') eqn:E'; destruct (String.eqb k0 k) eqn:E.
    + apply String.eqb_eq in E, E'. congruence.
    + apply String.eqb_eq in E'. subst k0. simpl.
      rewrite Hkk, String.eqb_refl. reflexivity.
    + apply String.eqb_eq in E. subst k0. simpl.
      rewrite Hkk', String.eqb_refl. reflexivity.
    + simpl. rewrite E, E', IH by exact Hin. reflexivity.
Qed.

Lemma after_window_twice `{Externals} (from : string) (to : option string)
    (s1 e1 s2 e2 : Z) (d : odict) :
  after_window from to s2 e2 (after_window from to s1 e1 d)
  = after_window from to s2 e2 d.
Proof.
  unfold after_window. cbv zeta.
  destruct to as [t|]; [|apply odict_set_set].
  destruct (truthy_str (Some t)); [|apply odict_set_set].
  destruct (decide (from = t)) as [<- | Hne].
  - rewrite !odict_set_set. reflexivity.
  - rewrite (odict_set_comm from t).
    + rewrite odict_set_set, odict_set_set. reflexivity.
    + exact Hne.
    + rewrite odict_get_set. eauto.
Qed.

(** X11. What a window leaves in the request parameters of a datetime
    stream: the to field holds the window's end, the from field its start
    (unless both fields have one name, where the end is written last), every
    other parameter keeps its value, and no other dictionary of the store
    is touched. *)
Theorem window_bounds_in_params `{Externals} (c : call) (last_integer : pyval)
    (start_window end_window : Z) (w : world) (from : string) (d : odict) :
  c_bookmark_type c = Some "datetime" ->
  c_bookmark_query_field_from c = Some from ->
  from <> "" ->
  w_store w !! c_static_params c = Some d ->
  exists d',
    window_params c last_integer start_window end_window w
    = (Ok (c_static_params c),
       World (w_state w) (<[c_static_params c := d']> (w_store w)) (w_trace w))
    /\ (forall to,
          c_bookmark_query_field_to c = Some to -> to <> "" ->
          odict_get to d' = Some (PStr (strftime end_window)))
    /\ ((forall to,
           c_bookmark_query_field_to c = Some to -> to <> "" -> to <> from) ->
        odict_get from d' = Some (PStr (strftime start_window)))
    /\ (forall k,
          k <> from -> c_bookmark_query_field_to c <> Some k ->
          odict_get k d' = odict_get k d)
    /\ (forall l,
          l <> c_static_params c ->
          <[c_static_params c := d']> (w_store w) !! l = w_store w !! l).
Proof.
  intros Hbt Hfrom Hne Hd.
  exists (after_window from (c_bookmark_query_field_to c) start_window
            end_window d).
  split; [exact (window_params_datetime c last_integer start_window end_window
                   w from d Hbt Hfrom Hne Hd)|].
  unfold after_window. cbv zeta.
  repeat split.
  - intros to Hto Hto'. rewrite Hto.
    assert (Ht : truthy_str (Some to) = true).
    { simpl. destruct (String.eqb_spec to ""); [contradiction|reflexivity]. }
    rewrite Ht. apply odict_get_set.
  - intros Hdiff. destruct (c_bookmark_query_field_to c) as [to|] eqn:Hto;
      [|apply odict_get_set].
    destruct (truthy_str (Some to)) eqn:Ht; [|apply odict_get_set].
    rewrite odict_get_set_other; [apply odict_get_set|].
    apply Hdiff; [reflexivity|].
    intros ->. discriminate.
  - intros k Hk Hkto.
    destruct (c_bookmark_query_field_to c) as [to|] eqn:Hto;
      [|apply odict_get_set_other; congruence].
    destruct (truthy_str (Some to));
      [|apply odict_get_set_other; congruence].
    rewrite odict_get_set_other by congruence.
    apply odict_get_set_other; congruence.
  - intros l Hl. apply list_lookup_insert_ne. congruence.
Qed.

(** The stream [contacts] over a dictionary that already has a static
    parameter. *)
Lemma window_bounds_in_params_witness :
  exists d',
    window_params (H := demo_externals silent_api 1676419200000000)
      contacts_call PNone 1672531200000000 1675123200000000
      (World (State None None) [[("ordering", PStr "modified")]] [])
    = (Ok 0%nat, World (State None None) [d'] [])
    /\ odict_get "modified__lte" d' = Some (PStr "2023-01-31T00:00:00.000000Z")
    /\ odict_get "modified__gte" d' = Some (PStr "2023-01-01T00:00:00.000000Z")
    /\ odict_get "ordering" d' = Some (PStr "modified").
Proof.
  destruct (window_bounds_in_params
              (H := demo_externals silent_api 1676419200000000)
              contacts_call PNone 1672531200000000 1675123200000000
              (World (State None None) [[("ordering", PStr "modified")]] [])
              "modified__gte" [("ordering", PStr "modified")])
    as (d' & Hrun & Hto & Hfrom & Hother & _).
  - reflexivity.
  - reflexivity.
  - discriminate.
  - reflexivity.
  - exists d'. split; [exact Hrun|]. split; [|split].
    + apply (Hto "modified__lte"); [reflexivity|discriminate].
    + apply Hfrom. intros to Hto'. injection Hto' as <-. discriminate.
    + rewrite (Hother "ordering"); [reflexivity|discriminate|discriminate].
Defined.

(** X12. The bounds of an earlier window do not accumulate in the shared
    dictionary: the parameters after two windows in a row are those after
    the second one alone, with every key where it first stood. *)
Theorem later_window_overwrites `{Externals} (c : call) (last_integer : pyval)
    (s1 e1 s2 e2 : Z) (w : world) (from : string) :
  c_bookmark_type c = Some "datetime" ->
  c_bookmark_query_field_from c = Some from ->
  from <> "" ->
  is_Some (w_store w !! c_static_params c) ->
  (let! _ := window_params c last_integer s1 e1 in
   window_params c last_integer s2 e2) w
  = window_params c last_integer s2 e2 w.
Proof.
  intros Hbt Hfrom Hne [d Hd].
  pose proof (window_params_datetime c last_integer s1 e1 w from d
                Hbt Hfrom Hne Hd) as H1.
  pose proof (window_params_datetime c last_integer s2 e2 w from d
                Hbt Hfrom Hne Hd) as H2.
  cbv zeta in H1, H2.
  rewrite (bind_ok _ _ _ _ _ H1), H2.
  set (d1 := match c_bookmark_query_field_to c with
             | Some to =>
                 if truthy_str (Some to)
                 then odict_set to (PStr (strftime e1))
                        (odict_set from (PStr (strftime s1)) d)
                 else odict_set from (PStr (strftime s1)) d
             | None => odict_set from (PStr (strftime s1)) d
             end).
  assert (Hd1 : <[c_static_params c := d1]> (w_store w) !! c_static_params c
                = Some d1).
  { apply list_lookup_insert_eq. apply lookup_lt_is_Some. eauto. }
  pose proof (window_params_datetime c last_integer s2 e2
                (World (w_state w) (<[c_static_params c := d1]> (w_store w))
                   (w_trace w)) from d1 Hbt Hfrom Hne Hd1) as H3.
  cbv zeta in H3. cbn [w_state w_store w_trace] in H3. rewrite H3.
  rewrite list_insert_insert_eq.
  pose proof (after_window_twice from (c_bookmark_query_field_to c)
                s1 e1 s2 e2 d) as Htwice.
  unfold after_window in Htwice. cbv zeta in Htwice. fold d1 in Htwice.
  rewrite Htwice. reflexivity.
Qed.

(** Two windows of the stream [contacts] in a row. *)
Lemma later_window_overwrites_witness :
  (let! _ := window_params (H := demo_externals silent_api 1676419200000000)
               contacts_call PNone 1672531200000000 1675123200000000 in
   window_params (H := demo_externals silent_api 1676419200000000)
     contacts_call PNone 1675123200000000 1676419200000000)
    (World (State None None) [[("ordering", PStr "modified")]] [])
  = (Ok 0%nat,
     World (State None None)
       [[("ordering", PStr "modified");
         ("modified__gte", PStr "2023-01-31T00:00:00.000000Z");
         ("modified__lte", PStr "2023-02-15T00:00:00.000000Z")]] []).
Proof.
  rewrite (later_window_overwrites
             (H := demo_externals silent_api 1676419200000000)
             contacts_call PNone 1672531200000000 1675123200000000
             1675123200000000 1676419200000000
             (World (State None None) [[("ordering", PStr "modified")]] [])
             "modified__gte").
  - vm_compute. reflexivity.
  - reflexivity.
  - reflexivity.
  - discriminate.
  - vm_compute. eauto.
Defined.

(** X13. Outside datetime streams the window never reaches the request
    parameters: an integer stream with a from field gets its stored cursor
    under that field, whatever the window and whether or not a to field is
    declared, and any other stream's dictionary is left as it is. *)
Theorem window_params_not_datetime `{Externals} (c : call)
    (last_integer : pyval) (start_window end_window : Z) (w : world)
    (d : odict) :
  c_bookmark_type c <> Some "datetime" ->
  w_store w !! c_static_params c = Some d ->
  window_params c last_integer start_window end_window w
  = (Ok (c_static_params c),
     World (w_state w)
       (<[c_static_params c :=
            match c_bookmark_query_field_from c with
            | Some from =>
                if truthy_str (Some from)
                   && bool_decide (c_bookmark_type c = Some "integer")
                then odict_set from last_integer d
                else d
            | None => d
            end]> (w_store w))
       (w_trace w)).
Proof.
  intros Hbt Hd.
  assert (Hsame : <[c_static_params c := d]> (w_store w) = w_store w)
    by (apply list_insert_id; exact Hd).
  assert (Hw : World (w_state w) (w_store w) (w_trace w) = w)
    by (destruct w; reflexivity).
  unfold window_params.
  rewrite (bool_decide_eq_false_2 _ Hbt).
  destruct (c_bookmark_query_field_from c) as [from|];
    [|rewrite Hsame, Hw; reflexivity].
  destruct (truthy_str (Some from)); cbn [andb];
    [|rewrite Hsame, Hw; reflexivity].
  rewrite andb_false_r.
  destruct (bool_decide (c_bookmark_type c = Some "integer")).
  - unfold bind at 1. unfold bind at 1. unfold store_set at 1. rewrite Hd.
    destruct (c_bookmark_query_field_to c); reflexivity.
  - rewrite Hsame, Hw.
    destruct (c_bookmark_query_field_to c); reflexivity.
Qed.

(** An integer stream that declares both range fields, with the cursor at
    48: only the from field is written. *)
Lemma window_params_not_datetime_witness :
  window_params (H := demo_externals silent_api 1676419200000000)
    (Call "invoices" "invoices" (plain_config "id") 0%nat (Some "id__gte")
       (Some "id__lte") (Some "id") (Some "integer") (Some "results")
       (Some ["id"]) None PNone)
    (PInt 48) 1672531200000000 1675123200000000
    (World (State None None) [[("ordering", PStr "id")]] [])
  = (Ok 0%nat,
     World (State None None)
       [[("ordering", PStr "id"); ("id__gte", PInt 48)]] []).
Proof.
  apply (window_params_not_datetime
           (H := demo_externals silent_api 1676419200000000)
           (Call "invoices" "invoices" (plain_config "id") 0%nat
              (Some "id__gte") (Some "id__lte") (Some "id") (Some "integer")
              (Some "results") (Some ["id"]) None PNone)
           (PInt 48) 1672531200000000 1675123200000000
           (World (State None None) [[("ordering", PStr "id")]] [])
           [("ordering", PStr "id")]).
  - discriminate.
  - reflexivity.
Defined.

(** ** More on the date windows *)



Lemma schedule_length (now : Z) (n : nat) (start : Z) :
  start <= now ->
  now - start <= Z.of_nat n * days 30 ->
  Z.of_nat (length (schedule n start now))
  = (now - start + days 30 - 1) / days 30.
Proof.
  assert (Hd : 0 < days 30) by (unfold days; lia).
  revert start. induction n as [|n IH]; intros start Hle Hfuel.
  - assert (start = now) by lia. subst start. cbn [schedule].
    rewrite Z.eqb_refl. cbn [length].
    replace (now - now + days 30 - 1) with (days 30 - 1) by lia.
    symmetry. apply Z.div_small. lia.
  - cbn [schedule]. destruct (Z.eqb_spec start now) as [->|Hne].
    + cbn [length]. replace (now - now + days 30 - 1) with (days 30 - 1) by lia.
      symmetry. apply Z.div_small. lia.
    + cbn [length]. rewrite Nat2Z.inj_succ.
      destruct (Z.le_gt_cases now (start + days 30)) as [Hlast|Hmore].
      * rewrite Z.min_r by lia. rewrite IH by lia.
        replace (now - now + days 30 - 1) with (days 30 - 1) by lia.
        rewrite Z.div_small by lia.
        replace (now - start + days 30 - 1)
          with ((now - start - 1) + 1 * days 30) by lia.
        rewrite Z.div_add by lia. rewrite Z.div_small by lia. reflexivity.
      * rewrite Z.min_l by lia. rewrite IH by lia.
        replace (now - start + days 30 - 1)
          with ((now - (start + days 30) + days 30 - 1) + 1 * days 30) by lia.
        rewrite Z.div_add by lia. lia.
Qed.

(** X15. How many windows a stream gets: the span from the bookmark to now
    divided by thirty days, rounded up. *)
Theorem window_count (last now : Z) (fuel : nat) :
  last <= now ->
  now - last <= Z.of_nat fuel * days 30 ->
  exists ws : list (Z * Z),
    (forall (L : Type) (body : Z -> Z -> L -> M (flow L)) (l : L) (w : world),
       window_loop body now 30 fuel (fst (first_window last now))
         (snd (first_window last now)) l w
       = over_windows body ws l w)
    /\ Z.of_nat (length ws) = (now - last + days 30 - 1) / days 30.
Proof.
  intros Hle Hfuel. exists (schedule fuel last now). split.
  - intros L body l w. rewrite first_window_min. cbn [fst snd].
    apply window_loop_schedule; assumption.
  - apply schedule_length; assumption.
Qed.

(** Forty-five days from the bookmark to now: two windows. *)
Lemma window_count_witness :
  exists ws : list (Z * Z),
    window_loop note_window 1676419200000000 30 2
      (fst (first_window 1672531200000000 1676419200000000))
      (snd (first_window 1672531200000000 1676419200000000)) [] empty_world
    = over_windows note_window ws [] empty_world
    /\ length ws = 2%nat.
Proof.
  destruct (window_count 1672531200000000 1676419200000000 2)
    as (ws & Hrun & Hlen).
  - lia.
  - vm_compute. discriminate.
  - exists ws. split; [apply Hrun|].
    apply Nat2Z.inj. rewrite Hlen. vm_compute. reflexivity.
Defined.
